(* ===== verification/_CoqProject ===== *)
-Q . S2P
Prelude.v
Json.v
Account.v
Storage.v
Base64.v
Auth.v
Iso.v
Session.v
Spec.v
Respect.v
Api.v
Pages.v
Forms.v
Ui.v
App.v
Ids.v
