(* ===== verification/Prelude.v ===== *)
(** * A verification development of the student-results portal

    The program ([src/src/]) is a React application.  Its state lives
    in the browser's [localStorage] (keys [users], [token], [user]) and
    in React state; [context/AuthContext.js] owns both and exposes the
    handlers [checkAuth] (run on mount), [signup], [login],
    [loginWithGoogle], [changePassword], [getAllUsers], [logout];
    the pages [pages/Login.js], [pages/Signup.js], [pages/Dashboard.js]
    call them; [services/api.js] is a fixed table of exam results
    looked up by roll number.

    ** Files, and what each models

    - [Prelude.v] (this file): the [js] monad (state threaded through
      normal and exceptional results, [try]/[catch] as [js_catch]) with
      its notation in [js_scope]; JavaScript truthiness and [||] on
      [getItem] results; [Number.prototype.toString]; the Array methods
      [find], [some], [findIndex]; the lemmas, hint databases [portal]
      and [portal_rw] shared by the components.
    - [Json.v]: [JSON.stringify] and [JSON.parse] with one-byte
      characters (numbers kept as their text), a fuel-driven
      recursive-descent parser
      ([parse_fuel]; [parse] gives it one more than twice the text
      length, enough by [parse_fuel_stable]), and the round trip
      [parse (stringify j) = Some j] on values without numbers.
    - [Account.v]: the account object the handlers build, its JSON form,
      and the codec of the [users] key with its round trip.
    - [Storage.v]: [localStorage] as the typeclass [KVStore] with laws
      [KVStoreLaws], the [gmap string string] instance, observational
      equivalence [st_equiv] with [Proper] instances.
    - [Base64.v]: [btoa], used to mint the token, with a decoder, the
      round trip and the length of its output.
    - [Auth.v]: every handler of [AuthContext.js] as a [js] computation
      on [world] = (store, [user], [loading]), proved against the
      [KVStore] interface; functional specifications of each handler on
      every branch (errors included), and the claims C3-C8, C11-C15,
      C17, C18.
    - [Iso.v]: [Date.prototype.toISOString] computed from the
      milliseconds since the epoch, checked against what JavaScript
      prints, and the clocks of the examples shown consistent.
    - [Session.v]: the handlers as a labelled step relation; the store
      invariant over every reachable run (C1) by rule induction, and
      the refinement of the spec's two-state session machine (C19).
    - [Spec.v]: an abstract specification of the auth context on
      decoded state (account list, restorable session, [user],
      [loading]) with the abstraction function [absr]; every handler
      refines it (C2); on top of it, the well-formedness of the
      [users] key along every run (C9) and the absence of dead ends
      (C20).
    - [Respect.v]: the handlers observe the store only through
      [getItem]: each is [Proper] for the equivalence of worlds
      [w_equiv], equivalent worlds are bisimilar for [Session.step],
      and equivalent initial stores reach equivalent worlds.
    - [Api.v]: the results fixture, the two lookups (C21),
      [fetchExternalData] with the network's answer as an argument,
      and the [apiService] export.
    - [Pages.v]: the page handlers and effects of [Login.js],
      [Signup.js] and [Dashboard.js], composed with the auth handlers
      on (world, page state) (C24-C28), and the end-to-end run signup,
      login, Dashboard (C22); the grade badge class, whose lookup
      falls back on the properties of [Object.prototype].
    - [Forms.v]: the browser's constraint validation of the Signup and
      Login forms ([required], [minLength], [type="email"] with the
      HTML standard's e-mail syntax), the controlled inputs and
      show-password toggles, and the rendered views of the Login,
      Signup and Unauthorized pages; every submission and
      Google flow of those pages hands the buttons back (C33).
    - [Ui.v]: which parts of the Dashboard render for a session, the
      controls each part holds, and the runs of on-screen actions: a
      session that is not an admin's cannot change any account (C23).
    - [App.v]: the provider's value ([provider_value]) and [useAuth];
      the whole application as the pages drive it (page
      loads, validated form submissions, Google buttons, Dashboard
      controls): every stored password keeps six characters or more
      (C10), the credentials the Login page advertises (C16), and a new
      student's journey from the Signup form through the Login form to
      the dashboard (C29); no interaction loses, reorders or edits a
      stored account other than its password (C30); a session survives
      page reloads until logout (C34).  Each step is
      indexed by the clock its handler reads, and [handler_effect]
      says which single handler call a step makes.
    - [Ids.v]: the account ids the handlers mint from the clock: on
      runs whose clock strictly advances they stay distinct (C31);
      two accounts created within one millisecond share an id (C32).

    ** What the theorems show

    Store invariants (unique emails, the admin email present, the admin
    role forced on the admin session, a well-formed [users] key); the
    behaviour of each handler on each branch, and its refinement of a
    list-level specification; idempotence of the admin seeding and of
    Google login; the interaction of [changePassword] with [login]; the
    session restore trusting the token's presence only; the error path
    of a store whose [users] text is not JSON, which is never
    repaired; the Dashboard search on each of its branches; a new
    student's journey from signup to the dashboard; sessions across
    page reloads; the uniqueness of account ids on a clock that
    advances; the role gate of the Dashboard; the password length the
    pages keep; the buttons the pages hand back.  Library lemmas (not
    claims) give the round trips of the JSON and Base64 encodings, the
    termination of the JSON reader, and the independence of the
    handlers from how the store represents its keys.  Theorems that
    record defects: [loginWithGoogle] opens a session for any typed
    email, the admin's included (C14), and stores the guessable
    password ["google-" ++ email] (C15); the Login page shows the admin
    password, and demo accounts that do not exist (C16); any visitor
    can register with another student's roll number and is shown that
    student's results (C22); accounts created within one millisecond
    share an id (C32).

    ** Bounds and fuel

    [Json.parse] runs its recursive descent with fuel [2 * length + 1].
    Every successful call leaves a strictly shorter remainder
    ([parse_length]), and one nesting level spends two units of fuel
    (a value and its element list) on at least one character; so past
    that bound more fuel changes nothing ([parse_fuel_mono]), a result
    found with less fuel is the same ([parse_fuel_Some_mono]), and
    [parse] is the unbounded [JSON.parse] on every text.  On the
    texts [stringify] prints, [jsize] fuel is enough ([jsize_le_length]).
    Concrete inputs use a [gmap] store and the clock 1700000000000.

    ** Modelling choices

    A character is one byte ([ascii]): JavaScript strings are UTF-16,
    so text outside Latin-1 is not modelled; a [\u] escape above 0xFF
    is rejected by [Json.parse].  A stored value that is JSON but not
    an array of complete account objects (a hand-edited [users] key
    such as [[{}]]) is treated like unparsable text (the handler's
    [catch] runs); the JavaScript code would instead read [undefined]
    fields and go on.  The claims about a corrupt store (C17) assume
    text that [JSON.parse] rejects, where both agree.  JSON numbers
    are kept as their text and printed back as read.  The clock is an argument of each handler: its
    two readings [now_ms] ([Date.now()]) and [now_iso]
    ([toISOString()]) are taken as given; [Iso.iso_of_ms] computes the
    second from the first, and every clock of the examples satisfies
    [Iso.consistent_clock].  Each handler
    contains no [await] and runs in one turn, so a handler is one
    transition; the 500 ms delay of [api.js] changes no state and is
    omitted.  [setTimeout] callbacks are recorded as pending, not run.
    [setItem] quota errors are not modelled (the handlers would report
    their error message).  Form values are the sanitized values React
    reads from the inputs.

    ** Not modelled

    Styling and the static markup (headings, labels, icons); routing
    ([navigate] and [Link] are recorded as a route); [console]
    output; the network itself (what [axios.get] answers is an
    argument of [fetchExternalData]); the shortest-form printing of
    JSON numbers, which no value the code writes holds; characters
    beyond one byte. *)

From stdpp Require Import base strings list.
From Stdlib Require Import DecimalString DecimalN ZArith.

(** ** JavaScript exceptions and the effect monad

    The handlers of [src/src/context/AuthContext.js] run inside
    [try { ... } catch (error) { ... }] blocks.  The only calls in
    them that throw are [JSON.parse] on text that is not JSON
    ([SyntaxError]) and property accesses on a parsed value that has
    the wrong shape ([TypeError]).  Writes done before a throw stay
    done, so the monad threads the state through the exceptional
    path as well. *)

(** [SyntaxError] and [TypeError] come from the platform; [JsError m]
    is [new Error(m)] thrown by the code itself. *)
Inductive exn := SyntaxError | TypeError | JsError (message : string).

Inductive outcome (A : Type) :=
| Ok (a : A)
| Throw (e : exn).
Arguments Ok {A} a.
Arguments Throw {A} e.

Definition js (S A : Type) : Type := S -> outcome A * S.

Definition js_ret {S A} (a : A) : js S A := fun s => (Ok a, s).

Definition js_bind {S A B} (m : js S A) (k : A -> js S B) : js S B :=
  fun s =>
    match m s with
    | (Ok a, s') => k a s'
    | (Throw e, s') => (Throw e, s')
    end.

Definition js_throw {S A} (e : exn) : js S A := fun s => (Throw e, s).

(** [try { m } catch (error) { h }]: the handler runs in the state
    the failed body left behind. *)
Definition js_catch {S A} (m : js S A) (h : exn -> js S A) : js S A :=
  fun s =>
    match m s with
    | (Throw e, s') => h e s'
    | r => r
    end.

Definition js_get {S} : js S S := fun s => (Ok s, s).
Definition js_modify {S} (f : S -> S) : js S unit := fun s => (Ok tt, f s).

(** An [option] produced by a platform call that throws on [None]. *)
Definition js_lift {S A} (e : exn) (o : option A) : js S A :=
  match o with Some a => js_ret a | None => js_throw e end.

Declare Scope js_scope.
Delimit Scope js_scope with js.
Notation "x <- m ;; k" := (js_bind m (fun x => k))
  (at level 100, m at next level, right associativity) : js_scope.
Notation "m ;; k" := (js_bind m (fun _ => k))
  (at level 100, right associativity) : js_scope.

(** ** JavaScript truthiness of a [localStorage.getItem] result

    [getItem] returns [null] for a missing key; [null] and the empty
    string are falsy, every other string is truthy. *)
Definition truthy (o : option string) : bool :=
  match o with
  | Some s => negb (bool_decide (s = EmptyString))
  | None => false
  end.

(** [localStorage.getItem(k) || d] *)
Definition or_default (o : option string) (d : string) : string :=
  match o with
  | Some s => if truthy (Some s) then s else d
  | None => d
  end.

(** ** Number to string, as [n.toString()] and template literals print
    a non-negative integer: decimal, no sign, no leading zeros. *)
Definition string_of_N (n : N) : string :=
  NilEmpty.string_of_uint (N.to_uint n).

(** ** The Array methods the source calls *)
Section ArrayMethods.
Context {A : Type}.

(** [Array.prototype.find]: the first element satisfying [p]. *)
Fixpoint js_find (p : A -> bool) (l : list A) : option A :=
  match l with
  | [] => None
  | x :: l' => if p x then Some x else js_find p l'
  end.

(** [Array.prototype.some] *)
Fixpoint js_some (p : A -> bool) (l : list A) : bool :=
  match l with
  | [] => false
  | x :: l' => p x || js_some p l'
  end.

(** [Array.prototype.findIndex]: an index, or [-1]. *)
Fixpoint js_findIndex (p : A -> bool) (l : list A) : Z :=
  match l with
  | [] => (-1)%Z
  | x :: l' => if p x then 0%Z else
               let i := js_findIndex p l' in
               if (i =? -1)%Z then (-1)%Z else (1 + i)%Z
  end.
End ArrayMethods.

(** ** Shared lemmas *)

Create HintDb portal discriminated.
Create Rewrite HintDb portal_rw.

Section MonadLaws.
Context {S : Type}.

Lemma js_bind_ret_l {A B} (a : A) (k : A -> js S B) :
  js_bind (js_ret a) k = k a.
Proof. reflexivity. Qed.

Lemma js_bind_throw {A B} (e : exn) (k : A -> js S B) :
  js_bind (js_throw e) k = js_throw e.
Proof. reflexivity. Qed.

Lemma js_bind_assoc {A B C} (m : js S A) (k : A -> js S B) (h : B -> js S C) (s : S) :
  js_bind (js_bind m k) h s = js_bind m (fun a => js_bind (k a) h) s.
Proof. unfold js_bind. by destruct (m s) as [[a|e] s']. Qed.

Lemma js_catch_ret {A} (a : A) (h : exn -> js S A) :
  js_catch (js_ret a) h = js_ret a.
Proof. reflexivity. Qed.

(** A [try] whose [catch] returns a value never throws. *)
Lemma js_catch_total {A} (m : js S A) (f : exn -> A) (s : S) :
  exists a s', js_catch m (fun e => js_ret (f e)) s = (Ok a, s').
Proof. unfold js_catch. destruct (m s) as [[a|e] s']; eauto. Qed.
End MonadLaws.

#[export] Hint Rewrite @js_bind_ret_l @js_bind_throw @js_catch_ret : portal_rw.

Section ArrayLemmas.
Context {A : Type} (p : A -> bool).

Lemma js_find_Some (l : list A) (x : A) :
  js_find p l = Some x -> p x = true /\ x ∈ l.
Proof.
  induction l as [|y l IH]; simpl; [done|].
  destruct (p y) eqn:E; [intros [= <-]; split; [done | left]|].
  intros H. destruct (IH H). split; [done | by right].
Qed.

Lemma js_find_None (l : list A) :
  js_find p l = None <-> (forall x, x ∈ l -> p x = false).
Proof.
  induction l as [|y l IH]; simpl.
  - split; [intros _ x Hx; inversion Hx | done].
  - destruct (p y) eqn:E.
    + split; [done|]. intros H. rewrite (H y) in E; [done | left].
    + rewrite IH. split.
      * intros H x Hx. inversion Hx; subst; auto.
      * intros H x Hx. apply H. by right.
Qed.

Lemma js_some_true (l : list A) :
  js_some p l = true <-> exists x, x ∈ l /\ p x = true.
Proof.
  induction l as [|y l IH]; simpl.
  - split; [done | intros (x & Hx & _); inversion Hx].
  - rewrite orb_true_iff, IH. split.
    + intros [H | (x & Hx & H)]; [exists y; split; [left | done]|].
      exists x. split; [by right | done].
    + intros (x & Hx & H). inversion Hx; subst; [by left | right; eauto].
Qed.

(** [some] and [find] agree on whether a match exists. *)
Lemma js_some_find (l : list A) :
  js_some p l = match js_find p l with Some _ => true | None => false end.
Proof. induction l as [|y l IH]; simpl; [done|]. by destruct (p y). Qed.

Lemma js_findIndex_find (l : list A) :
  js_find p l = None /\ js_findIndex p l = (-1)%Z \/
  exists i x, js_find p l = Some x /\ js_findIndex p l = Z.of_nat i /\ l !! i = Some x.
Proof.
  induction l as [|y l IH]; simpl; [by left|].
  destruct (p y) eqn:E; [right; exists 0, y; done|].
  destruct IH as [[-> ->] | (i & x & -> & -> & Hi)]; [by left|].
  right. exists (S i), x. split; [done|]. split; [|done].
  destruct (Z.eqb_spec (Z.of_nat i) (-1)); lia.
Qed.
(** [find] on a concatenation looks in the second part only when the
    first has no match. *)
Lemma js_find_app (l k : list A) :
  js_find p (l ++ k) = match js_find p l with Some x => Some x | None => js_find p k end.
Proof. induction l as [|y l IH]; simpl; [done|]. by destruct (p y). Qed.
End ArrayLemmas.

(** ** Decimal printing *)

(** [n.toString()] tells numbers apart. *)
Lemma string_of_N_inj n m : string_of_N n = string_of_N m -> n = m.
Proof.
  unfold string_of_N. intros E. apply (f_equal NilEmpty.uint_of_string) in E.
  rewrite !NilEmpty.usu in E. injection E. apply DecimalN.Unsigned.to_uint_inj.
Qed.

(** ... and starts with a decimal digit. *)
Lemma string_of_N_head n : exists c t, string_of_N n = String c t /\ (48 <= Ascii.N_of_ascii c <= 57)%N.
Proof.
  unfold string_of_N. destruct (N.to_uint n) as [|d|d|d|d|d|d|d|d|d|d] eqn:E;
    [|eexists _, _; split; [reflexivity|]; cbn; lia ..].
  exfalso. pose proof (DecimalN.Unsigned.of_to n) as H. rewrite E in H. cbn in H. subst n. discriminate.
Qed.

#[export] Hint Resolve js_find_Some : portal.

(** String concatenation, written [+:+] in stdpp (which makes [simpl]
    leave it folded, so it is unfolded by these equations). *)
Lemma sapp_nil_l (a : string) : EmptyString +:+ a = a.
Proof. reflexivity. Qed.

Lemma sapp_cons (x : Ascii.ascii) (a b : string) : String x a +:+ b = String x (a +:+ b).
Proof. reflexivity. Qed.

Lemma sapp_assoc (a b c : string) : (a +:+ b) +:+ c = a +:+ (b +:+ c).
Proof. induction a as [|x a IH]; [done|]. by rewrite !sapp_cons, IH. Qed.

Lemma sapp_nil_r (a : string) : a +:+ EmptyString = a.
Proof. induction a as [|x a IH]; [done|]. by rewrite sapp_cons, IH. Qed.

Lemma sapp_length (a b : string) :
  String.length (a +:+ b) = String.length a + String.length b.
Proof. induction a as [|x a IH]; [done|]. rewrite sapp_cons. simpl. by rewrite IH. Qed.

#[export] Hint Rewrite sapp_nil_l sapp_cons sapp_assoc sapp_nil_r sapp_length : portal_rw.
