(* ===== verification/Json.v ===== *)
(** * JSON text: the serialisation [localStorage] holds

    [AuthContext.js] stores the account list under the key [users] as
    [JSON.stringify(existingUsers)] and reads it back with
    [JSON.parse(...)]; the session snapshot under [user] likewise.
    This file models JSON with one-byte characters (null, booleans,
    strings, numbers, arrays, objects).  [parse] is a recursive-descent
    reader that accepts exactly the texts [JSON.parse] accepts, whose
    [\u] escapes stay at or below 0xFF (a character here is one byte),
    and fails on the rest; a number is kept as its text.  [stringify]
    follows ECMA-262 [JSON.stringify] on values without numbers (no
    whitespace, the escapes of QuoteJSONString), which are all the
    values the code writes; it prints a number's text as read, where
    JavaScript would print its shortest form.  The main theorem is the
    round trip [parse (stringify j) = Some j] on values without
    numbers. *)

From stdpp Require Import base strings list.
From Stdlib Require Import ZArith Ascii.
From S2P Require Import Prelude.

Module Json.

#[warnings="-register-all"]
Inductive json :=
| JNull
| JBool (b : bool)
| JString (s : string)
| JNumber (lead : Ascii.ascii) (rest : string)
| JArray (xs : list json)
| JObject (fs : list (string * json)).

(** Induction with hypotheses on the elements of arrays and the values
    of objects. *)
Section json_rect.
Variable P : json -> Prop.
Hypothesis Hnull : P JNull.
Hypothesis Hbool : forall b, P (JBool b).
Hypothesis Hstring : forall s, P (JString s).
Hypothesis Hnumber : forall c t, P (JNumber c t).
Hypothesis Harray : forall xs, Forall P xs -> P (JArray xs).
Hypothesis Hobject : forall fs, Forall (fun kv => P kv.2) fs -> P (JObject fs).

Fixpoint json_ind' (j : json) : P j :=
  match j with
  | JNull => Hnull
  | JBool b => Hbool b
  | JString s => Hstring s
  | JNumber c t => Hnumber c t
  | JArray xs =>
      Harray xs ((fix go (l : list json) : Forall P l :=
                    match l with
                    | [] => @List.Forall_nil _ P
                    | x :: l' => @List.Forall_cons _ P x l' (json_ind' x) (go l')
                    end) xs)
  | JObject fs =>
      Hobject fs ((fix go (l : list (string * json)) : Forall (fun kv => P kv.2) l :=
                     match l with
                     | [] => @List.Forall_nil _ _
                     | kv :: l' => @List.Forall_cons _ (fun kv => P kv.2) kv l' (json_ind' kv.2) (go l')
                     end) fs)
  end.
End json_rect.

(** ** Characters *)

Definition dquote : Ascii.ascii := Ascii.ascii_of_nat 34.
Definition bslash : Ascii.ascii := Ascii.ascii_of_nat 92.

Definition chr (n : N) : Ascii.ascii := Ascii.ascii_of_N n.
Definition code (c : Ascii.ascii) : N := Ascii.N_of_ascii c.

(** Lower-case hexadecimal digit, as [JSON.stringify] writes [\u]. *)
Definition hex_digit (n : N) : Ascii.ascii :=
  if (n <? 10)%N then chr (48 + n) else chr (87 + n).

(** The value of a hexadecimal digit of either case. *)
Definition hex_val (c : Ascii.ascii) : option N :=
  let n := code c in
  if ((48 <=? n) && (n <=? 57))%N then Some (n - 48)%N
  else if ((97 <=? n) && (n <=? 102))%N then Some (n - 87)%N
  else if ((65 <=? n) && (n <=? 70))%N then Some (n - 55)%N
  else None.

(** ** [JSON.stringify] on strings: QuoteJSONString of ECMA-262.
    Backspace, tab, newline, form feed, carriage return, the quote
    and the backslash get their two-character escapes; other code
    units below 0x20 get [\u00XX]; every other character is copied. *)
Definition escape_char (c : Ascii.ascii) : string :=
  let n := code c in
  let two (e : Ascii.ascii) := String bslash (String e EmptyString) in
  if bool_decide (n = 8%N) then two "b"%char
  else if bool_decide (n = 9%N) then two "t"%char
  else if bool_decide (n = 10%N) then two "n"%char
  else if bool_decide (n = 12%N) then two "f"%char
  else if bool_decide (n = 13%N) then two "r"%char
  else if bool_decide (n = 34%N) then two dquote
  else if bool_decide (n = 92%N) then two bslash
  else if (n <? 32)%N then
    String bslash (String "u"%char (String "0"%char (String "0"%char
      (String (hex_digit (n / 16)) (String (hex_digit (n mod 16)) EmptyString)))))
  else String c EmptyString.

Fixpoint escape (s : string) : string :=
  match s with
  | EmptyString => EmptyString
  | String c s' => escape_char c +:+ escape s'
  end.

Definition quote (s : string) : string :=
  String dquote (escape s +:+ String dquote EmptyString).

(** ** [JSON.stringify]: no whitespace, members in insertion order,
    elements separated by commas. *)
Fixpoint stringify (j : json) : string :=
  match j with
  | JNull => "null"
  | JBool true => "true"
  | JBool false => "false"
  | JString s => quote s
  | JNumber c t => String c t
  | JArray xs =>
      String "["%char
        ((fix go (l : list json) : string :=
            match l with
            | [] => EmptyString
            | [x] => stringify x
            | x :: l' => stringify x +:+ String ","%char (go l')
            end) xs +:+ "]")
  | JObject fs =>
      String "{"%char
        ((fix go (l : list (string * json)) : string :=
            match l with
            | [] => EmptyString
            | [(k, v)] => quote k +:+ String ":"%char (stringify v)
            | (k, v) :: l' => (quote k +:+ String ":"%char (stringify v)) +:+ String ","%char (go l')
            end) fs +:+ "}")
  end.

(** ** [JSON.parse] *)

(** JSON whitespace: space, tab, newline, carriage return. *)
Definition is_ws (c : Ascii.ascii) : bool :=
  bool_decide (code c = 32%N) || bool_decide (code c = 9%N) ||
  bool_decide (code c = 10%N) || bool_decide (code c = 13%N).

Fixpoint skip_ws (s : string) : string :=
  match s with
  | String c s' => if is_ws c then skip_ws s' else s
  | EmptyString => EmptyString
  end.

(** [strip_prefix p s]: the rest of [s] after the literal [p]. *)
Fixpoint strip_prefix (p s : string) : option string :=
  match p, s with
  | EmptyString, _ => Some s
  | String a p', String b s' => if bool_decide (a = b) then strip_prefix p' s' else None
  | String _ _, EmptyString => None
  end.

(** The character a two-character escape [\e] stands for. *)
Definition simple_unescape (e : Ascii.ascii) : option Ascii.ascii :=
  let n := code e in
  if bool_decide (n = 34%N) then Some dquote
  else if bool_decide (n = 92%N) then Some bslash
  else if bool_decide (n = 47%N) then Some (chr 47)
  else if bool_decide (e = "b"%char) then Some (chr 8)
  else if bool_decide (e = "f"%char) then Some (chr 12)
  else if bool_decide (e = "n"%char) then Some (chr 10)
  else if bool_decide (e = "r"%char) then Some (chr 13)
  else if bool_decide (e = "t"%char) then Some (chr 9)
  else None.

(** The code unit of [\uXXXX]; one above 0xFF has no one-byte character. *)
Definition hex4 (a b c d : Ascii.ascii) : option Ascii.ascii :=
  match hex_val a, hex_val b, hex_val c, hex_val d with
  | Some x, Some y, Some z, Some w =>
      let v := (((x * 16 + y) * 16 + z) * 16 + w)%N in
      if (v <? 256)%N then Some (chr v) else None
  | _, _, _, _ => None
  end.

Definition cons_fst {A B} (a : A) (p : list A * B) : list A * B := (a :: p.1, p.2).
Definition scons_fst {B} (c : Ascii.ascii) (p : string * B) : string * B := (String c p.1, p.2).

(** The characters of a string literal after its opening quote, up to
    and without the closing quote; an unescaped control character is
    a syntax error. *)
Fixpoint parse_chars (s : string) : option (string * string) :=
  match s with
  | EmptyString => None
  | String c s1 =>
      if bool_decide (c = dquote) then Some (EmptyString, s1)
      else if bool_decide (c = bslash) then
        match s1 with
        | EmptyString => None
        | String u s2 =>
            if bool_decide (u = "u"%char) then
              match s2 with
              | String h1 (String h2 (String h3 (String h4 s3))) =>
                  match hex4 h1 h2 h3 h4 with
                  | Some c' => scons_fst c' <$> parse_chars s3
                  | None => None
                  end
              | _ => None
              end
            else
              match simple_unescape u with
              | Some c' => scons_fst c' <$> parse_chars s2
              | None => None
              end
        end
      else if (code c <? 32)%N then None
      else scons_fst c <$> parse_chars s1
  end.

(** ** Numbers: [-? (0 | [1-9][0-9]* ) (. [0-9]+)? ([eE] [+-]? [0-9]+)?] *)

Definition is_digit (c : Ascii.ascii) : bool := ((48 <=? code c) && (code c <=? 57))%N.

(** The longest prefix of digits, and the rest. *)
Fixpoint span_digits (s : string) : string * string :=
  match s with
  | String c s' => if is_digit c then let '(d, r) := span_digits s' in (String c d, r) else (EmptyString, s)
  | EmptyString => (EmptyString, EmptyString)
  end.

Definition scan_int (s : string) : option (string * string) :=
  match s with
  | String c r =>
      if bool_decide (c = "0"%char) then Some (String c EmptyString, r)
      else if is_digit c then let '(d, r') := span_digits r in Some (String c d, r')
      else None
  | EmptyString => None
  end.

(** An optional part introduced by one of [intro]: at least one digit
    must follow ([sign] allows a [+] or [-] first). *)
Definition scan_part (intro : Ascii.ascii -> bool) (sign : bool) (s : string) : option (string * string) :=
  match s with
  | String c r =>
      if intro c then
        let '(sg, r1) :=
          match r with
          | String c' r' =>
              if sign && (bool_decide (c' = "+"%char) || bool_decide (c' = "-"%char))
              then (String c' EmptyString, r') else (EmptyString, r)
          | EmptyString => (EmptyString, r)
          end in
        match span_digits r1 with
        | (EmptyString, _) => None
        | (d, r2) => Some (String c (sg +:+ d), r2)
        end
      else Some (EmptyString, s)
  | EmptyString => Some (EmptyString, EmptyString)
  end.

(** A number's text and the rest. *)
Definition scan_number (s : string) : option (string * string) :=
  let '(sg, s1) :=
    match s with
    | String c r => if bool_decide (c = "-"%char) then (String c EmptyString, r) else (EmptyString, s)
    | EmptyString => (EmptyString, s)
    end in
  i ← scan_int s1;
  f ← scan_part (fun c => bool_decide (c = "."%char)) false i.2;
  e ← scan_part (fun c => bool_decide (c = "e"%char) || bool_decide (c = "E"%char)) true f.2;
  Some (sg +:+ i.1 +:+ f.1 +:+ e.1, e.2).

(** Values, array elements after [[] and object members after [{].
    Each call spends one unit of [fuel]; [parse] gives one more unit
    than the text has characters. *)
Fixpoint parse_value (fuel : nat) (s : string) {struct fuel} : option (json * string) :=
  match fuel with
  | O => None
  | S f =>
      match skip_ws s with
      | EmptyString => None
      | String c r =>
          if bool_decide (c = dquote) then (fun p => (JString p.1, p.2)) <$> parse_chars r
          else if bool_decide (c = "["%char) then
            match skip_ws r with
            | String c' r' =>
                if bool_decide (c' = "]"%char) then Some (JArray [], r')
                else (fun p => (JArray p.1, p.2)) <$> parse_elems f r
            | EmptyString => None
            end
          else if bool_decide (c = "{"%char) then
            match skip_ws r with
            | String c' r' =>
                if bool_decide (c' = "}"%char) then Some (JObject [], r')
                else (fun p => (JObject p.1, p.2)) <$> parse_members f r
            | EmptyString => None
            end
          else if bool_decide (c = "-"%char) || is_digit c then
            match scan_number (String c r) with
            | Some (String c0 t, r') => Some (JNumber c0 t, r')
            | _ => None
            end
          else if bool_decide (c = "n"%char) then (fun r' => (JNull, r')) <$> strip_prefix "ull" r
          else if bool_decide (c = "t"%char) then (fun r' => (JBool true, r')) <$> strip_prefix "rue" r
          else if bool_decide (c = "f"%char) then (fun r' => (JBool false, r')) <$> strip_prefix "alse" r
          else None
      end
  end
with parse_elems (fuel : nat) (s : string) {struct fuel} : option (list json * string) :=
  match fuel with
  | O => None
  | S f =>
      match parse_value f s with
      | None => None
      | Some (x, r) =>
          match skip_ws r with
          | String c r' =>
              if bool_decide (c = ","%char) then cons_fst x <$> parse_elems f r'
              else if bool_decide (c = "]"%char) then Some ([x], r')
              else None
          | EmptyString => None
          end
      end
  end
with parse_members (fuel : nat) (s : string) {struct fuel} : option (list (string * json) * string) :=
  match fuel with
  | O => None
  | S f =>
      match skip_ws s with
      | String c r =>
          if bool_decide (c = dquote) then
            match parse_chars r with
            | None => None
            | Some (k, r1) =>
                match skip_ws r1 with
                | String c1 r2 =>
                    if bool_decide (c1 = ":"%char) then
                      match parse_value f r2 with
                      | None => None
                      | Some (v, r3) =>
                          match skip_ws r3 with
                          | String c3 r4 =>
                              if bool_decide (c3 = ","%char) then cons_fst (k, v) <$> parse_members f r4
                              else if bool_decide (c3 = "}"%char) then Some ([(k, v)], r4)
                              else None
                          | EmptyString => None
                          end
                      end
                    else None
                | EmptyString => None
                end
            end
          else None
      | EmptyString => None
      end
  end.

(** [JSON.parse] with [n] units of fuel: one value, then nothing but
    whitespace. *)
Definition parse_fuel (n : nat) (s : string) : option json :=
  match parse_value n s with
  | Some (j, r) => if bool_decide (skip_ws r = EmptyString) then Some j else None
  | None => None
  end.

(** [JSON.parse]: twice the length of the text, and one more unit, is
    enough fuel ([parse_fuel_stable] below). *)
Definition parse (s : string) : option json := parse_fuel (S (2 * String.length s)) s.

(** ** Sizes and the printed forms of elements and members *)

(** A value without numbers: every value the code builds. *)
Fixpoint num_free (j : json) : bool :=
  match j with
  | JNumber _ _ => false
  | JArray xs => forallb num_free xs
  | JObject fs => forallb (fun kv => num_free kv.2) fs
  | _ => true
  end.

Fixpoint jsize (j : json) : nat :=
  match j with
  | JArray xs => 1 + (fix go (l : list json) : nat :=
                        match l with [] => 0 | x :: l' => 1 + jsize x + go l' end) xs
  | JObject fs => 1 + (fix go (l : list (string * json)) : nat :=
                         match l with [] => 0 | (_, v) :: l' => 1 + jsize v + go l' end) fs
  | _ => 1
  end.

Fixpoint esize (l : list json) : nat :=
  match l with [] => 0 | x :: l' => 1 + jsize x + esize l' end.

Fixpoint msize (l : list (string * json)) : nat :=
  match l with [] => 0 | (_, v) :: l' => 1 + jsize v + msize l' end.

Fixpoint elems_str (l : list json) : string :=
  match l with
  | [] => EmptyString
  | [x] => stringify x
  | x :: l' => stringify x +:+ String ","%char (elems_str l')
  end.

Fixpoint members_str (l : list (string * json)) : string :=
  match l with
  | [] => EmptyString
  | [(k, v)] => quote k +:+ String ":"%char (stringify v)
  | (k, v) :: l' => (quote k +:+ String ":"%char (stringify v)) +:+ String ","%char (members_str l')
  end.

Lemma jsize_array xs : jsize (JArray xs) = 1 + esize xs.
Proof. reflexivity. Qed.

Lemma jsize_object fs : jsize (JObject fs) = 1 + msize fs.
Proof. reflexivity. Qed.

Lemma stringify_array xs : stringify (JArray xs) = String "["%char (elems_str xs +:+ "]").
Proof. reflexivity. Qed.

Lemma stringify_object fs : stringify (JObject fs) = String "{"%char (members_str fs +:+ "}").
Proof. reflexivity. Qed.

(** ** The round trip, character by character *)

Lemma parse_chars_escape_char c r :
  parse_chars (escape_char c +:+ r) = scons_fst c <$> parse_chars r.
Proof. destruct c as [[] [] [] [] [] [] [] []]; reflexivity. Qed.

Lemma parse_chars_escape s r :
  parse_chars (escape s +:+ String dquote r) = Some (s, r).
Proof.
  induction s as [|c s IH]; [reflexivity|].
  simpl escape. rewrite sapp_assoc, parse_chars_escape_char, IH. reflexivity.
Qed.

Lemma parse_chars_quote s r :
  parse_chars ((escape s +:+ String dquote EmptyString) +:+ r) = Some (s, r).
Proof. rewrite sapp_assoc. apply parse_chars_escape. Qed.

(** Every printed value starts with a character that is neither
    whitespace nor a closing bracket. *)
Lemma stringify_head j : num_free j = true ->
  exists c t, stringify j = String c t /\ is_ws c = false /\
              c <> "]"%char /\ c <> "}"%char.
Proof. destruct j as [| [] | | | |]; intros Hj; try done; eexists _, _; (split; [reflexivity | done]). Qed.

(** Every printed value is a non-empty text. *)
Lemma stringify_String j : exists c t, stringify j = String c t.
Proof. destruct j as [| [] | | | |]; eexists _, _; reflexivity. Qed.

Lemma skip_ws_stringify j r : num_free j = true -> skip_ws (stringify j +:+ r) = stringify j +:+ r.
Proof.
  intros Hj. destruct (stringify_head j Hj) as (c & t & -> & Hws & _). simpl. by rewrite Hws.
Qed.

Lemma skip_ws_stringify_head j t : num_free j = true ->
  exists c u, skip_ws (stringify j +:+ t) = String c u /\ String c u = stringify j +:+ t /\
              c <> "]"%char /\ c <> "}"%char.
Proof.
  intros Hj. destruct (stringify_head j Hj) as (c & u & E & Hws & H1 & H2).
  exists c, (u +:+ t). rewrite E, sapp_cons. simpl. rewrite Hws. done.
Qed.

Lemma elems_str_cons2 x y xs :
  elems_str (x :: y :: xs) = stringify x +:+ String ","%char (elems_str (y :: xs)).
Proof. reflexivity. Qed.

Lemma members_str_cons2 k v kv fs :
  members_str ((k, v) :: kv :: fs) =
  (quote k +:+ String ":"%char (stringify v)) +:+ String ","%char (members_str (kv :: fs)).
Proof. reflexivity. Qed.

(** One step of the parser on each kind of opening character. *)
Lemma parse_value_dquote f t :
  parse_value (S f) (String dquote t) = (fun p => (JString p.1, p.2)) <$> parse_chars t.
Proof. reflexivity. Qed.

Lemma parse_value_lbrack f t :
  parse_value (S f) (String "["%char t) =
  match skip_ws t with
  | String c' r' => if bool_decide (c' = "]"%char) then Some (JArray [], r')
                    else (fun p => (JArray p.1, p.2)) <$> parse_elems f t
  | EmptyString => None
  end.
Proof. reflexivity. Qed.

Lemma parse_value_lbrace f t :
  parse_value (S f) (String "{"%char t) =
  match skip_ws t with
  | String c' r' => if bool_decide (c' = "}"%char) then Some (JObject [], r')
                    else (fun p => (JObject p.1, p.2)) <$> parse_members f t
  | EmptyString => None
  end.
Proof. reflexivity. Qed.

Lemma parse_elems_comma f x s r :
  parse_value f s = Some (x, String ","%char r) ->
  parse_elems (S f) s = cons_fst x <$> parse_elems f r.
Proof. intros H. simpl. by rewrite H. Qed.

Lemma parse_elems_close f x s r :
  parse_value f s = Some (x, String "]"%char r) -> parse_elems (S f) s = Some ([x], r).
Proof. intros H. simpl. by rewrite H. Qed.

(** A member whose key is printed by [quote]: the key is read back,
    then the colon, then the value. *)
Lemma parse_members_key f k s :
  parse_members (S f) (quote k +:+ String ":"%char s) =
  match parse_value f s with
  | None => None
  | Some (v, r3) =>
      match skip_ws r3 with
      | String c3 r4 =>
          if bool_decide (c3 = ","%char) then cons_fst (k, v) <$> parse_members f r4
          else if bool_decide (c3 = "}"%char) then Some ([(k, v)], r4)
          else None
      | EmptyString => None
      end
  end.
Proof.
  unfold quote. rewrite sapp_cons.
  change (parse_members (S f) (String dquote ?t)) with
    (match parse_chars t with
     | None => None
     | Some (k, r1) =>
         match skip_ws r1 with
         | String c1 r2 =>
             if bool_decide (c1 = ":"%char) then
               match parse_value f r2 with
               | None => None
               | Some (v, r3) =>
                   match skip_ws r3 with
                   | String c3 r4 =>
                       if bool_decide (c3 = ","%char) then cons_fst (k, v) <$> parse_members f r4
                       else if bool_decide (c3 = "}"%char) then Some ([(k, v)], r4)
                       else None
                   | EmptyString => None
                   end
               end
             else None
         | EmptyString => None
         end
     end).
  by rewrite parse_chars_quote.
Qed.

Lemma parse_members_comma f k v s r :
  parse_value f s = Some (v, String ","%char r) ->
  parse_members (S f) (quote k +:+ String ":"%char s) = cons_fst (k, v) <$> parse_members f r.
Proof. intros H. by rewrite parse_members_key, H. Qed.

Lemma parse_members_close f k v s r :
  parse_value f s = Some (v, String "}"%char r) ->
  parse_members (S f) (quote k +:+ String ":"%char s) = Some ([(k, v)], r).
Proof. intros H. by rewrite parse_members_key, H. Qed.

(** ** The round trip on values *)

Definition printed_ok (j : json) : Prop :=
  num_free j = true -> forall f r, jsize j <= f -> parse_value f (stringify j +:+ r) = Some (j, r).

Lemma parse_elems_printed xs :
  Forall printed_ok xs -> forallb num_free xs = true -> xs <> [] ->
  forall f r, esize xs <= f -> parse_elems f (elems_str xs +:+ String "]"%char r) = Some (xs, r).
Proof.
  induction 1 as [|x xs Hx Hxs IH]; [done|]. intros Hn _ [|f] r Hf; [simpl in Hf; lia|].
  cbn [forallb] in Hn. apply andb_prop in Hn as [Hnx Hn].
  simpl in Hf. destruct xs as [|y xs].
  - apply parse_elems_close. apply Hx; [done | lia].
  - rewrite elems_str_cons2, sapp_assoc, sapp_cons.
    rewrite (parse_elems_comma _ x _ (elems_str (y :: xs) +:+ String "]"%char r)); [|apply Hx; [done | lia]].
    rewrite IH; [done | done | done | simpl in *; lia].
Qed.

Lemma parse_members_printed fs :
  Forall (fun kv => printed_ok kv.2) fs -> forallb (fun kv => num_free kv.2) fs = true -> fs <> [] ->
  forall f r, msize fs <= f -> parse_members f (members_str fs +:+ String "}"%char r) = Some (fs, r).
Proof.
  induction 1 as [|[k v] fs Hv Hfs IH]; [done|]. intros Hn _ [|f] r Hf; [simpl in Hf; lia|].
  cbn [forallb] in Hn. apply andb_prop in Hn as [Hnv Hn].
  simpl in Hf, Hv, Hnv. destruct fs as [|kv fs].
  - simpl members_str. rewrite sapp_assoc, sapp_cons.
    apply parse_members_close. apply Hv; [done | lia].
  - rewrite members_str_cons2, !sapp_assoc, !sapp_cons.
    rewrite (parse_members_comma _ k v _ (members_str (kv :: fs) +:+ String "}"%char r)).
    + rewrite IH; [done | done | done | destruct kv; simpl in *; lia].
    + rewrite <- sapp_cons. apply Hv; [done | lia].
Qed.

Lemma parse_value_stringify j : printed_ok j.
Proof.
  induction j as [| [] | s | c t | xs IH | fs IH] using json_ind'; intros Hn [|f] r Hf;
    try (simpl in Hf; lia); try reflexivity; try discriminate.
  - unfold stringify, quote. rewrite sapp_cons, parse_value_dquote, parse_chars_quote. done.
  - rewrite stringify_array, sapp_cons, parse_value_lbrack, jsize_array in *.
    destruct xs as [|x xs]; [reflexivity|].
    rewrite sapp_assoc, sapp_cons, sapp_nil_l.
    cbn [num_free forallb] in Hn. pose proof Hn as Hn'. apply andb_prop in Hn' as [Hnx _].
    destruct (stringify_head x Hnx) as (c & t & Ex & Hws & Hc1 & Hc2).
    replace (elems_str (x :: xs)) with (String c t +:+ match xs with [] => EmptyString | _ => String ","%char (elems_str xs) end)
      by (destruct xs; [by rewrite sapp_nil_r | by rewrite <- Ex]).
    rewrite sapp_assoc, sapp_cons. simpl skip_ws. rewrite Hws, bool_decide_eq_false_2 by done.
    rewrite <- sapp_cons, <- sapp_assoc.
    replace (String c t +:+ _) with (elems_str (x :: xs))
      by (destruct xs; [by rewrite sapp_nil_r | by rewrite <- Ex]).
    rewrite parse_elems_printed; [done | done | done | done | lia].
  - rewrite stringify_object, sapp_cons, parse_value_lbrace, jsize_object in *.
    destruct fs as [|[k v] fs]; [reflexivity|].
    rewrite sapp_assoc, sapp_cons, sapp_nil_l.
    assert (Hm : exists t, members_str ((k, v) :: fs) = String dquote t).
    { destruct fs; eexists; reflexivity. }
    destruct Hm as [t Ht]. rewrite Ht, sapp_cons. simpl skip_ws.
    cbv beta iota. rewrite bool_decide_eq_false_2 by done. rewrite <- sapp_cons, <- Ht.
    rewrite parse_members_printed; [done | done | done | done | lia].
Qed.

Lemma length_String c t : String.length (String c t) = S (String.length t).
Proof. reflexivity. Qed.

Lemma esize_le xs :
  Forall (fun x => jsize x <= String.length (stringify x)) xs ->
  esize xs <= S (String.length (elems_str xs)).
Proof.
  induction 1 as [|x xs Hx Hxs IH]; [simpl; lia|].
  destruct xs as [|y xs]; [simpl; lia|].
  rewrite elems_str_cons2, sapp_length, length_String.
  change (esize (x :: y :: xs)) with (1 + jsize x + esize (y :: xs)). lia.
Qed.

Lemma msize_le fs :
  Forall (fun kv => jsize kv.2 <= String.length (stringify kv.2)) fs ->
  msize fs <= S (String.length (members_str fs)).
Proof.
  induction 1 as [|[k v] fs Hv Hfs IH]; [simpl; lia|]. simpl in Hv.
  destruct fs as [|kv fs].
  - change (members_str [(k, v)]) with (quote k +:+ String ":"%char (stringify v)).
    rewrite sapp_length, length_String. simpl. lia.
  - rewrite members_str_cons2, !sapp_length, !length_String.
    change (msize ((k, v) :: kv :: fs)) with (1 + jsize v + msize (kv :: fs)). lia.
Qed.

Lemma jsize_le_length j : jsize j <= String.length (stringify j).
Proof.
  induction j as [| [] | s | c t | xs IH | fs IH] using json_ind'; try (simpl; lia).
  - rewrite jsize_array, stringify_array, length_String, sapp_length.
    pose proof (esize_le xs IH). simpl. lia.
  - rewrite jsize_object, stringify_object, length_String, sapp_length.
    pose proof (msize_le fs IH). simpl. lia.
Qed.

(** [JSON.parse(JSON.stringify(v))] gives [v] back. *)
Lemma parse_of_stringify j : num_free j = true -> parse (stringify j) = Some j.
Proof.
  intros Hj. unfold parse, parse_fuel. rewrite <- (sapp_nil_r (stringify j)) at 2.
  rewrite parse_value_stringify; [reflexivity | done |].
  pose proof (jsize_le_length j). lia.
Qed.


(** ** The fuel is enough

    Every successful call leaves a strictly shorter remainder, and each
    nesting level of the text spends at most two units of fuel on at
    least one character; so past twice the length of the text more fuel
    changes nothing, and [parse] gives the result of the unbounded
    recursion. *)

Lemma skip_ws_length s : String.length (skip_ws s) <= String.length s.
Proof. induction s as [|c s IH]; simpl; [done|]. destruct (is_ws c); simpl; lia. Qed.

Lemma strip_prefix_length p s r : strip_prefix p s = Some r -> String.length r <= String.length s.
Proof.
  revert s. induction p as [|a p IH]; intros [|b s]; simpl; try (intros [= <-]; simpl; lia).
  case_bool_decide; [|done]. intros Hp. specialize (IH _ Hp). lia.
Qed.

Lemma fmap_scons_Some {B} c (o : option (string * B)) k r :
  scons_fst c <$> o = Some (k, r) -> exists k', o = Some (k', r).
Proof. destruct o as [[k' r']|]; simpl; [intros [= _ <-]; eauto|done]. Qed.

Lemma parse_chars_length s k r : parse_chars s = Some (k, r) -> String.length r < String.length s.
Proof.
  remember (String.length s) as n eqn:Hn. revert s k r Hn.
  induction n as [n IH] using lt_wf_ind. intros s k r Hn.
  assert (Hrec : forall c t, String.length t < n -> scons_fst c <$> parse_chars t = Some (k, r) ->
                             String.length r < n).
  { intros c t Ht H. apply fmap_scons_Some in H as [k' H].
    pose proof (IH _ Ht t k' r eq_refl H). lia. }
  destruct s as [|c s1]; cbn [parse_chars]; [done|]. simpl in Hn. subst n.
  case_bool_decide; [intros [= _ <-]; lia|].
  case_bool_decide.
  - destruct s1 as [|u s2]; [done|]. case_bool_decide.
    + destruct s2 as [|h1 [|h2 [|h3 [|h4 s3]]]]; try done.
      destruct (hex4 h1 h2 h3 h4); [|done]. apply Hrec. simpl. lia.
    + destruct (simple_unescape u); [|done]. apply Hrec. simpl. lia.
  - destruct (code c <? 32)%N; [done|]. apply Hrec. lia.
Qed.

Lemma skip_ws_String_length s c u :
  skip_ws s = String c u -> S (String.length u) <= String.length s.
Proof. intros E. pose proof (skip_ws_length s) as L. by rewrite E in L. Qed.

Lemma span_digits_length s d r :
  span_digits s = (d, r) -> String.length d + String.length r = String.length s.
Proof.
  revert d r. induction s as [|c s IH]; intros d r; simpl; [intros [= <- <-]; done|].
  destruct (is_digit c); [|intros [= <- <-]; done].
  destruct (span_digits s) as [d' r'] eqn:E. intros [= <- <-]. specialize (IH _ _ eq_refl). simpl. lia.
Qed.

Lemma scan_int_length s i r : scan_int s = Some (i, r) -> String.length r < String.length s.
Proof.
  destruct s as [|c s]; simpl; [done|]. case_bool_decide; [intros [= _ <-]; lia|].
  destruct (is_digit c); [|done]. destruct (span_digits s) as [d r'] eqn:E. intros [= _ <-].
  apply span_digits_length in E. lia.
Qed.

Lemma scan_part_length p b s x r : scan_part p b s = Some (x, r) -> String.length r <= String.length s.
Proof.
  destruct s as [|c s]; simpl; [intros [= _ <-]; done|]. destruct (p c); [|intros [= _ <-]; simpl; lia].
  destruct (match s with String _ _ => _ | EmptyString => _ end) as [sg r1] eqn:E1.
  assert (Hs : String.length r1 <= String.length s).
  { destruct s as [|c' r']; simpl in E1; [by injection E1 as _ <-|].
    destruct (_ && _); injection E1 as _ <-; simpl; lia. }
  destruct (span_digits r1) as [d r2] eqn:E2.
  apply span_digits_length in E2. destruct d; [done|]. intros [= _ <-]. lia.
Qed.

Lemma scan_number_length s x r : scan_number s = Some (x, r) -> String.length r < String.length s.
Proof.
  unfold scan_number. intros H.
  destruct (match s with String _ _ => _ | EmptyString => _ end) as [sg s1] eqn:E1.
  assert (L1 : String.length s1 <= String.length s).
  { destruct s as [|c s']; [by injection E1 as _ <-|]. case_bool_decide; injection E1 as _ <-; simpl; lia. }
  destruct (scan_int s1) as [[i r1]|] eqn:Ei; [|done]. cbn in H.
  destruct (scan_part _ _ r1) as [[f r2]|] eqn:Ef; [|done]. cbn in H.
  destruct (scan_part _ _ r2) as [[e r3]|] eqn:Ee; [|done]. cbn in H. injection H as _ <-.
  apply scan_int_length in Ei. apply scan_part_length in Ef, Ee. lia.
Qed.

(** Turn each step of a successful parse into a length fact. *)
Ltac parse_lengths IHv IHe IHm :=
  repeat match goal with
  | p : (_ * _)%type |- _ => destruct p
  | H : skip_ws _ = String _ _ |- _ => apply skip_ws_String_length in H
  | H : parse_chars _ = Some (_, _) |- _ => apply parse_chars_length in H
  | H : strip_prefix _ _ = Some _ |- _ => apply strip_prefix_length in H
  | H : scan_number _ = Some (_, _) |- _ => apply scan_number_length in H
  | H : parse_value _ _ = Some (_, _) |- _ => apply IHv in H
  | H : parse_elems _ _ = Some (_, _) |- _ => apply IHe in H
  | H : parse_members _ _ = Some (_, _) |- _ => apply IHm in H
  end; simpl in *; lia.

Lemma parse_length n :
  (forall s x r, parse_value n s = Some (x, r) -> String.length r < String.length s) /\
  (forall s xs r, parse_elems n s = Some (xs, r) -> String.length r < String.length s) /\
  (forall s fs r, parse_members n s = Some (fs, r) -> String.length r < String.length s).
Proof.
  induction n as [|f (IHv & IHe & IHm)]; [done|].
  split_and!; intros s x r Hp; cbn [parse_value parse_elems parse_members] in Hp; unfold cons_fst in Hp;
    repeat (case_match; simplify_eq/=); simplify_option_eq; parse_lengths IHv IHe IHm.
Qed.

(** Past twice the length of the text, more fuel changes nothing. *)
Lemma parse_fuel_mono n m : n <= m ->
  (forall s, 2 * String.length s < n -> parse_value m s = parse_value n s) /\
  (forall s, 2 * String.length s + 2 <= n -> parse_elems m s = parse_elems n s) /\
  (forall s, 2 * String.length s + 2 <= n -> parse_members m s = parse_members n s).
Proof.
  revert m. induction n as [|f IH]; intros [|g] Hm; [split_and!; intros; lia..|].
  destruct (IH g) as (IHv & IHe & IHm); [lia|].
  pose proof (parse_length f) as (Lv & Le & Lm).
  split_and!; intros s Hn; cbn [parse_value parse_elems parse_members];
    repeat first [ progress rewrite ?IHv, ?IHe, ?IHm by parse_lengths Lv Le Lm
                 | case_match ]; done.
Qed.

(** A result found with some fuel is found with more. *)
Lemma parse_fuel_Some_mono n m : n <= m ->
  (forall s p, parse_value n s = Some p -> parse_value m s = Some p) /\
  (forall s p, parse_elems n s = Some p -> parse_elems m s = Some p) /\
  (forall s p, parse_members n s = Some p -> parse_members m s = Some p).
Proof.
  revert m. induction n as [|f IH]; intros [|g] Hm; [split_and!; done..|lia|].
  destruct (IH g) as (IHv & IHe & IHm); [lia|].
  split_and!; intros s p Hp; cbn [parse_value parse_elems parse_members] in *;
    repeat first
      [ progress match goal with
        | H : parse_value f _ = Some _ |- _ => rewrite (IHv _ _ H)
        | H : parse_elems f _ = Some _ |- _ => rewrite (IHe _ _ H)
        | H : parse_members f _ = Some _ |- _ => rewrite (IHm _ _ H)
        end
      | case_match | progress simplify_eq/= | progress simplify_option_eq ]; done.
Qed.

Lemma parse_fuel_Some_le n m s j : n <= m -> parse_fuel n s = Some j -> parse_fuel m s = Some j.
Proof.
  intros Hnm. unfold parse_fuel. destruct (parse_value n s) as [[x r]|] eqn:E; [|done].
  by rewrite (proj1 (parse_fuel_Some_mono n m Hnm) _ _ E).
Qed.

(** [parse] gives the result every fuel above twice the length gives. *)
Lemma parse_fuel_stable n s : 2 * String.length s < n -> parse_fuel n s = parse s.
Proof.
  intros Hn. unfold parse, parse_fuel.
  by rewrite (proj1 (parse_fuel_mono (S (2 * String.length s)) n ltac:(lia)) s ltac:(lia)).
Qed.

(** No fuel finds a value [parse] misses. *)
Lemma parse_fuel_Some n s j : parse_fuel n s = Some j -> parse s = Some j.
Proof.
  intros H. rewrite <- (parse_fuel_stable (max n (S (2 * String.length s)))) by lia.
  eapply parse_fuel_Some_le, H. lia.
Qed.

(** Numbers are read with the JSON grammar: a leading zero stands
    alone, a fraction and an exponent need digits. *)
Example parse_numbers :
  map parse ["[1, -0.5e+3]"; "01"; "1."; "-"; "1e"; ".5"; "[0,10]"] =
  [Some (JArray [JNumber "1" EmptyString; JNumber "-" "0.5e+3"]); None; None; None; None; None;
   Some (JArray [JNumber "0" EmptyString; JNumber "1" "0"])].
Proof. vm_compute. reflexivity. Qed.

#[export] Hint Rewrite parse_chars_escape parse_chars_quote : portal_rw.

End Json.
