(* ===== verification/Account.v ===== *)
(** * Accounts and their JSON form

    The objects [AuthContext.js] pushes onto the [users] array: the
    default admin of [checkAuth] (lines 26-36), the new user of
    [signup] (lines 77-82, the [Signup.js] form spread between [id]
    and [createdAt]) and the auto-registered user of [loginWithGoogle]
    (lines 137-148, the only one with [isGoogleUser]).  All three have
    the same keys in the same order; [account_to_json] is the object
    [JSON.stringify] sees, [account_of_json] reads one back the way
    property accesses on a [JSON.parse] result do (the last binding
    of a duplicated key wins).  A stored value that is not an array of
    such objects is treated as a failed parse. *)

From stdpp Require Import base strings list list_monad.
From S2P Require Import Prelude Json.
Import Json.

Module Account.

Record account := mkAccount {
  id : string;
  name : string;
  fatherName : string;
  class : string;
  email : string;
  password : string;
  rollNo : string;
  role : string;
  createdAt : string;
  isGoogleUser : option bool
}.

#[export] Instance account_eq_dec : EqDecision account.
Proof. solve_decision. Defined.

(** [u.role = r] on an object: every other property is kept. *)
Definition set_role (r : string) (u : account) : account :=
  mkAccount (id u) (name u) (fatherName u) (class u) (email u) (password u)
            (rollNo u) r (createdAt u) (isGoogleUser u).

(** [users[i].password = p] *)
Definition set_password (p : string) (u : account) : account :=
  mkAccount (id u) (name u) (fatherName u) (class u) (email u) p
            (rollNo u) (role u) (createdAt u) (isGoogleUser u).

Definition account_to_json (u : account) : json :=
  JObject ([("id", JString (id u)); ("name", JString (name u));
            ("fatherName", JString (fatherName u)); ("class", JString (class u));
            ("email", JString (email u)); ("password", JString (password u));
            ("rollNo", JString (rollNo u)); ("role", JString (role u));
            ("createdAt", JString (createdAt u))] ++
           match isGoogleUser u with
           | Some b => [("isGoogleUser", JBool b)]
           | None => []
           end).

(** Property lookup on a parsed object: the last binding of the key. *)
Fixpoint obj_get (k : string) (fs : list (string * json)) : option json :=
  match fs with
  | [] => None
  | (k', v) :: fs' =>
      match obj_get k fs' with
      | Some v' => Some v'
      | None => if bool_decide (k = k') then Some v else None
      end
  end.

Definition get_string (k : string) (fs : list (string * json)) : option string :=
  match obj_get k fs with Some (JString s) => Some s | _ => None end.

Definition account_of_json (j : json) : option account :=
  match j with
  | JObject fs =>
      i ← get_string "id" fs; n ← get_string "name" fs;
      fn ← get_string "fatherName" fs; c ← get_string "class" fs;
      e ← get_string "email" fs; p ← get_string "password" fs;
      r ← get_string "rollNo" fs; ro ← get_string "role" fs;
      ca ← get_string "createdAt" fs;
      g ← match obj_get "isGoogleUser" fs with
          | None => Some None
          | Some (JBool b) => Some (Some b)
          | Some _ => None
          end;
      Some (mkAccount i n fn c e p r ro ca g)
  | _ => None
  end.

Definition users_to_json (l : list account) : json := JArray (account_to_json <$> l).

Definition users_of_json (j : json) : option (list account) :=
  match j with
  | JArray xs => mapM account_of_json xs
  | _ => None
  end.

(** [JSON.stringify] of an account list and of one account. *)
Definition encode_users (l : list account) : string := stringify (users_to_json l).
Definition encode_account (u : account) : string := stringify (account_to_json u).

(** [JSON.parse] followed by the reads of the code: [None] is a throw. *)
Definition decode_users (s : string) : option (list account) := parse s ≫= users_of_json.
Definition decode_account (s : string) : option account := parse s ≫= account_of_json.

(** ** Round trips *)

Lemma account_of_to_json u : account_of_json (account_to_json u) = Some u.
Proof. destruct u as [????????? [[]|]]; reflexivity. Qed.

Lemma users_of_to_json l : users_of_json (users_to_json l) = Some l.
Proof.
  apply mapM_fmap_Some, account_of_to_json.
Qed.

Lemma account_to_json_num_free u : num_free (account_to_json u) = true.
Proof. destruct u as [????????? [[]|]]; reflexivity. Qed.

Lemma users_to_json_num_free l : num_free (users_to_json l) = true.
Proof.
  unfold users_to_json. induction l as [|u l IH]; [done|].
  cbn [num_free fmap list_fmap forallb]. rewrite account_to_json_num_free. exact IH.
Qed.

Lemma decode_of_encode_users l : decode_users (encode_users l) = Some l.
Proof.
  unfold decode_users, encode_users. rewrite parse_of_stringify by apply users_to_json_num_free.
  apply users_of_to_json.
Qed.

Lemma decode_encode_account u : decode_account (encode_account u) = Some u.
Proof.
  unfold decode_account, encode_account. rewrite parse_of_stringify by apply account_to_json_num_free.
  apply account_of_to_json.
Qed.

#[export] Hint Rewrite decode_of_encode_users decode_encode_account : portal_rw.

(** ** The field updates *)

Lemma set_role_email r u : email (set_role r u) = email u.
Proof. reflexivity. Qed.

Lemma set_password_email p u : email (set_password p u) = email u.
Proof. reflexivity. Qed.

#[export] Hint Rewrite set_role_email set_password_email : portal_rw.

End Account.
