(* ===== verification/Storage.v ===== *)
(** * The browser's [localStorage]

    [AuthContext.js] reaches durable state only through
    [localStorage.getItem], [setItem] and [removeItem] on the keys
    [users], [token] and [user].  [KVStore] is that interface, the
    laws any implementation satisfies are [KVStoreLaws], and the
    handlers of [Auth.v] are written and proved against it.  A store
    is only ever observed through [getItem], so two stores with the
    same answers are equivalent ([st_equiv]); the operations respect
    that equivalence.  [gmap string string] is the implementation the
    concrete runs use. *)

From stdpp Require Import base strings list gmap.
From S2P Require Import Prelude.

Module Storage.

Class KVStore (S : Type) := {
  getItem : S -> string -> option string;
  setItem : S -> string -> string -> S;
  removeItem : S -> string -> S;
}.

Class KVStoreLaws (S : Type) `{!KVStore S} := {
  getItem_setItem_eq s k v : getItem (setItem s k v) k = Some v;
  getItem_setItem_ne s k k' v : k <> k' -> getItem (setItem s k v) k' = getItem s k';
  getItem_removeItem_eq s k : getItem (removeItem s k) k = None;
  getItem_removeItem_ne s k k' : k <> k' -> getItem (removeItem s k) k' = getItem s k';
}.

#[export] Instance gmap_kvstore : KVStore (gmap string string) := {
  getItem s k := s !! k;
  setItem s k v := <[k := v]> s;
  removeItem s k := delete k s;
}.

#[export] Instance gmap_kvstore_laws : KVStoreLaws (gmap string string).
Proof.
  split; intros; simpl.
  - apply lookup_insert_eq.
  - by apply lookup_insert_ne.
  - apply lookup_delete_eq.
  - by apply lookup_delete_ne.
Qed.

Section Equiv.
Context {S : Type} `{KVStoreLaws S}.

Definition st_equiv (s1 s2 : S) : Prop := forall k, getItem s1 k = getItem s2 k.

#[export] Instance st_equiv_equivalence : Equivalence st_equiv.
Proof.
  split; unfold st_equiv.
  - done.
  - intros ?? E k. by rewrite E.
  - intros ??? E1 E2 k. by rewrite E1, E2.
Qed.

Lemma getItem_setItem s k v k' :
  getItem (setItem s k v) k' = if bool_decide (k = k') then Some v else getItem s k'.
Proof.
  case_bool_decide; subst; [apply getItem_setItem_eq | by apply getItem_setItem_ne].
Qed.

Lemma getItem_removeItem s k k' :
  getItem (removeItem s k) k' = if bool_decide (k = k') then None else getItem s k'.
Proof.
  case_bool_decide; subst; [apply getItem_removeItem_eq | by apply getItem_removeItem_ne].
Qed.

#[export] Instance getItem_proper : Proper (st_equiv ==> eq ==> eq) getItem.
Proof. intros s1 s2 E k ? <-. apply E. Qed.

#[export] Instance setItem_proper : Proper (st_equiv ==> eq ==> eq ==> st_equiv) setItem.
Proof.
  intros s1 s2 E k ? <- v ? <- k'. rewrite !getItem_setItem. by rewrite (E k').
Qed.

#[export] Instance removeItem_proper : Proper (st_equiv ==> eq ==> st_equiv) removeItem.
Proof.
  intros s1 s2 E k ? <- k'. rewrite !getItem_removeItem. by rewrite (E k').
Qed.

(** Writes to different keys commute, up to what [getItem] sees. *)
Lemma setItem_comm s k1 v1 k2 v2 :
  k1 <> k2 -> st_equiv (setItem (setItem s k1 v1) k2 v2) (setItem (setItem s k2 v2) k1 v1).
Proof.
  intros Hne k. rewrite !getItem_setItem.
  repeat case_bool_decide; subst; congruence.
Qed.
End Equiv.

End Storage.
