(* ===== verification/Base64.v ===== *)
(** * [btoa]: the encoding of the session token

    [login] and [loginWithGoogle] mint the token as
    [btoa(`${foundUser.id}:${Date.now()}`)] (AuthContext.js lines 111
    and 161).  [btoa] is the browser's Base64 encoder over one-byte
    characters (RFC 4648 alphabet, [=] padding).  [atob] is the strict
    inverse on what [btoa] prints; the round trip [atob (btoa s) = Some s]
    is the precise sense in which the token is "inspectable, not
    signed". *)

From stdpp Require Import base strings list.
From Stdlib Require Import ZArith Ascii Lia ZifyN.
From S2P Require Import Prelude.

Module Base64.

Definition chr (n : N) : Ascii.ascii := Ascii.ascii_of_N n.
Definition code (c : Ascii.ascii) : N := Ascii.N_of_ascii c.

(** The 64 digits [A-Z], [a-z], [0-9], [+], [/]. *)
Definition b64_char (n : N) : Ascii.ascii :=
  if (n <? 26)%N then chr (65 + n)
  else if (n <? 52)%N then chr (71 + n)
  else if (n <? 62)%N then chr (n - 4)
  else if (n =? 62)%N then chr 43
  else chr 47.

Definition b64_val (c : Ascii.ascii) : option N :=
  let n := code c in
  if ((65 <=? n) && (n <=? 90))%N then Some (n - 65)%N
  else if ((97 <=? n) && (n <=? 122))%N then Some (n - 71)%N
  else if ((48 <=? n) && (n <=? 57))%N then Some (n + 4)%N
  else if (n =? 43)%N then Some 62%N
  else if (n =? 47)%N then Some 63%N
  else None.

Definition pad : Ascii.ascii := "="%char.

(** The four sextets of three bytes [a b c]. *)
Definition enc1 (a : N) : Ascii.ascii := b64_char (a / 4).
Definition enc2 (a b : N) : Ascii.ascii := b64_char ((a mod 4) * 16 + b / 16).
Definition enc3 (b c : N) : Ascii.ascii := b64_char ((b mod 16) * 4 + c / 64).
Definition enc4 (c : N) : Ascii.ascii := b64_char (c mod 64).

Fixpoint btoa (s : string) : string :=
  match s with
  | String a (String b (String c rest)) =>
      String (enc1 (code a)) (String (enc2 (code a) (code b))
        (String (enc3 (code b) (code c)) (String (enc4 (code c)) (btoa rest))))
  | String a (String b EmptyString) =>
      String (enc1 (code a)) (String (enc2 (code a) (code b))
        (String (enc3 (code b) 0) (String pad EmptyString)))
  | String a EmptyString =>
      String (enc1 (code a)) (String (enc2 (code a) 0) (String pad (String pad EmptyString)))
  | EmptyString => EmptyString
  end.

Definition dec1 (i1 i2 : N) : Ascii.ascii := chr (i1 * 4 + i2 / 16).
Definition dec2 (i2 i3 : N) : Ascii.ascii := chr ((i2 mod 16) * 16 + i3 / 4).
Definition dec3 (i3 i4 : N) : Ascii.ascii := chr ((i3 mod 4) * 64 + i4).

Fixpoint atob (s : string) : option string :=
  match s with
  | EmptyString => Some EmptyString
  | String w (String x (String y (String z rest))) =>
      match b64_val w, b64_val x with
      | Some i1, Some i2 =>
          if bool_decide (z = pad) then
            if bool_decide (rest = EmptyString) then
              if bool_decide (y = pad) then Some (String (dec1 i1 i2) EmptyString)
              else match b64_val y with
                   | Some i3 => Some (String (dec1 i1 i2) (String (dec2 i2 i3) EmptyString))
                   | None => None
                   end
            else None
          else
            match b64_val y, b64_val z with
            | Some i3, Some i4 =>
                String (dec1 i1 i2) ∘ String (dec2 i2 i3) ∘ String (dec3 i3 i4) <$> atob rest
            | _, _ => None
            end
      | _, _ => None
      end
  | _ => None
  end.

(** ** The alphabet *)

Lemma b64_digit n : n < 64 ->
  b64_val (b64_char (N.of_nat n)) = Some (N.of_nat n) /\ b64_char (N.of_nat n) <> pad.
Proof. intros Hn. do 64 (destruct n as [|n]; [done|]). lia. Qed.

Lemma b64_val_char (n : N) : (n < 64)%N -> b64_val (b64_char n) = Some n.
Proof. intros Hn. rewrite <- (N2Nat.id n). apply b64_digit. lia. Qed.

Lemma b64_char_not_pad (n : N) : (n < 64)%N -> b64_char n <> pad.
Proof. intros Hn. rewrite <- (N2Nat.id n). apply b64_digit. lia. Qed.

Lemma code_lt (c : Ascii.ascii) : (code c < 256)%N.
Proof. apply Ascii.N_ascii_bounded. Qed.

Lemma chr_code (c : Ascii.ascii) : chr (code c) = c.
Proof. apply Ascii.ascii_N_embedding. Qed.

(** ** Decoding undoes encoding, one group at a time *)

Section Groups.
Variables A B C : N.
Hypotheses (HA : (A < 256)%N) (HB : (B < 256)%N) (HC : (C < 256)%N).

Lemma sextets_lt :
  (A / 4 < 64)%N /\ ((A mod 4) * 16 + B / 16 < 64)%N /\
  ((B mod 16) * 4 + C / 64 < 64)%N /\ (C mod 64 < 64)%N.
Proof. repeat split; lia. Qed.

Lemma dec1_enc : dec1 (A / 4) ((A mod 4) * 16 + B / 16) = chr A.
Proof. unfold dec1. f_equal. lia. Qed.

Lemma dec2_enc : dec2 ((A mod 4) * 16 + B / 16) ((B mod 16) * 4 + C / 64) = chr B.
Proof. unfold dec2. f_equal. lia. Qed.

Lemma dec3_enc : dec3 ((B mod 16) * 4 + C / 64) (C mod 64) = chr C.
Proof. unfold dec3. f_equal. lia. Qed.
End Groups.

Ltac b64_group a b c :=
  let Ha := fresh in let Hb := fresh in let Hc := fresh in
  pose proof (code_lt a) as Ha; pose proof (code_lt b) as Hb; pose proof (code_lt c) as Hc;
  destruct (sextets_lt (code a) (code b) (code c) Ha Hb Hc) as (? & ? & ? & ?);
  unfold enc1, enc2, enc3, enc4 in *;
  rewrite ?b64_val_char by (done || lia);
  rewrite ?bool_decide_eq_false_2 by (apply b64_char_not_pad; done || lia);
  rewrite ?b64_val_char by (done || lia).

Lemma btoa_group a b c rest :
  btoa (String a (String b (String c rest))) =
  String (enc1 (code a)) (String (enc2 (code a) (code b))
    (String (enc3 (code b) (code c)) (String (enc4 (code c)) (btoa rest)))).
Proof. reflexivity. Qed.

(** The token can be read back: [atob] recovers the string [btoa] was
    given. *)
Lemma atob_of_btoa s : atob (btoa s) = Some s.
Proof.
  remember (String.length s) as n eqn:Hn. revert s Hn.
  induction n as [n IH] using lt_wf_ind. intros s Hn.
  destruct s as [|a [|b [|c rest]]]; [done | | |].
  - simpl. b64_group a a a.
    pose proof (code_lt a). rewrite (dec1_enc (code a) 0 0), chr_code by lia. done.
  - simpl. b64_group a b b.
    pose proof (code_lt a). pose proof (code_lt b).
    rewrite (dec1_enc (code a) (code b) 0), (dec2_enc (code a) (code b) 0), !chr_code by lia. done.
  - rewrite btoa_group. simpl atob. b64_group a b c.
    rewrite (IH (String.length rest)) by (simpl in Hn; lia || done).
    pose proof (code_lt a). pose proof (code_lt b). pose proof (code_lt c).
    simpl. rewrite (dec1_enc (code a) (code b) (code c)), (dec2_enc (code a) (code b) (code c)), (dec3_enc (code a) (code b) (code c)), !chr_code by lia. done.
Qed.


(** [btoa] writes four characters for every started group of three:
    its output has [4 * ceil(n / 3)] characters. *)
Lemma btoa_length s : String.length (btoa s) = 4 * ((String.length s + 2) / 3).
Proof.
  remember (String.length s) as n eqn:Hn. revert s Hn.
  induction n as [n IH] using lt_wf_ind. intros s Hn.
  destruct s as [|a [|b [|c rest]]]; simpl in Hn; subst n; [done..|].
  rewrite btoa_group. cbn [String.length]. rewrite (IH (String.length rest)) by lia.
  replace (S (S (S (String.length rest))) + 2) with (1 * 3 + (String.length rest + 2)) by lia.
  rewrite Nat.div_add_l by lia. lia.
Qed.

(** A non-empty string has a non-empty encoding. *)
Lemma btoa_nonempty a s : btoa (String a s) <> EmptyString.
Proof. by destruct s as [|b [|c rest]]. Qed.

End Base64.
