(* ===== verification/Auth.v ===== *)
(** * The authentication context: [src/src/context/AuthContext.js]

    [AuthProvider] keeps two pieces of React state, [user] and
    [loading], and works on [localStorage] through the [KVStore]
    interface of [Storage.v].  Each handler of the context value is one
    definition here, a computation of the [js] monad of [Prelude.v] on
    a [world] (store plus React state): [checkAuth] (run once on
    mount), [signup], [login], [loginWithGoogle], [changePassword],
    [getAllUsers], [logout], and [isAuthenticated].  Every [try] block
    is a [js_catch]; the values a handler reads from the clock
    ([Date.now()], [new Date().toISOString()]) are its [clock]
    argument.  The handlers are [async] but contain no [await], so
    each one runs to completion in one turn: a handler is one state
    transition. *)

From stdpp Require Import base strings list list_monad gmap.
From Stdlib Require Import ZArith Ascii.
From S2P Require Import Prelude Json Account Storage Base64.
Import Account Storage Base64.
Local Open Scope js_scope.

Module Auth.

(** Line 6. *)
Definition ADMIN_EMAIL : string := "admin@studentportal.com".

(** What a handler reads from the clock. *)
Record clock := mkClock { now_ms : N; now_iso : string }.

(** The result shape [{ success, message }]; [message] may be absent. *)
Record result := mkResult { success : bool; message : option string }.

Definition failure (m : string) : result := mkResult false (Some m).
Definition success_msg (m : string) : result := mkResult true (Some m).
Definition success_only : result := mkResult true None.

(** The fields of the [Signup.js] form (its [formData], lines 203-211),
    which [signup] spreads into the new user object. *)
Record signup_form := mkForm {
  f_name : string; f_fatherName : string; f_class : string; f_email : string;
  f_password : string; f_rollNo : string; f_role : string
}.

(** The object [Login.js] passes to [loginWithGoogle]. *)
Record google_user := mkGoogle { g_email : string; g_name : string }.

Section WithStore.
Context {S : Type} `{KVStoreLaws S}.

(** The provider's state: [localStorage], [user], [loading]. *)
Record world := mkWorld { storage : S; user : option account; loading : bool }.

(** [useState(null)], [useState(true)] on mount. *)
Definition init_world (s : S) : world := mkWorld s None true.

Definition get_item (k : string) : js world (option string) :=
  fun w => (Ok (getItem (storage w) k), w).
Definition set_item (k v : string) : js world unit :=
  js_modify (fun w => mkWorld (setItem (storage w) k v) (user w) (loading w)).
Definition remove_item (k : string) : js world unit :=
  js_modify (fun w => mkWorld (removeItem (storage w) k) (user w) (loading w)).
Definition setUser (u : option account) : js world unit :=
  js_modify (fun w => mkWorld (storage w) u (loading w)).
Definition setLoading (b : bool) : js world unit :=
  js_modify (fun w => mkWorld (storage w) (user w) b).

(** The account list a [JSON.parse(localStorage.getItem('users') || '[]')]
    sees in a store, or [None] when that call throws. *)
Definition stored_users (s : S) : option (list account) :=
  decode_users (or_default (getItem s "users") "[]").

Definition read_users : js world (list account) :=
  w <- js_get ;; js_lift SyntaxError (stored_users (storage w)).

(** [localStorage.setItem('users', JSON.stringify(l))] *)
Definition write_users (l : list account) : js world unit :=
  set_item "users" (encode_users l).

Definition is_admin_email (e : string) : bool := bool_decide (e = ADMIN_EMAIL).

(** [if (u.email === ADMIN_EMAIL) u.role = 'admin'] (lines 48-50, 106-108, 156-158). *)
Definition derive_role (u : account) : account :=
  if is_admin_email (email u) then set_role "admin" u else u.

(** [btoa(`${foundUser.id}:${Date.now()}`)] *)
Definition make_token (c : clock) (u : account) : string :=
  btoa (id u +:+ String ":"%char (string_of_N (now_ms c))).

(** Lines 110-117 (and 160-167): mint and persist the token and the
    snapshot, then [setUser]. *)
Definition open_session (c : clock) (u : account) : js world unit :=
  set_item "token" (make_token c u) ;;
  set_item "user" (encode_account u) ;;
  setUser (Some u).

(** ** [checkAuth] (lines 16-58) *)

Definition default_admin (c : clock) : account :=
  mkAccount "admin-default" "Admin User" "System" "Administration" ADMIN_EMAIL
            "admin123" "ADMIN-001" "admin" (now_iso c) None.

(** Lines 19-40: seed the admin account when no account has its email. *)
Definition ensure_admin (c : clock) : js world unit :=
  existingUsers <- read_users ;;
  if js_some (fun u => is_admin_email (email u)) existingUsers then js_ret tt
  else write_users (existingUsers ++ [default_admin c]).

(** Lines 42-52: a session is restored when both keys are truthy; the
    token itself is never checked. *)
Definition restore_session : js world unit :=
  token <- get_item "token" ;;
  userData <- get_item "user" ;;
  match userData with
  | Some d =>
      if truthy token && truthy userData then
        parsedUser <- js_lift SyntaxError (decode_account d) ;;
        setUser (Some (derive_role parsedUser))
      else js_ret tt
  | None => js_ret tt
  end.

Definition checkAuth (c : clock) : js world unit :=
  js_catch (ensure_admin c ;; restore_session) (fun _ => js_ret tt) ;;
  setLoading false.

(** ** [signup] (lines 60-93) *)

Definition new_user (c : clock) (d : signup_form) : account :=
  mkAccount (string_of_N (now_ms c)) (f_name d) (f_fatherName d) (f_class d)
            (f_email d) (f_password d) (f_rollNo d)
            (if is_admin_email (f_email d) then "admin" else "student")
            (now_iso c) None.

Definition signup (c : clock) (d : signup_form) : js world result :=
  js_catch (
    existingUsers <- read_users ;;
    if js_some (fun u => bool_decide (email u = f_email d)) existingUsers
    then js_ret (failure "Email already registered!")
    else write_users (existingUsers ++ [new_user c d]) ;;
         js_ret (success_msg "Account created successfully!"))
    (fun _ => js_ret (failure "Error creating account")).

(** ** [login] (lines 95-126) *)

Definition credentials_match (em pw : string) (u : account) : bool :=
  bool_decide (email u = em) && bool_decide (password u = pw).

Definition login (c : clock) (em pw : string) : js world result :=
  js_catch (
    users <- read_users ;;
    match js_find (credentials_match em pw) users with
    | Some foundUser => open_session c (derive_role foundUser) ;; js_ret success_only
    | None => js_ret (failure "Invalid email or password")
    end)
    (fun _ => js_ret (failure "Error logging in")).

(** ** [loginWithGoogle] (lines 128-173) *)

(** Lines 137-148; [n] is [users.length]. *)
Definition google_account (c : clock) (g : google_user) (n : nat) : account :=
  mkAccount ("google-" +:+ string_of_N (now_ms c)) (g_name g) "Google User" "Not Specified"
            (g_email g) ("google-" +:+ g_email g) ("GOOGLE-" +:+ string_of_N (N.of_nat (n + 1)))
            (if is_admin_email (g_email g) then "admin" else "student")
            (now_iso c) (Some true).

Definition loginWithGoogle (c : clock) (g : google_user) : js world result :=
  js_catch (
    users <- read_users ;;
    foundUser <- match js_find (fun u => bool_decide (email u = g_email g)) users with
                 | Some u => js_ret u
                 | None => let newUser := google_account c g (length users) in
                           write_users (users ++ [newUser]) ;; js_ret newUser
                 end ;;
    open_session c (derive_role foundUser) ;;
    js_ret success_only)
    (fun _ => js_ret (failure "Error logging in with Google")).

(** ** [changePassword] (lines 175-194) *)

Definition changePassword (targetEmail newPassword : string) : js world result :=
  js_catch (
    users <- read_users ;;
    let userIndex := js_findIndex (fun u => bool_decide (email u = targetEmail)) users in
    if (userIndex =? -1)%Z then js_ret (failure "User not found")
    else write_users (alter (set_password newPassword) (Z.to_nat userIndex) users) ;;
         js_ret (success_msg "Password changed successfully!"))
    (fun _ => js_ret (failure "Error changing password")).

(** ** [getAllUsers] (lines 196-204), [logout] (lines 206-210) and
    [isAuthenticated: !!user] (line 222) *)

Definition getAllUsers : js world (list account) :=
  js_catch read_users (fun _ => js_ret []).

Definition logout : js world unit :=
  remove_item "token" ;; remove_item "user" ;; setUser None.

Definition isAuthenticated (w : world) : bool :=
  match user w with Some _ => true | None => false end.

(** The account a Google login ends up with, and the store after the
    auto-registration (unchanged when the email is known). *)
Definition google_target c g l : account * option (list account) :=
  match js_find (fun u => bool_decide (email u = g_email g)) l with
  | Some f => (f, None)
  | None => (google_account c g (length l), Some (l ++ [google_account c g (length l)]))
  end.

(** The list after the seeding step of [checkAuth] (lines 22-40). *)
Definition seed_admin (c : clock) (l : list account) : list account :=
  if js_some (fun u => is_admin_email (email u)) l then l else l ++ [default_admin c].

(** What lines 42-52 make of a store: [None] when [JSON.parse(userData)]
    throws, [Some None] when no session is restored. *)
Definition restore_result (s : S) : option (option account) :=
  match getItem s "user" with
  | Some d =>
      if truthy (getItem s "token") && truthy (Some d)
      then (fun p => Some (derive_role p)) <$> decode_account d
      else Some None
  | None => Some None
  end.

(** A session never shows the admin email with another role. *)
Definition session_role_ok (w : world) : Prop :=
  forall a, user w = Some a -> email a = ADMIN_EMAIL -> role a = "admin".

End WithStore.

(** ** Reading and writing the account list *)

Section Facts.
Context {S : Type} `{KVStoreLaws S}.

Lemma encode_users_truthy l : truthy (Some (encode_users l)) = true.
Proof. reflexivity. Qed.

Lemma stored_users_write s l : stored_users (setItem s "users" (encode_users l)) = Some l.
Proof.
  unfold stored_users. rewrite getItem_setItem_eq. unfold or_default.
  rewrite encode_users_truthy. apply decode_of_encode_users.
Qed.

Lemma stored_users_set_other s k v : k <> "users" -> stored_users (setItem s k v) = stored_users s.
Proof. intros Hk. unfold stored_users. by rewrite getItem_setItem_ne. Qed.

Lemma stored_users_remove_other s k : k <> "users" -> stored_users (removeItem s k) = stored_users s.
Proof. intros Hk. unfold stored_users. by rewrite getItem_removeItem_ne. Qed.

(** The shape of every handler body: read the list, then continue;
    a list that does not parse sends control to the [catch] block. *)
Lemma catch_read_users_ok {A} (k : list account -> js world A) h (w : world) l :
  stored_users (storage w) = Some l -> js_catch (js_bind read_users k) h w = js_catch (k l) h w.
Proof. intros Hl. cbv [js_catch js_bind read_users js_get]. by rewrite Hl. Qed.

Lemma catch_read_users_err {A} (k : list account -> js world A) h (w : world) :
  stored_users (storage w) = None -> js_catch (js_bind read_users k) h w = h SyntaxError w.
Proof. intros Hl. cbv [js_catch js_bind read_users js_get]. by rewrite Hl. Qed.

Lemma open_session_run c u s v b :
  open_session c u (mkWorld s v b) =
  (Ok tt, mkWorld (setItem (setItem s "token" (make_token c u)) "user" (encode_account u)) (Some u) b).
Proof. reflexivity. Qed.

End Facts.

#[export] Hint Rewrite @stored_users_write : portal_rw.

(** ** Uniqueness of emails and the linear scans *)

Section Scans.
Implicit Types (l : list account).

Lemma nodup_email_eq l x y :
  NoDup (email <$> l) -> x ∈ l -> y ∈ l -> email x = email y -> x = y.
Proof.
  induction l as [|z l IH]; [intros _ Hx; inversion Hx|].
  rewrite fmap_cons. intros Hnd Hx Hy He. apply NoDup_cons in Hnd as [Hz Hnd].
  apply elem_of_cons in Hx as [->|Hx]; apply elem_of_cons in Hy as [->|Hy]; try done.
  - exfalso. apply Hz. rewrite He. by apply list_elem_of_fmap_2.
  - exfalso. apply Hz. rewrite <- He. by apply list_elem_of_fmap_2.
  - by apply IH.
Qed.

(** With unique emails, a scan for a property that holds of [x] and
    implies [x]'s email finds [x]. *)
Lemma js_find_unique (p : account -> bool) l x :
  NoDup (email <$> l) -> x ∈ l -> p x = true ->
  (forall y, y ∈ l -> p y = true -> email y = email x) -> js_find p l = Some x.
Proof.
  intros Hnd Hx Hp Hall. destruct (js_find p l) as [y|] eqn:E.
  - apply js_find_Some in E as [Hy Hin]. f_equal. apply (nodup_email_eq l); auto.
  - apply js_find_None with (x := x) in E; [congruence | done].
Qed.

Lemma find_credentials l x :
  NoDup (email <$> l) -> x ∈ l -> js_find (credentials_match (email x) (password x)) l = Some x.
Proof.
  intros Hnd Hx. apply js_find_unique; [done | done | |].
  - unfold credentials_match. by rewrite !bool_decide_eq_true_2.
  - intros y _ Hy. unfold credentials_match in Hy. apply andb_prop in Hy as [Hy _].
    by apply bool_decide_eq_true in Hy.
Qed.

Lemma find_email l x :
  NoDup (email <$> l) -> x ∈ l -> js_find (fun u => bool_decide (email u = email x)) l = Some x.
Proof.
  intros Hnd Hx. apply js_find_unique; [done | done | by rewrite bool_decide_eq_true_2 |].
  intros y _ Hy. by apply bool_decide_eq_true in Hy.
Qed.

Lemma js_some_email l e :
  js_some (fun u => bool_decide (email u = e)) l = true <-> exists x, x ∈ l /\ email x = e.
Proof.
  rewrite js_some_true. split; intros (x & Hx & He); exists x; split; try done.
  - by apply bool_decide_eq_true in He.
  - by apply bool_decide_eq_true_2.
Qed.

Lemma alter_set_password_emails np i l :
  email <$> alter (set_password np) i l = email <$> l.
Proof.
  revert i. induction l as [|x l IH]; intros [|i]; try done.
  cbn [alter list_alter]. rewrite !fmap_cons. f_equal. apply IH.
Qed.

Lemma nodup_snoc_fresh l x :
  NoDup (email <$> l) -> (forall y, y ∈ l -> email y <> email x) -> NoDup (email <$> l ++ [x]).
Proof.
  intros Hnd Hfresh. rewrite fmap_app. apply NoDup_app. split; [done|]. split; [|apply NoDup_singleton].
  intros e He%list_elem_of_fmap He'. destruct He as (y & -> & Hy).
  rewrite list_fmap_singleton, list_elem_of_singleton in He'. by apply (Hfresh y).
Qed.

Lemma find_email_None l e :
  js_find (fun u => bool_decide (email u = e)) l = None -> forall y, y ∈ l -> email y <> e.
Proof.
  intros E y Hy He. apply js_find_None with (x := y) in E; [|done].
  rewrite bool_decide_eq_true_2 in E; done.
Qed.

End Scans.

#[export] Hint Resolve find_credentials find_email : portal.

Section Specs.
Context {S : Type} `{KVStoreLaws S}.
Implicit Types (s : S) (l : list account).

Lemma signup_spec c d s u b l :
  stored_users s = Some l ->
  signup c d (mkWorld s u b) =
  if js_some (fun x => bool_decide (email x = f_email d)) l
  then (Ok (failure "Email already registered!"), mkWorld s u b)
  else (Ok (success_msg "Account created successfully!"),
        mkWorld (setItem s "users" (encode_users (l ++ [new_user c d]))) u b).
Proof. intros Hl. unfold signup. rewrite (catch_read_users_ok _ _ _ l) by done. by destruct js_some. Qed.

Lemma login_spec c em pw s u b l :
  stored_users s = Some l ->
  login c em pw (mkWorld s u b) =
  match js_find (credentials_match em pw) l with
  | Some f =>
      (Ok success_only,
       mkWorld (setItem (setItem s "token" (make_token c (derive_role f))) "user"
                  (encode_account (derive_role f))) (Some (derive_role f)) b)
  | None => (Ok (failure "Invalid email or password"), mkWorld s u b)
  end.
Proof. intros Hl. unfold login. rewrite (catch_read_users_ok _ _ _ l) by done. by destruct js_find. Qed.

Lemma loginWithGoogle_spec c g s u b l :
  stored_users s = Some l ->
  loginWithGoogle c g (mkWorld s u b) =
  let '(f, ins) := google_target c g l in
  let s1 := match ins with Some l' => setItem s "users" (encode_users l') | None => s end in
  (Ok success_only,
   mkWorld (setItem (setItem s1 "token" (make_token c (derive_role f))) "user"
              (encode_account (derive_role f))) (Some (derive_role f)) b).
Proof.
  intros Hl. unfold loginWithGoogle, google_target. rewrite (catch_read_users_ok _ _ _ l) by done.
  by destruct js_find.
Qed.

Lemma changePassword_spec t np s u b l :
  stored_users s = Some l ->
  changePassword t np (mkWorld s u b) =
  match js_find (fun x => bool_decide (email x = t)) l with
  | None => (Ok (failure "User not found"), mkWorld s u b)
  | Some _ =>
      (Ok (success_msg "Password changed successfully!"),
       mkWorld (setItem s "users" (encode_users
                 (alter (set_password np)
                    (Z.to_nat (js_findIndex (fun x => bool_decide (email x = t)) l)) l))) u b)
  end.
Proof.
  intros Hl. unfold changePassword. rewrite (catch_read_users_ok _ _ _ l) by done.
  destruct (js_findIndex_find (fun x => bool_decide (email x = t)) l)
    as [[-> ->] | (i & x & -> & -> & _)]; [reflexivity|].
  unfold js_catch, js_bind. simpl. by destruct (Z.eqb_spec (Z.of_nat i) (-1)); [lia|].
Qed.

(** when the stored list does not parse, every handler that reads
    it answers with its own error message ([getAllUsers] with the empty
    list) and changes nothing. *)
(** Text that [JSON.parse] rejects decodes to no list. *)
Lemma stored_users_unparsable (s : S) :
  Json.parse (or_default (getItem s "users") "[]") = None -> stored_users s = None.
Proof. intros Hp. unfold stored_users, decode_users. by rewrite Hp. Qed.

Lemma corrupt_store_handlers c s u b :
  stored_users s = None ->
  (forall d, signup c d (mkWorld s u b) = (Ok (failure "Error creating account"), mkWorld s u b)) /\
  (forall em pw, login c em pw (mkWorld s u b) = (Ok (failure "Error logging in"), mkWorld s u b)) /\
  (forall g, loginWithGoogle c g (mkWorld s u b) =
             (Ok (failure "Error logging in with Google"), mkWorld s u b)) /\
  (forall t np, changePassword t np (mkWorld s u b) =
                (Ok (failure "Error changing password"), mkWorld s u b)) /\
  getAllUsers (mkWorld s u b) = (Ok [], mkWorld s u b).
Proof.
  intros Hl. repeat split; intros;
    try (unfold signup, login, loginWithGoogle, changePassword; by apply catch_read_users_err).
  cbv [getAllUsers js_catch read_users js_bind js_get storage]. by rewrite Hl.
Qed.

Lemma ensure_admin_spec c s u b l :
  stored_users s = Some l ->
  exists s', ensure_admin c (mkWorld s u b) = (Ok tt, mkWorld s' u b) /\
             stored_users s' = Some (seed_admin c l) /\
             (forall k, k <> "users" -> getItem s' k = getItem s k).
Proof.
  intros Hl. unfold ensure_admin, seed_admin.
  cbv [js_bind read_users js_get storage]. rewrite Hl. cbv [js_lift js_ret].
  destruct js_some.
  - exists s. by repeat split.
  - eexists. split; [reflexivity|]. split; [apply stored_users_write|].
    intros k Hk. by apply getItem_setItem_ne.
Qed.

Lemma restore_session_spec s u b :
  restore_session (mkWorld s u b) =
  match restore_result s with
  | Some (Some a) => (Ok tt, mkWorld s (Some a) b)
  | Some None => (Ok tt, mkWorld s u b)
  | None => (Throw SyntaxError, mkWorld s u b)
  end.
Proof.
  unfold restore_session, restore_result. cbv [js_bind get_item storage].
  destruct (getItem s "user") as [d|]; [|reflexivity].
  destruct (truthy _ && truthy _); [|reflexivity].
  unfold js_lift. by destruct (decode_account d).
Qed.

(** [checkAuth] on a store whose list parses: the list is seeded, the
    session is whatever [restore_result] of the seeded store says, and
    [loading] ends [false]. *)
Lemma checkAuth_spec c s u b l :
  stored_users s = Some l ->
  exists s', stored_users s' = Some (seed_admin c l) /\
             (forall k, k <> "users" -> getItem s' k = getItem s k) /\
             checkAuth c (mkWorld s u b) =
             (Ok tt, mkWorld s' (match restore_result s' with Some (Some a) => Some a | _ => u end) false).
Proof.
  intros Hl. destruct (ensure_admin_spec c s u b l Hl) as (s' & E & Hs' & Hk).
  exists s'. split; [done|]. split; [done|].
  unfold checkAuth. cbv [js_bind js_catch]. rewrite E. cbv beta iota.
  rewrite restore_session_spec. by destruct (restore_result s') as [[a|]|].
Qed.

(** On a store whose list does not parse, nothing is seeded, no session
    is restored and only [loading] changes. *)
Lemma checkAuth_corrupt c s u b :
  stored_users s = None -> checkAuth c (mkWorld s u b) = (Ok tt, mkWorld s u false).
Proof. intros Hl. unfold checkAuth. cbv [js_bind js_catch ensure_admin read_users js_get storage]. by rewrite Hl. Qed.

End Specs.

(** ** Properties of the handlers *)

Section Properties.
Context {S : Type} `{KVStoreLaws S}.
Implicit Types (s : S) (l : list account).

Lemma derive_role_email a : email (derive_role a) = email a.
Proof. unfold derive_role. by destruct is_admin_email. Qed.

Lemma derive_role_admin a : email a = ADMIN_EMAIL -> role (derive_role a) = "admin".
Proof. intros He. unfold derive_role, is_admin_email. by rewrite bool_decide_eq_true_2. Qed.

(** a wrong password and an unknown email are indistinguishable:
    when no stored account has both the email and the password, [login]
    answers "Invalid email or password" and changes nothing. *)
Lemma login_no_match c em pw s u b l :
  stored_users s = Some l ->
  (forall x, x ∈ l -> email x = em -> password x <> pw) ->
  login c em pw (mkWorld s u b) = (Ok (failure "Invalid email or password"), mkWorld s u b).
Proof.
  intros Hl Hno. rewrite (login_spec c em pw s u b l Hl).
  destruct (js_find _ l) as [x|] eqn:E; [|done].
  apply js_find_Some in E as [Hm Hx]. unfold credentials_match in Hm.
  apply andb_prop in Hm as [He Hp]. apply bool_decide_eq_true in He, Hp.
  by destruct (Hno x Hx He Hp).
Qed.

(** C4: [signup] with an email some stored account already has fails
    with "Email already registered!", whatever the other fields, and
    changes nothing. *)
Theorem signup_duplicate_email c d s u b l x :
  stored_users s = Some l -> x ∈ l -> email x = f_email d ->
  signup c d (mkWorld s u b) = (Ok (failure "Email already registered!"), mkWorld s u b).
Proof.
  intros Hl Hx He. rewrite (signup_spec c d s u b l Hl).
  assert (E : js_some (fun y => bool_decide (email y = f_email d)) l = true)
    by (apply js_some_email; eauto). by rewrite E.
Qed.

Lemma signup_appends c d s u b l :
  stored_users s = Some l -> (forall x, x ∈ l -> email x <> f_email d) ->
  exists s', signup c d (mkWorld s u b) = (Ok (success_msg "Account created successfully!"), mkWorld s' u b) /\
             stored_users s' = Some (l ++ [new_user c d]).
Proof.
  intros Hl Hno. rewrite (signup_spec c d s u b l Hl).
  destruct js_some eqn:E.
  - apply js_some_email in E as (x & Hx & He). by destruct (Hno x Hx).
  - eexists. split; [reflexivity | apply stored_users_write].
Qed.

(** C13: [signup] with a fresh email appends the new account (role
    derived from the email, never from the form) and reports success;
    it does not log the user in. *)
Theorem signup_fresh c d s u b l :
  stored_users s = Some l -> (forall x, x ∈ l -> email x <> f_email d) ->
  exists s', signup c d (mkWorld s u b) = (Ok (success_msg "Account created successfully!"), mkWorld s' u b) /\
             stored_users s' = Some (l ++ [new_user c d]).
Proof. exact (signup_appends c d s u b l). Qed.

(** with unique emails, the right password opens a session for
    that account: the token and the snapshot are written and the
    session holds the account with its derived role. *)
Lemma login_match c s u b l x :
  stored_users s = Some l -> NoDup (email <$> l) -> x ∈ l ->
  login c (email x) (password x) (mkWorld s u b) =
  (Ok success_only,
   mkWorld (setItem (setItem s "token" (make_token c (derive_role x))) "user"
              (encode_account (derive_role x))) (Some (derive_role x)) b).
Proof. intros Hl Hnd Hx. rewrite (login_spec _ _ _ s u b l Hl). by rewrite find_credentials. Qed.

(** The account at the index [findIndex] reports gets the new
    password; every other account and every email is unchanged. *)
Lemma changed_account np l x :
  NoDup (email <$> l) -> x ∈ l ->
  let l' := alter (set_password np)
              (Z.to_nat (js_findIndex (fun y => bool_decide (email y = email x)) l)) l in
  NoDup (email <$> l') /\ set_password np x ∈ l'.
Proof.
  intros Hnd Hx l'. unfold l'. split; [by rewrite alter_set_password_emails|].
  destruct (js_findIndex_find (fun y => bool_decide (email y = email x)) l)
    as [[Hf _] | (i & x' & Hf & -> & Hi)].
  - by rewrite find_email in Hf.
  - rewrite find_email in Hf by done. injection Hf as <-.
    apply list_elem_of_lookup_2 with i. rewrite Nat2Z.id, list_lookup_alter_eq, Hi. done.
Qed.

(** C5: after [changePassword t np] on an existing account, logging in
    with the new password succeeds and with any other password fails. *)
Theorem change_password_then_login c c' t np old s u b l :
  stored_users s = Some l -> NoDup (email <$> l) -> (exists x, x ∈ l /\ email x = t) ->
  let w' := snd (changePassword t np (mkWorld s u b)) in
  fst (login c t np w') = Ok success_only /\
  (old <> np -> fst (login c' t old w') = Ok (failure "Invalid email or password")).
Proof.
  intros Hl Hnd (x & Hx & <-) w'.
  destruct (changed_account np l x Hnd Hx) as [Hnd' Hy].
  assert (Hw : w' = mkWorld (setItem s "users" (encode_users
                 (alter (set_password np)
                    (Z.to_nat (js_findIndex (fun y => bool_decide (email y = email x)) l)) l))) u b).
  { unfold w'. rewrite (changePassword_spec _ np s u b l Hl), find_email by done. done. }
  rewrite Hw. set (l' := alter _ _ l) in *. split.
  - pose proof (login_match c (setItem s "users" (encode_users l')) u b l' (set_password np x)
                  (stored_users_write _ _) Hnd' Hy) as E.
    cbn [email password set_password] in E. by rewrite E.
  - intros Hold. rewrite (login_no_match c' (email x) old _ u b l'); [done | apply stored_users_write |].
    intros z Hz Hze Hzp. assert (z = set_password np x) as ->.
    { apply (nodup_email_eq _ _ _ Hnd' Hz Hy). done. }
    simpl in Hzp. congruence.
Qed.

Lemma session_keys s t v :
  getItem (setItem (setItem s "token" t) "user" v) "token" = Some t /\
  getItem (setItem (setItem s "token" t) "user" v) "user" = Some v /\
  stored_users (setItem (setItem s "token" t) "user" v) = stored_users s.
Proof.
  split; [rewrite getItem_setItem_ne by done; apply getItem_setItem_eq|].
  split; [apply getItem_setItem_eq|].
  rewrite !stored_users_set_other by done. done.
Qed.

(** What one Google login does: the session holds the account of that
    email (its derived role), created with [google_account] only when
    no account had the email. *)
Lemma loginWithGoogle_result c g s u b l :
  stored_users s = Some l -> NoDup (email <$> l) ->
  exists s' x l2,
    loginWithGoogle c g (mkWorld s u b) = (Ok success_only, mkWorld s' (Some (derive_role x)) b) /\
    stored_users s' = Some l2 /\ x ∈ l2 /\ email x = g_email g /\ NoDup (email <$> l2) /\
    (l2 = l \/ (l2 = l ++ [x] /\ x = google_account c g (length l) /\
                (forall y, y ∈ l -> email y <> g_email g))) /\
    getItem s' "token" = Some (make_token c (derive_role x)) /\
    getItem s' "user" = Some (encode_account (derive_role x)).
Proof.
  intros Hl Hnd. rewrite (loginWithGoogle_spec c g s u b l Hl). unfold google_target.
  destruct (js_find _ l) as [f|] eqn:E.
  - apply js_find_Some in E as [Hf Hin]. apply bool_decide_eq_true in Hf.
    destruct (session_keys s (make_token c (derive_role f)) (encode_account (derive_role f)))
      as (Ht & Hu & Hs).
    eexists _, f, l. split; [reflexivity|]. rewrite Hs. eauto 10.
  - pose proof (find_email_None _ _ E) as Hfr.
    set (x := google_account c g (length l)).
    destruct (session_keys (setItem s "users" (encode_users (l ++ [x])))
                (make_token c (derive_role x)) (encode_account (derive_role x))) as (Ht & Hu & Hs).
    eexists _, x, (l ++ [x]). split; [reflexivity|]. rewrite Hs, stored_users_write.
    split; [done|]. split; [set_solver|]. split; [done|].
    split; [apply nodup_snoc_fresh; [done | intros y Hy; by apply Hfr]|]. eauto 10.
Qed.

(** C6: a second Google login with the same email stores nothing new:
    the list after two calls is the list after one, it has exactly one
    account with that email, and emails stay unique. *)
Theorem loginWithGoogle_idempotent c1 c2 g s u b l :
  stored_users s = Some l -> NoDup (email <$> l) ->
  let w2 := snd (loginWithGoogle c1 g (mkWorld s u b)) in
  let w3 := snd (loginWithGoogle c2 g w2) in
  exists l2, stored_users (storage w2) = Some l2 /\ stored_users (storage w3) = Some l2 /\
             NoDup (email <$> l2) /\ (exists x, x ∈ l2 /\ email x = g_email g).
Proof.
  intros Hl Hnd w2 w3.
  destruct (loginWithGoogle_result c1 g s u b l Hl Hnd) as (s2 & x & l2 & E2 & Hs2 & Hx & Hxe & Hnd2 & _).
  exists l2. unfold w3, w2. rewrite E2. simpl.
  destruct (loginWithGoogle_result c2 g s2 (Some (derive_role x)) b l2 Hs2 Hnd2)
    as (s3 & y & l3 & E3 & Hs3 & Hy & Hye & _ & [-> | (_ & _ & Hfresh)] & _).
  - rewrite E3. simpl. split; [done|]. split; [done|]. eauto.
  - by destruct (Hfresh x Hx).
Qed.

(** C14: [loginWithGoogle] asks for no credential: given only the admin
    email (typed into a prompt), it opens an admin session, whether or
    not the admin account exists. *)
Theorem google_login_as_admin c name s u b l :
  stored_users s = Some l -> NoDup (email <$> l) ->
  let r := loginWithGoogle c (mkGoogle ADMIN_EMAIL name) (mkWorld s u b) in
  fst r = Ok success_only /\
  exists a, user (snd r) = Some a /\ email a = ADMIN_EMAIL /\ role a = "admin".
Proof.
  intros Hl Hnd r.
  destruct (loginWithGoogle_result c (mkGoogle ADMIN_EMAIL name) s u b l Hl Hnd)
    as (s' & x & l2 & E & _ & _ & Hxe & _).
  unfold r. rewrite E. split; [done|]. exists (derive_role x).
  split; [done|]. rewrite derive_role_email. split; [done|]. by apply derive_role_admin.
Qed.

(** C15: the password [loginWithGoogle] stores for a new account is
    ["google-" ++ email]: anyone who knows the email can then log in
    through the password form. *)
Theorem google_password_login c c' g s u b l :
  stored_users s = Some l -> NoDup (email <$> l) ->
  (forall y, y ∈ l -> email y <> g_email g) ->
  let w' := snd (loginWithGoogle c g (mkWorld s u b)) in
  fst (login c' (g_email g) ("google-" +:+ g_email g) w') = Ok success_only.
Proof.
  intros Hl Hnd Hfresh w'.
  destruct (loginWithGoogle_result c g s u b l Hl Hnd)
    as (s' & x & l2 & E & Hs' & Hx & Hxe & Hnd2 & [-> | (_ & Hxdef & _)] & _).
  - by destruct (Hfresh x Hx).
  - unfold w'. rewrite E. simpl.
    assert (Hp : password x = "google-" +:+ g_email g) by (rewrite Hxdef; reflexivity).
    rewrite <- Hp, <- Hxe. by rewrite (login_match c' s' _ b l2 x Hs' Hnd2 Hx).
Qed.

Lemma seed_admin_has_admin c l :
  exists a, a ∈ seed_admin c l /\ email a = ADMIN_EMAIL.
Proof.
  unfold seed_admin. destruct js_some eqn:E.
  - apply js_some_email in E as (a & Ha & He). eauto.
  - exists (default_admin c). split; [set_solver | done].
Qed.

Lemma seed_admin_idem c1 c2 l : seed_admin c2 (seed_admin c1 l) = seed_admin c1 l.
Proof.
  destruct (seed_admin_has_admin c1 l) as (a & Ha & He).
  unfold seed_admin at 1. replace (js_some _ _) with true; [done|].
  symmetry. apply js_some_email. eauto.
Qed.

Lemma seed_admin_nodup c l : NoDup (email <$> l) -> NoDup (email <$> seed_admin c l).
Proof.
  intros Hnd. unfold seed_admin. destruct js_some eqn:E; [done|].
  apply nodup_snoc_fresh; [done|]. intros y Hy He.
  assert (js_some (fun u => is_admin_email (email u)) l = true) by (apply js_some_email; eauto).
  congruence.
Qed.

(** C8: on a store whose list parses, [checkAuth] leaves exactly the
    seeded list (the old one if it had the admin email, otherwise the
    old one plus the default admin), which has an admin account and
    keeps emails unique, and ends with [loading] false. *)
Theorem checkAuth_seeds_admin c s u b l :
  stored_users s = Some l ->
  let w' := snd (checkAuth c (mkWorld s u b)) in
  loading w' = false /\ stored_users (storage w') = Some (seed_admin c l) /\
  (exists a, a ∈ seed_admin c l /\ email a = ADMIN_EMAIL) /\
  (NoDup (email <$> l) -> NoDup (email <$> seed_admin c l)).
Proof.
  intros Hl w'. destruct (checkAuth_spec c s u b l Hl) as (s' & Hs' & _ & E).
  unfold w'. rewrite E. simpl. split; [done|]. split; [done|].
  split; [apply seed_admin_has_admin | apply seed_admin_nodup].
Qed.

(** C11: [checkAuth] is idempotent on the account list: running it again
    (at any later time) stores the same list. *)
Theorem checkAuth_idempotent c1 c2 (w : world) :
  stored_users (storage (snd (checkAuth c2 (snd (checkAuth c1 w))))) =
  stored_users (storage (snd (checkAuth c1 w))).
Proof.
  destruct w as [s u b]. destruct (stored_users s) as [l|] eqn:Hl.
  - destruct (checkAuth_spec c1 s u b l Hl) as (s' & Hs' & _ & E). rewrite E. simpl.
    destruct (checkAuth_spec c2 s' (match restore_result s' with Some (Some a) => Some a | _ => u end) false _ Hs')
      as (s'' & Hs'' & _ & E2). rewrite E2. simpl.
    by rewrite Hs'', Hs', seed_admin_idem.
  - rewrite checkAuth_corrupt by done. simpl. by rewrite checkAuth_corrupt by done.
Qed.

(** C7: on start-up a session is restored from the stored snapshot
    whenever the token is present (any truthy string: it is never
    decoded or compared), and the admin role is forced on the admin
    email whatever role the snapshot holds. *)
Theorem checkAuth_restores_snapshot c s u b l p :
  stored_users s = Some l -> truthy (getItem s "token") = true ->
  getItem s "user" = Some (encode_account p) ->
  user (snd (checkAuth c (mkWorld s u b))) = Some (derive_role p) /\
  (email p = ADMIN_EMAIL -> role (derive_role p) = "admin").
Proof.
  intros Hl Ht Hu. split; [|apply derive_role_admin].
  destruct (checkAuth_spec c s u b l Hl) as (s' & _ & Hk & E). rewrite E. simpl.
  unfold restore_result. rewrite !Hk by done. rewrite Hu, Ht. simpl.
  by rewrite decode_encode_account.
Qed.

(** C18: [logout] removes the token and the snapshot and ends the
    session, leaving the accounts alone; a later start-up restores no
    session. *)
Theorem logout_clears c s u b :
  let w' := snd (logout (mkWorld s u b)) in
  user w' = None /\ getItem (storage w') "token" = None /\ getItem (storage w') "user" = None /\
  stored_users (storage w') = stored_users s /\ user (snd (checkAuth c w')) = None.
Proof.
  intros w'. simpl in w'.
  assert (Hu : getItem (removeItem (removeItem s "token") "user") "user" = None)
    by apply getItem_removeItem_eq.
  assert (Ht : getItem (removeItem (removeItem s "token") "user") "token" = None)
    by (rewrite getItem_removeItem_ne by done; apply getItem_removeItem_eq).
  assert (Hs : stored_users (removeItem (removeItem s "token") "user") = stored_users s)
    by (rewrite !stored_users_remove_other by done; done).
  unfold w'. simpl. repeat split; try done.
  destruct (stored_users s) as [l|] eqn:Hl.
  - destruct (checkAuth_spec c _ None b l Hs) as (s' & _ & Hk & E).
    rewrite E. simpl. unfold restore_result. rewrite Hk, Hu by done. done.
  - by rewrite checkAuth_corrupt.
Qed.

(** C3: a wrong password and an unknown email are indistinguishable:
    when no stored account has both the email and the password, [login]
    answers "Invalid email or password" and changes nothing. *)
Theorem login_invalid_credentials c em pw s u b l :
  stored_users s = Some l ->
  (forall x, x ∈ l -> email x = em -> password x <> pw) ->
  login c em pw (mkWorld s u b) = (Ok (failure "Invalid email or password"), mkWorld s u b).
Proof. exact (login_no_match c em pw s u b l). Qed.

(** C12: with unique emails, the right password opens a session for
    that account: the token and the snapshot are written and the
    session holds the account with its derived role. *)
Theorem login_success c s u b l x :
  stored_users s = Some l -> NoDup (email <$> l) -> x ∈ l ->
  login c (email x) (password x) (mkWorld s u b) =
  (Ok success_only,
   mkWorld (setItem (setItem s "token" (make_token c (derive_role x))) "user"
              (encode_account (derive_role x))) (Some (derive_role x)) b).
Proof. exact (login_match c s u b l x). Qed.

(** C17: when [JSON.parse] throws on the text of the [users] key (text
    that is not JSON), every handler that reads it lands in its
    [catch]: it answers with its own error message ([getAllUsers] with
    the empty list) and changes nothing. *)
Theorem handlers_on_corrupt_store c s u b :
  Json.parse (or_default (getItem s "users") "[]") = None ->
  (forall d, signup c d (mkWorld s u b) = (Ok (failure "Error creating account"), mkWorld s u b)) /\
  (forall em pw, login c em pw (mkWorld s u b) = (Ok (failure "Error logging in"), mkWorld s u b)) /\
  (forall g, loginWithGoogle c g (mkWorld s u b) =
             (Ok (failure "Error logging in with Google"), mkWorld s u b)) /\
  (forall t np, changePassword t np (mkWorld s u b) =
                (Ok (failure "Error changing password"), mkWorld s u b)) /\
  getAllUsers (mkWorld s u b) = (Ok [], mkWorld s u b).
Proof. intros Hp. apply corrupt_store_handlers. exact (stored_users_unparsable s Hp). Qed.

End Properties.

(** ** The properties at concrete inputs: an empty browser store
    ([gmap]) after the mount-time [checkAuth]. *)

Local Abbreviation c0 := (mkClock 1700000000000 "2023-11-14T22:13:20.000Z").
Local Abbreviation s_empty := (∅ : gmap string string).
Local Abbreviation s_seeded := (storage (snd (checkAuth c0 (init_world s_empty)))).
Local Abbreviation guser := (mkGoogle "g@x.com" "Gee").

Lemma login_invalid_credentials_witness :
  login c0 ADMIN_EMAIL "wrong" (mkWorld s_seeded None false) =
  (Ok (failure "Invalid email or password"), mkWorld s_seeded None false).
Proof.
  apply (login_invalid_credentials c0 ADMIN_EMAIL "wrong" s_seeded None false [default_admin c0]).
  - vm_compute. reflexivity.
  - intros x Hx%list_elem_of_singleton _. subst x. vm_compute. discriminate.
Defined.

Lemma signup_duplicate_email_witness :
  signup c0 (mkForm "Mallory" "M" "10th" ADMIN_EMAIL "secret1" "R9" "student") (mkWorld s_seeded None false) =
  (Ok (failure "Email already registered!"), mkWorld s_seeded None false).
Proof.
  apply (signup_duplicate_email c0 _ s_seeded None false [default_admin c0] (default_admin c0)).
  - vm_compute. reflexivity.
  - by left.
  - reflexivity.
Defined.

Lemma signup_fresh_witness :
  exists s', signup c0 (mkForm "S One" "F" "10th" "s1@x.com" "abcdef" "R1" "student") (mkWorld s_seeded None false) =
             (Ok (success_msg "Account created successfully!"), mkWorld s' None false) /\
             stored_users s' = Some ([default_admin c0] ++ [new_user c0 (mkForm "S One" "F" "10th" "s1@x.com" "abcdef" "R1" "student")]).
Proof.
  apply (signup_fresh c0 _ s_seeded None false [default_admin c0]).
  - vm_compute. reflexivity.
  - intros x Hx%list_elem_of_singleton. subst x. vm_compute. discriminate.
Defined.

Lemma login_success_witness :
  login c0 ADMIN_EMAIL "admin123" (mkWorld s_seeded None false) =
  (Ok success_only,
   mkWorld (setItem (setItem s_seeded "token" (make_token c0 (derive_role (default_admin c0)))) "user"
              (encode_account (derive_role (default_admin c0)))) (Some (derive_role (default_admin c0))) false).
Proof.
  apply (login_success c0 s_seeded None false [default_admin c0] (default_admin c0)).
  - vm_compute. reflexivity.
  - apply NoDup_singleton.
  - by left.
Defined.

Lemma change_password_then_login_witness :
  let w' := snd (changePassword ADMIN_EMAIL "newpass1" (mkWorld s_seeded None false)) in
  fst (login c0 ADMIN_EMAIL "newpass1" w') = Ok success_only /\
  ("admin123" <> "newpass1" -> fst (login c0 ADMIN_EMAIL "admin123" w') = Ok (failure "Invalid email or password")).
Proof.
  apply (change_password_then_login c0 c0 ADMIN_EMAIL "newpass1" "admin123" s_seeded None false [default_admin c0]).
  - vm_compute. reflexivity.
  - apply NoDup_singleton.
  - exists (default_admin c0). split; [by left | reflexivity].
Defined.

Lemma loginWithGoogle_idempotent_witness :
  let w2 := snd (loginWithGoogle c0 guser (mkWorld s_seeded None false)) in
  let w3 := snd (loginWithGoogle c0 guser w2) in
  exists l2, stored_users (storage w2) = Some l2 /\ stored_users (storage w3) = Some l2 /\
             NoDup (email <$> l2) /\ (exists x, x ∈ l2 /\ email x = g_email guser).
Proof.
  apply (loginWithGoogle_idempotent c0 c0 guser s_seeded None false [default_admin c0]).
  - vm_compute. reflexivity.
  - apply NoDup_singleton.
Defined.

Lemma google_login_as_admin_witness :
  let r := loginWithGoogle c0 (mkGoogle ADMIN_EMAIL "Eve") (mkWorld s_seeded None false) in
  fst r = Ok success_only /\ exists a, user (snd r) = Some a /\ email a = ADMIN_EMAIL /\ role a = "admin".
Proof.
  apply (google_login_as_admin c0 "Eve" s_seeded None false [default_admin c0]).
  - vm_compute. reflexivity.
  - apply NoDup_singleton.
Defined.

Lemma google_password_login_witness :
  let w' := snd (loginWithGoogle c0 guser (mkWorld s_seeded None false)) in
  fst (login c0 (g_email guser) ("google-" +:+ g_email guser) w') = Ok success_only.
Proof.
  apply (google_password_login c0 c0 guser s_seeded None false [default_admin c0]).
  - vm_compute. reflexivity.
  - apply NoDup_singleton.
  - intros y Hy%list_elem_of_singleton. subst y. vm_compute. discriminate.
Defined.

Lemma handlers_on_corrupt_store_witness :
  getAllUsers (mkWorld (<["users" := "not json"]> s_empty) None true) =
  (Ok [], mkWorld (<["users" := "not json"]> s_empty) None true).
Proof.
  apply (handlers_on_corrupt_store c0 (<["users" := "not json"]> s_empty) None true).
  vm_compute. reflexivity.
Defined.

Lemma checkAuth_seeds_admin_witness :
  let w' := snd (checkAuth c0 (mkWorld s_empty None true)) in
  loading w' = false /\ stored_users (storage w') = Some (seed_admin c0 []) /\
  (exists a, a ∈ seed_admin c0 [] /\ email a = ADMIN_EMAIL) /\
  (NoDup (email <$> []) -> NoDup (email <$> seed_admin c0 [])).
Proof. apply (checkAuth_seeds_admin c0 s_empty None true []). vm_compute. reflexivity. Defined.

(** A snapshot whose stored role was changed to "student". *)
Local Abbreviation tampered := (set_role "student" (default_admin c0)).

Lemma checkAuth_restores_snapshot_witness :
  user (snd (checkAuth c0 (mkWorld (<["token" := "forged"]> (<["user" := encode_account tampered]> s_empty)) None true)))
  = Some (derive_role tampered) /\
  (email tampered = ADMIN_EMAIL -> role (derive_role tampered) = "admin").
Proof.
  apply (checkAuth_restores_snapshot c0 _ None true [] tampered).
  - vm_compute. reflexivity.
  - vm_compute. reflexivity.
  - vm_compute. reflexivity.
Defined.

Lemma checkAuth_idempotent_witness :
  stored_users (storage (snd (checkAuth c0 (snd (checkAuth c0 (init_world s_empty)))))) =
  stored_users (storage (snd (checkAuth c0 (init_world s_empty)))).
Proof. apply (checkAuth_idempotent c0 c0 (init_world s_empty)). Defined.

Lemma logout_clears_witness :
  let w' := snd (logout (mkWorld s_seeded (Some (default_admin c0)) false)) in
  user w' = None /\ getItem (storage w') "token" = None /\ getItem (storage w') "user" = None /\
  stored_users (storage w') = stored_users s_seeded /\ user (snd (checkAuth c0 w')) = None.
Proof. apply (logout_clears c0 s_seeded (Some (default_admin c0)) false). Defined.

End Auth.
