(* ===== verification/Iso.v ===== *)
(** * [Date.prototype.toISOString]

    [AuthContext.js] stamps every new account with
    [new Date().toISOString()] (lines 81, 146) and the default admin
    likewise (line 35); the handlers read it from their [clock] as
    [now_iso].  This file computes it from the milliseconds since the
    epoch, following ECMA-262 (Day, YearFromTime, MonthFromTime,
    DateFromTime in their closed form on the proleptic Gregorian
    calendar): [YYYY-MM-DDTHH:mm:ss.sssZ], with the six-digit extended
    year [+YYYYYY] from year 10000 on.  [consistent_clock c] says a
    clock's two readings are of the same instant. *)

From stdpp Require Import base strings list.
From Stdlib Require Import ZArith Ascii.
From S2P Require Import Prelude Auth.
Import Auth.

Module Iso.

Local Open Scope Z_scope.

(** Year, month (1-12) and day (1-31) of day [z] after 1970-01-01
    ([z] >= 0), the closed form of YearFromTime, MonthFromTime and
    DateFromTime: 400-year eras of 146097 days, years counted from
    March so that the leap day ends the year. *)
Definition civil_from_days (z : Z) : Z * Z * Z :=
  let z := z + 719468 in
  let era := z / 146097 in
  let doe := z - era * 146097 in
  let yoe := (doe - doe / 1460 + doe / 36524 - doe / 146096) / 365 in
  let doy := doe - (365 * yoe + yoe / 4 - yoe / 100) in
  let mp := (5 * doy + 2) / 153 in
  let d := doy - (153 * mp + 2) / 5 + 1 in
  let m := if mp <? 10 then mp + 3 else mp - 9 in
  (yoe + era * 400 + (if m <=? 2 then 1 else 0), m, d).

Definition digit (n : Z) : Ascii.ascii := Ascii.ascii_of_N (48 + Z.to_N (n mod 10)).

(** The [k] low decimal digits of [n], zero-padded. *)
Fixpoint pad (k : nat) (n : Z) : string :=
  match k with
  | O => EmptyString
  | S k' => pad k' (n / 10) +:+ String (digit n) EmptyString
  end.

Definition iso_of_ms (ms : N) : string :=
  let t := Z.of_N ms in
  let day := t / 86400000 in
  let msd := t mod 86400000 in
  let '(y, m, d) := civil_from_days day in
  (if y <? 10000 then pad 4 y else "+" +:+ pad 6 y) +:+ "-" +:+ pad 2 m +:+ "-" +:+ pad 2 d +:+
  "T" +:+ pad 2 (msd / 3600000) +:+ ":" +:+ pad 2 (msd / 60000 mod 60) +:+ ":" +:+
  pad 2 (msd / 1000 mod 60) +:+ "." +:+ pad 3 (msd mod 1000) +:+ "Z".

(** Both readings of the clock are of one instant. *)
Definition consistent_clock (c : clock) : Prop := now_iso c = iso_of_ms (now_ms c).

(** What JavaScript prints for a few instants: the epoch, a leap day,
    the last millisecond of a century year that is not leap, the clock
    of the examples of this development, and the first instant of year
    10000. *)
Example iso_of_ms_samples :
  map iso_of_ms [0; 951782400000; 4107542399999; 1700000000000; 1700000000001; 253402300800000]%N =
  ["1970-01-01T00:00:00.000Z"; "2000-02-29T00:00:00.000Z"; "2100-02-28T23:59:59.999Z";
   "2023-11-14T22:13:20.000Z"; "2023-11-14T22:13:20.001Z"; "+010000-01-01T00:00:00.000Z"].
Proof. vm_compute. reflexivity. Qed.

(** The clocks the examples of this development use are real ones. *)
Example example_clocks_consistent :
  consistent_clock (mkClock 1700000000000 "2023-11-14T22:13:20.000Z") /\
  consistent_clock (mkClock 1700000000001 "2023-11-14T22:13:20.001Z").
Proof. split; vm_compute; reflexivity. Qed.

Lemma pad_length k n : String.length (pad k n) = k.
Proof.
  revert n. induction k as [|k IH]; intros n; [done|]. cbn [pad].
  rewrite sapp_length, IH. cbn. lia.
Qed.

(** The string has 24 characters up to year 9999, 27 after. *)
Lemma iso_of_ms_length ms :
  String.length (iso_of_ms ms) =
  if (civil_from_days (Z.of_N ms / 86400000)).1.1 <? 10000 then 24%nat else 27%nat.
Proof.
  unfold iso_of_ms. destruct (civil_from_days _) as [[y m] d]. cbn [fst].
  destruct (y <? 10000); rewrite !sapp_length, !pad_length; cbn [String.length]; rewrite ?pad_length; lia.
Qed.

End Iso.
