(* ===== verification/Session.v ===== *)
(** * The application as a state machine

    Every interaction with the portal is one call of a handler of
    [AuthContext.js] (each runs to completion in one turn, see
    [Auth.v]).  [step e w w'] is that transition, labelled with the
    handler [e]; [reachable s0] is every world the app can reach from
    a browser whose [localStorage] is [s0], starting with the
    [checkAuth] that [AuthProvider]'s mount effect runs (lines 12-14).

    The theorems: along every run the account list keeps unique
    emails, contains the admin email, and a session showing the admin
    email has the admin role ([reachable_invariant]); and the app
    refines the two-state session machine of the spec
    (Unauthenticated/Authenticated), in which only [logout] leaves
    Authenticated ([step_refines_phase]). *)

From stdpp Require Import base strings list list_monad gmap.
From S2P Require Import Prelude Json Account Storage Base64 Auth.
Import Account Storage Auth.

Module Session.

Inductive event :=
| EvCheckAuth | EvSignup | EvLogin | EvGoogle | EvChangePassword | EvGetAllUsers | EvLogout.

#[export] Instance event_eq_dec : EqDecision event.
Proof. solve_decision. Defined.

Section Machine.
Context {S : Type} `{KVStoreLaws S}.

Inductive step : event -> world -> world -> Prop :=
| step_checkAuth c w : step EvCheckAuth w (snd (checkAuth c w))
| step_signup c d w : step EvSignup w (snd (signup c d w))
| step_login c em pw w : step EvLogin w (snd (login c em pw w))
| step_google c g w : step EvGoogle w (snd (loginWithGoogle c g w))
| step_changePassword t np w : step EvChangePassword w (snd (changePassword t np w))
| step_getAllUsers w : step EvGetAllUsers w (snd (getAllUsers w))
| step_logout w : step EvLogout w (snd (logout w)).

Inductive reachable (s0 : S) : world -> Prop :=
| reach_mount c : reachable s0 (snd (checkAuth c (init_world s0)))
| reach_step e w w' : reachable s0 w -> step e w w' -> reachable s0 w'.

(** The store invariant: when the list parses, its emails are unique
    and the admin email is among them. *)
Definition store_ok (s : S) : Prop :=
  match stored_users s with
  | Some l => NoDup (email <$> l) /\ ADMIN_EMAIL ∈ email <$> l
  | None => True
  end.

Definition inv (w : world) : Prop := store_ok (storage w) /\ session_role_ok w.

(** A store the app can start from: its list, if it parses, has unique
    emails (an empty [localStorage] gives the empty list). *)
Definition init_ok (s : S) : Prop :=
  match stored_users s with Some l => NoDup (email <$> l) | None => True end.

(** The session machine of the spec. *)
Inductive phase := Unauthenticated | Authenticated.

Definition phase_of (w : @world S) : phase :=
  if isAuthenticated w then Authenticated else Unauthenticated.

Inductive pstep : phase -> event -> phase -> Prop :=
| ps_stay p e : e <> EvLogout -> pstep p e p
| ps_enter e : e = EvLogin \/ e = EvGoogle \/ e = EvCheckAuth -> pstep Unauthenticated e Authenticated
| ps_logout p : pstep p EvLogout Unauthenticated.

End Machine.

Section Preservation.
Context {S : Type} `{KVStoreLaws S}.
Implicit Types (s : S) (l : list account).

Lemma store_ok_intro s l :
  stored_users s = Some l -> NoDup (email <$> l) -> ADMIN_EMAIL ∈ email <$> l -> store_ok s.
Proof. intros Hl ??. unfold store_ok. by rewrite Hl. Qed.

Lemma store_ok_elim s l :
  store_ok s -> stored_users s = Some l -> NoDup (email <$> l) /\ ADMIN_EMAIL ∈ email <$> l.
Proof. intros Hs Hl. unfold store_ok in Hs. by rewrite Hl in Hs. Qed.

Lemma admin_in_snoc l x : ADMIN_EMAIL ∈ email <$> l -> ADMIN_EMAIL ∈ email <$> l ++ [x].
Proof. rewrite fmap_app, elem_of_app. by left. Qed.

Lemma session_role_derive s a b : session_role_ok (mkWorld s (Some (derive_role a)) b).
Proof. intros a' [= <-] He. rewrite derive_role_email in He. by apply derive_role_admin. Qed.

Lemma session_role_none s b : session_role_ok (mkWorld s None b).
Proof. by intros a' [=]. Qed.

Lemma restore_result_derived s a : restore_result s = Some (Some a) -> exists p, a = derive_role p.
Proof.
  unfold restore_result. destruct (getItem s "user") as [d|]; [|done].
  destruct (_ && _); [|done]. destruct (decode_account d) as [p|]; [|done].
  intros [= <-]. eauto.
Qed.

Lemma js_some_email_false l e :
  js_some (fun u => bool_decide (email u = e)) l = false -> forall y, y ∈ l -> email y <> e.
Proof.
  intros E y Hy He. assert (js_some (fun u => bool_decide (email u = e)) l = true)
    by (apply js_some_email; eauto). congruence.
Qed.

#[local] Hint Resolve session_role_derive session_role_none : core.

Lemma checkAuth_inv c s u b :
  init_ok s -> session_role_ok (mkWorld s u b) -> inv (snd (checkAuth c (mkWorld s u b))).
Proof.
  intros Hi Hr. destruct (stored_users s) as [l|] eqn:Hl.
  - destruct (checkAuth_spec c s u b l Hl) as (s' & Hs' & _ & ->). simpl. split.
    + unfold init_ok in Hi. rewrite Hl in Hi.
      apply (store_ok_intro _ _ Hs'); [by apply seed_admin_nodup|].
      destruct (seed_admin_has_admin c l) as (a & Ha & He).
      apply list_elem_of_fmap. eauto.
    + destruct (restore_result s') as [[a|]|] eqn:E; [|done|done].
      apply restore_result_derived in E as (p & ->). auto.
  - rewrite checkAuth_corrupt by done. split; [unfold store_ok; simpl; by rewrite Hl | done].
Qed.

Lemma signup_inv c d w : inv w -> inv (snd (signup c d w)).
Proof.
  destruct w as [s u b]. intros [Hs Hr]. destruct (stored_users s) as [l|] eqn:Hl.
  - rewrite (signup_spec c d s u b l Hl). destruct js_some eqn:E; [done|]. split; [|done].
    destruct (store_ok_elim s l Hs Hl) as [Hnd Had].
    apply (store_ok_intro _ (l ++ [new_user c d])); [apply stored_users_write | |by apply admin_in_snoc].
    apply nodup_snoc_fresh; [done|]. by apply js_some_email_false.
  - destruct (corrupt_store_handlers c s u b Hl) as (E & _). by rewrite E.
Qed.

Lemma login_inv c em pw w : inv w -> inv (snd (login c em pw w)).
Proof.
  destruct w as [s u b]. intros [Hs Hr]. destruct (stored_users s) as [l|] eqn:Hl.
  - rewrite (login_spec c em pw s u b l Hl). destruct js_find as [f|]; [|done].
    simpl. split; [|auto]. destruct (session_keys s (make_token c (derive_role f)) (encode_account (derive_role f)))
      as (_ & _ & E). unfold store_ok in *. simpl. by rewrite E.
  - destruct (corrupt_store_handlers c s u b Hl) as (_ & E & _). by rewrite E.
Qed.

Lemma google_inv c g w : inv w -> inv (snd (loginWithGoogle c g w)).
Proof.
  destruct w as [s u b]. intros [Hs Hr]. destruct (stored_users s) as [l|] eqn:Hl.
  - destruct (store_ok_elim s l Hs Hl) as [Hnd Had].
    destruct (loginWithGoogle_result c g s u b l Hl Hnd)
      as (s' & x & l2 & -> & Hs' & _ & _ & Hnd2 & Hl2 & _). simpl. split; [|auto].
    apply (store_ok_intro _ _ Hs' Hnd2).
    destruct Hl2 as [-> | (-> & _)]; [done | by apply admin_in_snoc].
  - destruct (corrupt_store_handlers c s u b Hl) as (_ & _ & E & _). by rewrite E.
Qed.

Lemma changePassword_inv t np w : inv w -> inv (snd (changePassword t np w)).
Proof.
  destruct w as [s u b]. intros [Hs Hr]. destruct (stored_users s) as [l|] eqn:Hl.
  - rewrite (changePassword_spec t np s u b l Hl). destruct js_find; [|done]. split; [|done].
    destruct (store_ok_elim s l Hs Hl) as [Hnd Had].
    apply (store_ok_intro _ _ (stored_users_write _ _)); by rewrite alter_set_password_emails.
  - destruct (corrupt_store_handlers (mkClock 0 EmptyString) s u b Hl) as (_ & _ & _ & E & _).
    by rewrite E.
Qed.

Lemma getAllUsers_state (w : world) : snd (getAllUsers w) = w.
Proof.
  destruct w as [s u b]. destruct (stored_users s) as [l|] eqn:Hl.
  - cbv [getAllUsers js_catch read_users js_bind js_get storage js_lift js_ret]. by rewrite Hl.
  - by destruct (corrupt_store_handlers (mkClock 0 EmptyString) s u b Hl) as (_ & _ & _ & _ & ->).
Qed.

Lemma logout_inv w : inv w -> inv (snd (logout w)).
Proof.
  destruct w as [s u b]. intros [Hs Hr]. split; [|done].
  unfold store_ok in *. simpl. by rewrite !stored_users_remove_other.
Qed.

Lemma step_inv e w w' : step e w w' -> inv w -> inv w'.
Proof.
  destruct 1 as [c w | c d w | c em pw w | c g w | t np w | w | w]; intros Hinv.
  - destruct w as [s u b]. apply checkAuth_inv; [|apply Hinv].
    destruct Hinv as [Hs _]. simpl in Hs. unfold init_ok, store_ok in *.
    destruct (stored_users s); tauto.
  - by apply signup_inv.
  - by apply login_inv.
  - by apply google_inv.
  - by apply changePassword_inv.
  - by rewrite getAllUsers_state.
  - by apply logout_inv.
Qed.

(** C1: in every world the app reaches from a store whose list has
    unique emails (an empty store in particular), the stored list, when
    it parses, has unique emails and contains the admin email (hence
    exactly one admin account), and a session with the admin email has
    the admin role. *)
Theorem reachable_invariant s0 w : init_ok s0 -> reachable s0 w -> inv w.
Proof.
  intros Hi. induction 1 as [c | e w w' _ IH Hst].
  - apply checkAuth_inv; [done | apply session_role_none].
  - by apply (step_inv e w w').
Qed.

End Preservation.

Section Refinement.
Context {S : Type} `{KVStoreLaws S}.

(** Which handlers can change the session, and how: only [logout]
    clears it; [login], [loginWithGoogle] and [checkAuth] may set it;
    the others leave it as it was. *)
Lemma step_user e (w w' : @world S) :
  step e w w' -> e <> EvLogout ->
  user w' = user w \/ ((exists a, user w' = Some a) /\ (e = EvLogin \/ e = EvGoogle \/ e = EvCheckAuth)).
Proof.
  destruct 1 as [c w | c d w | c em pw w | c g w | t np w | w | w]; intros Hne;
    destruct w as [s u b]; try destruct (stored_users s) as [l|] eqn:Hl.
  - destruct (checkAuth_spec c s u b l Hl) as (s' & _ & _ & ->). simpl.
    destruct (restore_result s') as [[a|]|]; eauto 6.
  - rewrite checkAuth_corrupt by done. by left.
  - rewrite (signup_spec c d s u b l Hl). destruct js_some; by left.
  - destruct (corrupt_store_handlers c s u b Hl) as (E & _). rewrite E. by left.
  - rewrite (login_spec c em pw s u b l Hl). destruct js_find; [|by left]. eauto 6.
  - destruct (corrupt_store_handlers c s u b Hl) as (_ & E & _). rewrite E. by left.
  - rewrite (loginWithGoogle_spec c g s u b l Hl). destruct google_target. eauto 6.
  - destruct (corrupt_store_handlers c s u b Hl) as (_ & _ & E & _). rewrite E. by left.
  - rewrite (changePassword_spec t np s u b l Hl). destruct js_find; by left.
  - destruct (corrupt_store_handlers (mkClock 0 EmptyString) s u b Hl) as (_ & _ & _ & E & _).
    rewrite E. by left.
  - rewrite getAllUsers_state. by left.
  - rewrite getAllUsers_state. by left.
  - done.
  - done.
Qed.

(** C19: the app refines the session machine of the spec: every step
    is a transition of [pstep] between the phases of its worlds, so an
    authenticated session ends only by [logout], and a session starts
    only by [login], [loginWithGoogle] or the restore of [checkAuth]. *)
Theorem step_refines_phase e (w w' : @world S) :
  step e w w' -> pstep (phase_of w) e (phase_of w').
Proof.
  intros Hst. destruct (decide (e = EvLogout)) as [-> | Hne].
  - inversion Hst; subst. destruct w as [s u b]. unfold phase_of, isAuthenticated. simpl.
    apply ps_logout.
  - destruct (step_user e w w' Hst Hne) as [Hu | ((a & Ha) & He)].
    + unfold phase_of, isAuthenticated. rewrite Hu. by apply ps_stay.
    + unfold phase_of, isAuthenticated. rewrite Ha. destruct (user w).
      * by apply ps_stay.
      * by apply ps_enter.
Qed.

End Refinement.

(** ** The properties at concrete inputs *)

Local Abbreviation c0 := (mkClock 1700000000000 "2023-11-14T22:13:20.000Z").
Local Abbreviation s_empty := (∅ : gmap string string).
Local Abbreviation w_mounted := (snd (checkAuth c0 (init_world s_empty))).

Lemma reachable_invariant_witness : inv w_mounted.
Proof.
  apply (reachable_invariant s_empty w_mounted).
  - vm_compute. apply NoDup_nil_2.
  - apply reach_mount.
Defined.

Lemma step_refines_phase_witness :
  pstep (phase_of (snd (login c0 ADMIN_EMAIL "admin123" w_mounted))) EvLogout
        (phase_of (snd (logout (snd (login c0 ADMIN_EMAIL "admin123" w_mounted))))).
Proof. apply step_refines_phase. apply step_logout. Defined.

End Session.
