(* ===== verification/Spec.v ===== *)
(** * An abstract specification of the auth context, and its refinement

    The handlers of [AuthContext.js] read three keys of
    [localStorage] and two React states.  What they can ever observe is
    captured by [astate]: the decoded account list of [users] ([None]
    when [JSON.parse] would throw), the session that [checkAuth] would
    restore from [token] and [user] ([restore_result]), and the two
    React states.  [absr] is the abstraction function from a [world].

    Each handler has a specification on [astate] written with list
    operations only ([spec_signup], [spec_login], ...): no JSON text,
    no Base64, no store keys.  [handlers_refine_spec] shows that every
    handler commutes with [absr]: running the code and abstracting is
    running the specification on the abstraction, answers included.
    [sstep] is the specification as a labelled step relation, and every
    [Session.step] is an [sstep] between the abstractions
    ([step_simulates]).  On top of it: the account list parses in every
    reachable world exactly when it parsed in the first store, and the
    app has no dead end (a session can always be ended, and when the
    list parses one can always be started). *)

From stdpp Require Import base strings list gmap.
From S2P Require Import Prelude Json Account Storage Base64 Auth Session.
Import Account Storage Base64 Auth Session.
Local Open Scope js_scope.

Module Spec.

(** The observable state of the auth context. *)
Record astate := mkA {
  a_users : option (list account);
  a_snapshot : option (option account);
  a_user : option account;
  a_loading : bool
}.

Definition a_set_users (l : list account) (a : astate) : astate :=
  mkA (Some l) (a_snapshot a) (a_user a) (a_loading a).

(** A session opened for [f]: the snapshot and the React state both
    hold [f] with its derived role. *)
Definition a_open (f : account) (a : astate) : astate :=
  mkA (a_users a) (Some (Some (derive_role f))) (Some (derive_role f)) (a_loading a).

Definition spec_checkAuth (c : clock) (a : astate) : outcome unit * astate :=
  match a_users a with
  | None => (Ok tt, mkA None (a_snapshot a) (a_user a) false)
  | Some l =>
      (Ok tt, mkA (Some (seed_admin c l)) (a_snapshot a)
                  (match a_snapshot a with Some (Some p) => Some p | _ => a_user a end) false)
  end.

Definition spec_signup (c : clock) (d : signup_form) (a : astate) : outcome result * astate :=
  match a_users a with
  | None => (Ok (failure "Error creating account"), a)
  | Some l =>
      if js_some (fun x => bool_decide (email x = f_email d)) l
      then (Ok (failure "Email already registered!"), a)
      else (Ok (success_msg "Account created successfully!"), a_set_users (l ++ [new_user c d]) a)
  end.

Definition spec_login (em pw : string) (a : astate) : outcome result * astate :=
  match a_users a with
  | None => (Ok (failure "Error logging in"), a)
  | Some l =>
      match js_find (credentials_match em pw) l with
      | Some f => (Ok success_only, a_open f a)
      | None => (Ok (failure "Invalid email or password"), a)
      end
  end.

Definition spec_loginWithGoogle (c : clock) (g : google_user) (a : astate) : outcome result * astate :=
  match a_users a with
  | None => (Ok (failure "Error logging in with Google"), a)
  | Some l =>
      let '(f, ins) := google_target c g l in
      (Ok success_only, a_open f (match ins with Some l' => a_set_users l' a | None => a end))
  end.

Definition spec_changePassword (t np : string) (a : astate) : outcome result * astate :=
  match a_users a with
  | None => (Ok (failure "Error changing password"), a)
  | Some l =>
      match js_find (fun x => bool_decide (email x = t)) l with
      | None => (Ok (failure "User not found"), a)
      | Some _ =>
          (Ok (success_msg "Password changed successfully!"),
           a_set_users (alter (set_password np)
                          (Z.to_nat (js_findIndex (fun x => bool_decide (email x = t)) l)) l) a)
      end
  end.

Definition spec_getAllUsers (a : astate) : outcome (list account) * astate :=
  (Ok (default [] (a_users a)), a).

Definition spec_logout (a : astate) : outcome unit * astate :=
  (Ok tt, mkA (a_users a) (Some None) None (a_loading a)).

Inductive sstep : event -> astate -> astate -> Prop :=
| ss_checkAuth c a : sstep EvCheckAuth a (snd (spec_checkAuth c a))
| ss_signup c d a : sstep EvSignup a (snd (spec_signup c d a))
| ss_login em pw a : sstep EvLogin a (snd (spec_login em pw a))
| ss_google c g a : sstep EvGoogle a (snd (spec_loginWithGoogle c g a))
| ss_changePassword t np a : sstep EvChangePassword a (snd (spec_changePassword t np a))
| ss_getAllUsers a : sstep EvGetAllUsers a (snd (spec_getAllUsers a))
| ss_logout a : sstep EvLogout a (snd (spec_logout a)).

Section Abstraction.
Context {S : Type} `{KVStoreLaws S}.

Definition absr (w : @world S) : astate :=
  mkA (stored_users (storage w)) (restore_result (storage w)) (user w) (loading w).

(** A handler's (outcome, world) pair, abstracted. *)
Definition absr_r {A} (r : outcome A * @world S) : outcome A * astate := (r.1, absr r.2).

End Abstraction.

(** ** The store facts the abstraction needs *)

Lemma derive_role_idem f : derive_role (derive_role f) = derive_role f.
Proof.
  unfold derive_role. destruct (is_admin_email (email f)) eqn:E; [|by rewrite E].
  by rewrite set_role_email, E.
Qed.

Lemma truthy_cons a t : truthy (Some (String a t)) = true.
Proof. done. Qed.

Lemma encode_account_truthy u : truthy (Some (encode_account u)) = true.
Proof.
  unfold encode_account. destruct (Json.stringify_String (account_to_json u)) as (a & t & ->).
  apply truthy_cons.
Qed.

Lemma make_token_truthy c u : truthy (Some (make_token c u)) = true.
Proof.
  unfold make_token. destruct (id u +:+ _) as [|a t] eqn:E.
  - destruct (id u); discriminate.
  - destruct (btoa (String a t)) as [|b r] eqn:B; [by apply btoa_nonempty in B | apply truthy_cons].
Qed.

Section StoreFacts.
Context {S : Type} `{KVStoreLaws S}.
Implicit Types (s : S).

Lemma restore_result_ext s s' :
  (forall k, k <> "users" -> getItem s' k = getItem s k) -> restore_result s' = restore_result s.
Proof. intros Hk. unfold restore_result. by rewrite !Hk. Qed.

Lemma restore_result_users s v : restore_result (setItem s "users" v) = restore_result s.
Proof. apply restore_result_ext. intros k Hk. by apply getItem_setItem_ne. Qed.

Lemma restore_result_session s c u :
  restore_result (setItem (setItem s "token" (make_token c u)) "user" (encode_account u)) =
  Some (Some (derive_role u)).
Proof.
  destruct (session_keys s (make_token c u) (encode_account u)) as (Ht & Hu & _).
  unfold restore_result. rewrite Hu, Ht, make_token_truthy, encode_account_truthy. simpl.
  by rewrite decode_encode_account.
Qed.

Lemma restore_result_logout s : restore_result (removeItem (removeItem s "token") "user") = Some None.
Proof. unfold restore_result. by rewrite getItem_removeItem_eq. Qed.

(** The abstraction of the world a session was opened in. *)
Lemma absr_open s c f u b :
  absr (mkWorld (setItem (setItem s "token" (make_token c (derive_role f))) "user"
                   (encode_account (derive_role f))) (Some (derive_role f)) b) =
  a_open f (absr (mkWorld s u b)).
Proof.
  destruct (session_keys s (make_token c (derive_role f)) (encode_account (derive_role f)))
    as (_ & _ & Hs).
  unfold absr, a_open. cbn [storage user loading a_users a_loading].
  by rewrite Hs, restore_result_session, derive_role_idem.
Qed.

Lemma absr_write s l u b :
  absr (mkWorld (setItem s "users" (encode_users l)) u b) = a_set_users l (absr (mkWorld s u b)).
Proof. unfold absr, a_set_users. simpl. by rewrite stored_users_write, restore_result_users. Qed.

End StoreFacts.

(** ** Each handler refines its specification *)

Section Refinement.
Context {S : Type} `{KVStoreLaws S}.
Implicit Types (w : @world S).

Lemma absr_users s u b : a_users (absr (mkWorld (S := S) s u b)) = stored_users s.
Proof. done. Qed.

Lemma checkAuth_refines c w : absr_r (checkAuth c w) = spec_checkAuth c (absr w).
Proof.
  destruct w as [s u b]. unfold spec_checkAuth. rewrite absr_users.
  destruct (stored_users s) as [l|] eqn:Hl.
  - destruct (checkAuth_spec c s u b l Hl) as (s' & Hs' & Hk & ->).
    unfold absr_r, absr. simpl. by rewrite Hs', (restore_result_ext s s' Hk).
  - rewrite checkAuth_corrupt by done. unfold absr_r, absr. simpl. by rewrite Hl.
Qed.

Lemma signup_refines c d w : absr_r (signup c d w) = spec_signup c d (absr w).
Proof.
  destruct w as [s u b]. unfold spec_signup. rewrite absr_users.
  destruct (stored_users s) as [l|] eqn:Hl.
  - rewrite (signup_spec c d s u b l Hl). destruct js_some; [done|].
    unfold absr_r. simpl. by rewrite absr_write.
  - by destruct (corrupt_store_handlers c s u b Hl) as (-> & _).
Qed.

Lemma login_refines c em pw w : absr_r (login c em pw w) = spec_login em pw (absr w).
Proof.
  destruct w as [s u b]. unfold spec_login. rewrite absr_users.
  destruct (stored_users s) as [l|] eqn:Hl.
  - rewrite (login_spec c em pw s u b l Hl). destruct js_find; [|done].
    unfold absr_r. simpl. by rewrite (absr_open s c _ u b).
  - by destruct (corrupt_store_handlers c s u b Hl) as (_ & -> & _).
Qed.

Lemma loginWithGoogle_refines c g w : absr_r (loginWithGoogle c g w) = spec_loginWithGoogle c g (absr w).
Proof.
  destruct w as [s u b]. unfold spec_loginWithGoogle. rewrite absr_users.
  destruct (stored_users s) as [l|] eqn:Hl.
  - rewrite (loginWithGoogle_spec c g s u b l Hl). destruct google_target as [f [l'|]].
    + unfold absr_r. simpl. by rewrite (absr_open _ c f u b), absr_write.
    + unfold absr_r. simpl. by rewrite (absr_open s c f u b).
  - by destruct (corrupt_store_handlers c s u b Hl) as (_ & _ & -> & _).
Qed.

Lemma changePassword_refines t np w : absr_r (changePassword t np w) = spec_changePassword t np (absr w).
Proof.
  destruct w as [s u b]. unfold spec_changePassword. rewrite absr_users.
  destruct (stored_users s) as [l|] eqn:Hl.
  - rewrite (changePassword_spec t np s u b l Hl). destruct js_find; [|done].
    unfold absr_r. simpl. by rewrite absr_write.
  - by destruct (corrupt_store_handlers (mkClock 0 EmptyString) s u b Hl) as (_ & _ & _ & -> & _).
Qed.

Lemma getAllUsers_refines w : absr_r (getAllUsers w) = spec_getAllUsers (absr w).
Proof.
  destruct w as [s u b]. unfold spec_getAllUsers. rewrite absr_users.
  destruct (stored_users s) as [l|] eqn:Hl.
  - cbv [getAllUsers js_catch read_users js_bind js_get storage js_lift js_ret]. by rewrite Hl.
  - by destruct (corrupt_store_handlers (mkClock 0 EmptyString) s u b Hl) as (_ & _ & _ & _ & ->).
Qed.

Lemma logout_refines w : absr_r (logout w) = spec_logout (absr w).
Proof.
  destruct w as [s u b]. unfold absr_r, absr, spec_logout. simpl.
  by rewrite restore_result_logout, !stored_users_remove_other.
Qed.

(** C2: every handler of the auth context refines its specification:
    abstracting the world after running the handler gives the answer
    and the abstract state the specification computes from the
    abstraction of the world before.  No handler throws. *)
Theorem handlers_refine_spec c d em pw g t np w :
  absr_r (checkAuth c w) = spec_checkAuth c (absr w) /\
  absr_r (signup c d w) = spec_signup c d (absr w) /\
  absr_r (login c em pw w) = spec_login em pw (absr w) /\
  absr_r (loginWithGoogle c g w) = spec_loginWithGoogle c g (absr w) /\
  absr_r (changePassword t np w) = spec_changePassword t np (absr w) /\
  absr_r (getAllUsers w) = spec_getAllUsers (absr w) /\
  absr_r (logout w) = spec_logout (absr w).
Proof.
  split; [apply checkAuth_refines|]. split; [apply signup_refines|].
  split; [apply login_refines|]. split; [apply loginWithGoogle_refines|].
  split; [apply changePassword_refines|]. split; [apply getAllUsers_refines|].
  apply logout_refines.
Qed.

Lemma absr_snd {A} (r : outcome A * @world S) : absr r.2 = (absr_r r).2.
Proof. done. Qed.

(** Every handler step is a step of the specification between the
    abstractions. *)
Lemma step_simulates e w w' : step e w w' -> sstep e (absr w) (absr w').
Proof.
  destruct 1 as [c w | c d w | c em pw w | c g w | t np w | w | w]; rewrite absr_snd.
  - rewrite checkAuth_refines. constructor.
  - rewrite signup_refines. constructor.
  - rewrite login_refines. constructor.
  - rewrite loginWithGoogle_refines. constructor.
  - rewrite changePassword_refines. constructor.
  - rewrite getAllUsers_refines. constructor.
  - rewrite logout_refines. constructor.
Qed.

End Refinement.

(** ** Consequences proved on the specification *)

(** No specification step turns a list that parses into one that does
    not, or the other way round. *)
Lemma sstep_users e a a' : sstep e a a' -> (a_users a' = None <-> a_users a = None).
Proof.
  destruct 1; destruct a as [[l|] sn u b]; cbn; repeat case_match; cbn; naive_solver.
Qed.

Section Consequences.
Context {S : Type} `{KVStoreLaws S}.

Lemma reachable_users (s0 : S) w : reachable s0 w -> (stored_users (storage w) = None <-> stored_users s0 = None).
Proof.
  induction 1 as [c | e w w' _ IH Hst].
  - change (stored_users (storage (snd (checkAuth c (init_world s0))))) with
      (a_users (absr (snd (checkAuth c (init_world s0))))).
    rewrite absr_snd, checkAuth_refines. unfold spec_checkAuth. simpl.
    destruct (stored_users s0); naive_solver.
  - rewrite <- IH. exact (sstep_users e _ _ (step_simulates e w w' Hst)).
Qed.

Lemma reachable_users_Some (s0 : S) w :
  reachable s0 w -> is_Some (stored_users s0) -> is_Some (stored_users (storage w)).
Proof.
  intros R. pose proof (reachable_users s0 w R). rewrite <- !not_eq_None_Some. tauto.
Qed.

(** C9: the [users] key holds the JSON text of an account array in
    every reachable world exactly when it did in the store the app
    started from: every write writes such a text, and when it does not
    parse no handler ever repairs it (the admin account is then never
    seeded, and signup and login fail for good). *)
Theorem users_parse_invariant (s0 : S) w :
  reachable s0 w -> (is_Some (a_users (absr w)) <-> is_Some (stored_users s0)).
Proof.
  intros R. pose proof (reachable_users s0 w R) as E. cbn.
  rewrite <- !not_eq_None_Some. tauto.
Qed.

(** C20: the app has no dead end: from every reachable world a [logout]
    step reaches the unauthenticated phase, and, when the account list
    parses, a Google login step reaches the authenticated phase. *)
Theorem no_dead_end (s0 : S) w (c : clock) (g : google_user) :
  reachable s0 w ->
  (exists w', step EvLogout w w' /\ phase_of w' = Unauthenticated) /\
  (is_Some (stored_users s0) ->
   exists w', step EvGoogle w w' /\ sstep EvGoogle (absr w) (absr w') /\ phase_of w' = Authenticated).
Proof.
  intros R. split.
  - exists (snd (logout w)). split; [constructor|]. by destruct w.
  - intros Hs. apply (reachable_users_Some s0 w R) in Hs as [l Hl].
    exists (snd (loginWithGoogle c g w)). split; [constructor|].
    split; [apply step_simulates; constructor|].
    pose proof (f_equal (fun r => a_user r.2) (loginWithGoogle_refines c g w)) as E.
    cbn in E. unfold spec_loginWithGoogle in E. cbn in E. rewrite Hl in E.
    destruct google_target. unfold phase_of, isAuthenticated. by rewrite E.
Qed.

End Consequences.

(** ** The properties at concrete inputs: the empty browser store after
    the mount-time [checkAuth]. *)

Local Abbreviation c0 := (mkClock 1700000000000 "2023-11-14T22:13:20.000Z").
Local Abbreviation s_empty := (∅ : gmap string string).
Local Abbreviation w_mounted := (snd (checkAuth c0 (init_world s_empty))).
Local Abbreviation form := (mkForm "S One" "F" "10th" "s1@x.com" "abcdef" "R1" "student").
Local Abbreviation guser := (mkGoogle "g@x.com" "Gee").

Lemma handlers_refine_spec_witness :
  absr_r (login c0 ADMIN_EMAIL "admin123" w_mounted) = spec_login ADMIN_EMAIL "admin123" (absr w_mounted) /\
  absr_r (signup c0 form w_mounted) = spec_signup c0 form (absr w_mounted).
Proof.
  destruct (handlers_refine_spec c0 form ADMIN_EMAIL "admin123" guser ADMIN_EMAIL "x" w_mounted)
    as (_ & Hs & Hl & _). by split.
Defined.

Lemma users_parse_invariant_witness :
  is_Some (a_users (absr w_mounted)) <-> is_Some (stored_users s_empty).
Proof. apply (users_parse_invariant s_empty w_mounted). apply reach_mount. Defined.

Lemma no_dead_end_witness :
  (exists w', step EvLogout w_mounted w' /\ phase_of w' = Unauthenticated) /\
  (is_Some (stored_users s_empty) ->
   exists w', step EvGoogle w_mounted w' /\ sstep EvGoogle (absr w_mounted) (absr w') /\
              phase_of w' = Authenticated).
Proof. apply (no_dead_end s_empty w_mounted c0 guser). apply reach_mount. Defined.

End Spec.
