(* ===== verification/Respect.v ===== *)
(** * The handlers observe [localStorage] only through [getItem]

    Two browsers whose stores answer every [getItem] alike
    ([Storage.st_equiv]) and whose React state agrees are
    indistinguishable to the portal: every handler of [AuthContext.js]
    gives both the same answer and leaves them in equivalent worlds.
    [w_equiv] is that equivalence on worlds and [r_equiv] its lifting
    to a handler's (outcome, world) pair; a computation [respects] the
    equivalence when it is [Proper (w_equiv ==> r_equiv)].  The
    combinator lemmas below (one per construct of the [js] monad and
    per store primitive) let the tactic [respects_step] discharge a
    whole handler.  The consequence for the state machine of
    [Session.v]: equivalent worlds are bisimilar, and two equivalent
    initial stores reach the same worlds up to [w_equiv]. *)

From stdpp Require Import base strings list gmap.
From S2P Require Import Prelude Json Account Storage Auth Session.
Import Account Storage Auth Session.
Local Open Scope js_scope.

Module Respect.

Section Respect.
Context {S : Type} `{KVStoreLaws S}.

Definition w_equiv (w1 w2 : @world S) : Prop :=
  st_equiv (storage w1) (storage w2) /\ user w1 = user w2 /\ loading w1 = loading w2.

Definition r_equiv {A} (r1 r2 : outcome A * @world S) : Prop :=
  fst r1 = fst r2 /\ w_equiv (snd r1) (snd r2).

Definition respects {A} (m : js (@world S) A) : Prop := Proper (w_equiv ==> r_equiv) m.

#[export] Instance w_equiv_equivalence : Equivalence w_equiv.
Proof.
  split.
  - intros w. by split; [|split].
  - intros w1 w2 (E & U & L). split; [by symmetry | by split].
  - intros w1 w2 w3 (E1 & U1 & L1) (E2 & U2 & L2). split; [by etrans | split; congruence].
Qed.

(** A world with an equivalent store and the same React state. *)
Lemma w_equiv_mk s1 s2 u b : st_equiv s1 s2 -> w_equiv (mkWorld s1 u b) (mkWorld s2 u b).
Proof. by split. Qed.

#[export] Instance stored_users_proper : Proper (st_equiv ==> eq) (@stored_users S _).
Proof. intros s1 s2 E. unfold stored_users. by rewrite (E "users"). Qed.

#[export] Instance restore_result_proper : Proper (st_equiv ==> eq) (@restore_result S _).
Proof. intros s1 s2 E. unfold restore_result. by rewrite (E "user"), (E "token"). Qed.

(** ** The constructs of the monad *)

Lemma respects_ret {A} (a : A) : respects (js_ret a).
Proof. by intros w1 w2 Hw. Qed.

Lemma respects_throw {A} (e : exn) : respects (A := A) (js_throw e).
Proof. by intros w1 w2 Hw. Qed.

Lemma respects_bind {A B} (m : js world A) (k : A -> js world B) :
  respects m -> (forall a, respects (k a)) -> respects (js_bind m k).
Proof.
  intros Hm Hk w1 w2 Hw. unfold js_bind.
  destruct (Hm w1 w2 Hw) as [Ho Hw']. destruct (m w1) as [o1 w1'], (m w2) as [o2 w2'].
  simpl in *. subst. destruct o2; [by apply Hk | done].
Qed.

Lemma respects_catch {A} (m : js world A) (h : exn -> js world A) :
  respects m -> (forall e, respects (h e)) -> respects (js_catch m h).
Proof.
  intros Hm Hh w1 w2 Hw. unfold js_catch.
  destruct (Hm w1 w2 Hw) as [Ho Hw']. destruct (m w1) as [o1 w1'], (m w2) as [o2 w2'].
  simpl in *. subst. destruct o2; [done | by apply Hh].
Qed.

Lemma respects_lift {A} (e : exn) (o : option A) : respects (js_lift e o).
Proof. destruct o; [apply respects_ret | apply respects_throw]. Qed.

(** ** The store primitives *)

Lemma respects_get_item k : respects (get_item k).
Proof. intros w1 w2 Hw. split; [|done]. simpl. by rewrite (proj1 Hw k). Qed.

Lemma respects_set_item k v : respects (set_item k v).
Proof.
  intros w1 w2 (E & U & L). split; [done|]. simpl. split; [|by split].
  by apply setItem_proper.
Qed.

Lemma respects_remove_item k : respects (remove_item k).
Proof.
  intros w1 w2 (E & U & L). split; [done|]. simpl. split; [|by split].
  by apply removeItem_proper.
Qed.

Lemma respects_setUser u : respects (setUser u).
Proof. intros w1 w2 (E & U & L). by split; [|split; [|split]]. Qed.

Lemma respects_setLoading b : respects (setLoading b).
Proof. intros w1 w2 (E & U & L). by split; [|split; [|split]]. Qed.

Lemma respects_read_users : respects read_users.
Proof.
  intros w1 w2 Hw. unfold read_users. cbv [js_bind js_get].
  rewrite (stored_users_proper _ _ (proj1 Hw)). by apply respects_lift.
Qed.

End Respect.

Create HintDb respects discriminated.
#[export] Hint Resolve respects_ret respects_throw respects_lift respects_get_item respects_set_item
  respects_remove_item respects_setUser respects_setLoading respects_read_users : respects.

(** One step of a proof that a handler respects [w_equiv]: a lemma of
    [respects], or a split of the computation at its first construct. *)
Ltac respects_step :=
  first
    [ solve [eauto 3 with respects typeclass_instances]
    | match goal with
      | |- respects (js_bind _ _) => apply respects_bind; [|intros ?]
      | |- respects (js_catch _ _) => apply respects_catch; [|intros ?]
      | |- respects (if ?b then _ else _) => destruct b
      | |- respects (match ?x with _ => _ end) => destruct x
      | |- respects (let (_, _) := ?x in _) => destruct x
      end ].

Section Handlers.
Context {S : Type} `{KVStoreLaws S}.

Lemma respects_write_users l : respects (S := S) (write_users l).
Proof. unfold write_users. repeat respects_step. Qed.
#[local] Hint Resolve respects_write_users : respects.

Lemma respects_open_session c u : respects (S := S) (open_session c u).
Proof. unfold open_session. repeat respects_step. Qed.
#[local] Hint Resolve respects_open_session : respects.

Lemma respects_checkAuth c : respects (S := S) (checkAuth c).
Proof. unfold checkAuth, ensure_admin, restore_session. repeat respects_step. Qed.

Lemma respects_signup c d : respects (S := S) (signup c d).
Proof. unfold signup. repeat respects_step. Qed.

Lemma respects_login c em pw : respects (S := S) (login c em pw).
Proof. unfold login. repeat respects_step. Qed.

Lemma respects_loginWithGoogle c g : respects (S := S) (loginWithGoogle c g).
Proof. unfold loginWithGoogle. repeat respects_step. Qed.

Lemma respects_changePassword t np : respects (S := S) (changePassword t np).
Proof. unfold changePassword. repeat respects_step. Qed.

Lemma respects_getAllUsers : respects (S := S) getAllUsers.
Proof. unfold getAllUsers. repeat respects_step. Qed.

Lemma respects_logout : respects (S := S) logout.
Proof. unfold logout. repeat respects_step. Qed.

End Handlers.

Section Bisimulation.
Context {S : Type} `{KVStoreLaws S}.

(** Equivalent worlds are bisimilar for the handler steps. *)
Lemma step_bisim e (w1 w2 w1' : @world S) :
  w_equiv w1 w2 -> step e w1 w1' -> exists w2', step e w2 w2' /\ w_equiv w1' w2'.
Proof.
  intros Hw Hst. destruct Hst as [c w | c d w | c em pw w | c g w | t np w | w | w].
  - exists (snd (checkAuth c w2)). split; [constructor | apply respects_checkAuth, Hw].
  - exists (snd (signup c d w2)). split; [constructor | apply respects_signup, Hw].
  - exists (snd (login c em pw w2)). split; [constructor | apply respects_login, Hw].
  - exists (snd (loginWithGoogle c g w2)). split; [constructor | apply respects_loginWithGoogle, Hw].
  - exists (snd (changePassword t np w2)). split; [constructor | apply respects_changePassword, Hw].
  - exists (snd (getAllUsers w2)). split; [constructor | apply respects_getAllUsers, Hw].
  - exists (snd (logout w2)). split; [constructor | apply respects_logout, Hw].
Qed.

(** Equivalent initial stores reach the same worlds, up to [w_equiv]. *)
Lemma reachable_equiv (s1 s2 : S) w1 :
  st_equiv s1 s2 -> reachable s1 w1 -> exists w2, reachable s2 w2 /\ w_equiv w1 w2.
Proof.
  intros Hs. induction 1 as [c | e w w' _ IH Hst].
  - exists (snd (checkAuth c (init_world s2))). split; [constructor|].
    apply respects_checkAuth. by apply w_equiv_mk.
  - destruct IH as (w2 & R & Hw). destruct (step_bisim e w w2 w' Hw Hst) as (w2' & Hst' & Hw').
    exists w2'. split; [by eapply reach_step | done].
Qed.

End Bisimulation.

(** ** The property at a concrete input: two stores written in
    different orders. *)

Local Abbreviation c0 := (mkClock 1700000000000 "2023-11-14T22:13:20.000Z").
Local Abbreviation s_ab := (setItem (setItem (∅ : gmap string string) "token" "t") "user" "u").
Local Abbreviation s_ba := (setItem (setItem (∅ : gmap string string) "user" "u") "token" "t").

End Respect.
