(* ===== verification/Api.v ===== *)
(** * The results lookup: [src/src/services/api.js]

    [resultsDatabase] is an object keyed by email whose values are
    result records; [Object.values] lists them in insertion order, so
    the fixture is an association list.  [fetchStudentResults] scans
    the values for the first record with the roll number;
    [fetchAllResults] returns all of them.  Both first await a fixed
    500 ms timer, which changes no state and is not modelled: a call
    is its answer.  [fetchExternalData] (an axios GET) takes what the
    network answers as an argument; no page calls it. *)

From stdpp Require Import base strings list list_relations.
From S2P Require Import Prelude.

Module Api.

Record subject := mkSubject {
  s_name : string; total : N; obtained : N; percentage : N; grade : string; remarks : string
}.

Record result_record := mkRecord {
  rollNo : string; studentName : string; class : string; fatherName : string;
  email : string; subjects : list subject
}.

(** The answer shape [{ success, data }] / [{ success, message }]. *)
Record response (A : Type) := mkResponse { success : bool; data : option A; message : option string }.
Arguments mkResponse {A}.
Arguments success {A}.
Arguments data {A}.
Arguments message {A}.

(** Lines 5-53. *)
Definition resultsDatabase : list (string * result_record) := [
  ("ali@example.com",
   mkRecord "2024-001" "Ali Ahmed" "10th Grade" "Ahmed Khan" "ali@example.com"
     [mkSubject "Mathematics" 100 85 85 "A" "Excellent";
      mkSubject "Physics" 100 78 78 "B" "Very Good";
      mkSubject "Chemistry" 100 82 82 "A" "Excellent";
      mkSubject "English" 100 75 75 "B" "Good";
      mkSubject "Urdu" 100 88 88 "A" "Excellent"]);
  ("sara@example.com",
   mkRecord "2024-002" "Sara Khan" "10th Grade" "Imran Khan" "sara@example.com"
     [mkSubject "Mathematics" 100 92 92 "A" "Outstanding";
      mkSubject "Physics" 100 88 88 "A" "Excellent";
      mkSubject "Chemistry" 100 90 90 "A" "Excellent";
      mkSubject "English" 100 85 85 "A" "Excellent";
      mkSubject "Urdu" 100 94 94 "A" "Outstanding"]);
  ("hassan@example.com",
   mkRecord "2024-003" "Hassan Ali" "9th Grade" "Ali Raza" "hassan@example.com"
     [mkSubject "Mathematics" 100 65 65 "C" "Satisfactory";
      mkSubject "Physics" 100 70 70 "B" "Good";
      mkSubject "Chemistry" 100 68 68 "C" "Satisfactory";
      mkSubject "English" 100 72 72 "B" "Good";
      mkSubject "Urdu" 100 75 75 "B" "Good"])
].

(** [Object.values(resultsDatabase)] *)
Definition database_values : list result_record := snd <$> resultsDatabase.

(** Lines 56-84 (the [try] never throws: no call in it can fail). *)
Definition fetchStudentResults (q : string) : response result_record :=
  match js_find (fun r => bool_decide (rollNo r = q)) database_values with
  | Some r => mkResponse true (Some r) None
  | None => mkResponse false None (Some "No results found for this roll number.")
  end.

(** Lines 87-101. *)
Definition fetchAllResults : response (list result_record) :=
  mkResponse true (Some database_values) None.

(** What [axios.get(url)] settles to: the response's [data], or the
    error it rejects with.  What the network answers is an argument. *)
Inductive http_result (A : Type) := HttpOk (body : A) | HttpError (reason : string).
Arguments HttpOk {A} body.
Arguments HttpError {A} reason.

Definition EXTERNAL_URL : string := "https://jsonplaceholder.typicode.com/users".

(** Lines 104-112: [return response.data]; the [catch] logs the error
    and throws it again. *)
Definition fetchExternalData {A} (get : string -> http_result A) : http_result A :=
  match get EXTERNAL_URL with
  | HttpOk d => HttpOk d
  | HttpError e => HttpError e
  end.

(** Lines 114-118: the default export. *)
Record api_service (A : Type) := mkService {
  svc_fetchStudentResults : string -> response result_record;
  svc_fetchAllResults : response (list result_record);
  svc_fetchExternalData : (string -> http_result A) -> http_result A
}.

Definition apiService {A} : api_service A := mkService A fetchStudentResults fetchAllResults fetchExternalData.

(** ** Properties *)

(** [fetchExternalData] asks the one URL and hands back its answer: a
    rejection reaches the caller unchanged (unlike the other two
    lookups, which never fail). *)
Lemma fetchExternalData_passes {A} (get : string -> http_result A) :
  fetchExternalData get = get EXTERNAL_URL.
Proof. unfold fetchExternalData. by destruct (get EXTERNAL_URL). Qed.

(** The roll numbers of the fixture are distinct. *)
Lemma database_rollNos_unique : NoDup (rollNo <$> database_values).
Proof. apply (bool_decide_unpack _). vm_compute. exact I. Qed.

(** Every percentage of the fixture is [obtained * 100 / total]. *)
Lemma database_percentages :
  Forall (fun r => Forall (fun s => percentage s = (obtained s * 100 / total s)%N) (subjects r))
         database_values.
Proof. vm_compute. repeat constructor. Qed.

(** Every roll number of the fixture is a non-empty string, so the
    Dashboard's [if (user && user.rollNo)] takes it. *)
Lemma database_rollNos_truthy r : r ∈ database_values -> truthy (Some (rollNo r)) = true.
Proof.
  intros Hr. vm_compute in Hr.
  repeat (apply elem_of_cons in Hr as [-> | Hr]; [reflexivity |]). by apply elem_of_nil in Hr.
Qed.

(** a roll number that some record has is answered with exactly
    that record; one that no record has is answered with the failure
    message. *)
Lemma fetch_by_rollNo q :
  (forall r, r ∈ database_values -> rollNo r = q -> fetchStudentResults q = mkResponse true (Some r) None) /\
  ((forall r, r ∈ database_values -> rollNo r <> q) ->
   fetchStudentResults q = mkResponse false None (Some "No results found for this roll number.")).
Proof.
  split.
  - intros r Hr Hq. unfold fetchStudentResults.
    destruct (js_find _ _) as [r'|] eqn:E.
    + apply js_find_Some in E as [Hq' Hr']. apply bool_decide_eq_true in Hq'.
      assert (r' = r) as ->; [|done].
      pose proof database_rollNos_unique as Hnd.
      revert Hnd Hr Hr' Hq Hq'. generalize database_values. intros l.
      induction l as [|x l IH]; [intros _ Hr; inversion Hr|].
      rewrite fmap_cons. intros Hnd Hr Hr' Hq Hq'. apply NoDup_cons in Hnd as [Hx Hnd].
      apply elem_of_cons in Hr as [->|Hr]; apply elem_of_cons in Hr' as [->|Hr']; try done.
      * exfalso. apply Hx. rewrite Hq. rewrite <- Hq'. by apply list_elem_of_fmap_2.
      * exfalso. apply Hx. rewrite Hq'. rewrite <- Hq. by apply list_elem_of_fmap_2.
      * by apply IH.
    + apply js_find_None with (x := r) in E; [|done]. by rewrite bool_decide_eq_true_2 in E.
  - intros Hno. unfold fetchStudentResults.
    destruct (js_find _ _) as [r'|] eqn:E; [|done].
    apply js_find_Some in E as [Hq' Hr']. apply bool_decide_eq_true in Hq'. by destruct (Hno r').
Qed.

(** C21: a roll number that some record has is answered with exactly
    that record; one that no record has is answered with the failure
    message. *)
Theorem fetchStudentResults_spec q :
  (forall r, r ∈ database_values -> rollNo r = q -> fetchStudentResults q = mkResponse true (Some r) None) /\
  ((forall r, r ∈ database_values -> rollNo r <> q) ->
   fetchStudentResults q = mkResponse false None (Some "No results found for this roll number.")).
Proof. exact (fetch_by_rollNo q). Qed.

(** ** The properties at concrete inputs: the two lookups of the spec. *)

Local Abbreviation e := EmptyString.
Local Abbreviation ali := (snd (hd (e, mkRecord e e e e e []) resultsDatabase)).

Lemma fetchStudentResults_spec_witness :
  fetchStudentResults "2024-001" = mkResponse true (Some ali) None /\
  fetchStudentResults "9999-999" = mkResponse false None (Some "No results found for this roll number.").
Proof.
  split.
  - apply (proj1 (fetchStudentResults_spec "2024-001") ali); [by left | reflexivity].
  - apply (proj2 (fetchStudentResults_spec "9999-999")).
    intros r Hr. vm_compute in Hr.
    repeat (apply elem_of_cons in Hr as [-> | Hr]; [vm_compute; discriminate |]).
    by apply elem_of_nil in Hr.
Defined.

End Api.
