(* ===== verification/Pages.v ===== *)
(** * The page handlers: [src/src/pages/Login.js], [Signup.js], [Dashboard.js]

    Each page keeps its own React state (a record here) and calls the
    handlers of the auth context; a page handler is a [js] computation
    on the pair (auth world, page state), and [lift] runs an auth
    handler on the first component.  [navigate(path)] records the route
    in the page state; [prompt()] answers and the clock are arguments.
    The timers ([setTimeout] of the redirect after signup and of the
    success banner) are recorded as pending, not run.  The JSX
    rendering, the show/hide-password toggles, the Dashboard's tabs and
    the [onChange] setters other than the Signup form's [handleChange]
    are not modelled. *)

From stdpp Require Import base strings list gmap.
From Stdlib Require Import Ascii.
From S2P Require Import Prelude Json Account Storage Auth Session Api.
Import Account Storage Auth.
Local Open Scope js_scope.

Module Pages.

Section Lift.
Context {S P : Type} `{KVStore S}.

(** An auth-context handler run from a page. *)
Definition lift {A} (m : js (@world S) A) : js (@world S * P) A :=
  fun wp => let '(r, w') := m wp.1 in (r, (w', wp.2)).

Definition pget : js (@world S * P) P := fun wp => (Ok wp.2, wp).
Definition pset (f : P -> P) : js (@world S * P) unit := js_modify (fun wp => (wp.1, f wp.2)).
End Lift.

(** [setError(result.message)]: a missing message is [undefined]. *)
Definition msg (r : result) : option string := message r.

(** ** [Login.js] *)

Record login_page := mkLoginPage {
  lp_email : string; lp_password : string; lp_error : option string;
  lp_loading : bool; lp_route : option string
}.

Definition lp_set_error (e : option string) (p : login_page) : login_page :=
  mkLoginPage (lp_email p) (lp_password p) e (lp_loading p) (lp_route p).
Definition lp_set_loading (b : bool) (p : login_page) : login_page :=
  mkLoginPage (lp_email p) (lp_password p) (lp_error p) b (lp_route p).
Definition lp_navigate (r : string) (p : login_page) : login_page :=
  mkLoginPage (lp_email p) (lp_password p) (lp_error p) (lp_loading p) (Some r).

Section LoginPage.
Context {S : Type} `{KVStore S}.

(** Lines 21-35. *)
Definition login_handleSubmit (c : clock) : js (@world S * login_page) unit :=
  p <- pget ;;
  pset (lp_set_error (Some EmptyString)) ;;
  pset (lp_set_loading true) ;;
  r <- lift (login c (lp_email p) (lp_password p)) ;;
  (if success r then pset (lp_navigate "/dashboard") else pset (lp_set_error (msg r))) ;;
  pset (lp_set_loading false).

(** Lines 37-61: [googleEmail] and [googleName] are the answers of the
    two [prompt] calls ([None] for a cancelled prompt). *)
Definition login_handleGoogleLogin (c : clock) (googleEmail googleName : option string)
  : js (@world S * login_page) unit :=
  pset (lp_set_error (Some EmptyString)) ;;
  pset (lp_set_loading true) ;;
  (match googleEmail with
   | Some ge =>
       if truthy googleEmail then
         r <- lift (loginWithGoogle c (mkGoogle ge (or_default googleName "Google User"))) ;;
         if success r then pset (lp_navigate "/dashboard") else pset (lp_set_error (msg r))
       else js_ret tt
   | None => js_ret tt
   end) ;;
  pset (lp_set_loading false).

(** Lines 14-18: the effect on [isAuthenticated] sends a visitor who
    already has a session to the dashboard. *)
Definition login_redirect_effect : js (@world S * login_page) unit :=
  wp <- js_get ;;
  if isAuthenticated wp.1 then pset (lp_navigate "/dashboard") else js_ret tt.
End LoginPage.

(** ** [Signup.js] *)

Record signup_page := mkSignupPage {
  sp_form : signup_form; sp_confirm : string; sp_error : option string;
  sp_success : option string; sp_loading : bool; sp_route : option string;
  sp_timer : option (N * string)
}.

Definition sp_set_error (e : option string) (p : signup_page) : signup_page :=
  mkSignupPage (sp_form p) (sp_confirm p) e (sp_success p) (sp_loading p) (sp_route p) (sp_timer p).
Definition sp_set_success (e : option string) (p : signup_page) : signup_page :=
  mkSignupPage (sp_form p) (sp_confirm p) (sp_error p) e (sp_loading p) (sp_route p) (sp_timer p).
Definition sp_set_loading (b : bool) (p : signup_page) : signup_page :=
  mkSignupPage (sp_form p) (sp_confirm p) (sp_error p) (sp_success p) b (sp_route p) (sp_timer p).
Definition sp_set_timer (t : N * string) (p : signup_page) : signup_page :=
  mkSignupPage (sp_form p) (sp_confirm p) (sp_error p) (sp_success p) (sp_loading p) (sp_route p) (Some t).

(** The [name] attributes of the Signup form's inputs. *)
Inductive field := FName | FFatherName | FClass | FRollNo | FEmail | FPassword.

Definition set_field (f : field) (v : string) (d : signup_form) : signup_form :=
  match f with
  | FName => mkForm v (f_fatherName d) (f_class d) (f_email d) (f_password d) (f_rollNo d) (f_role d)
  | FFatherName => mkForm (f_name d) v (f_class d) (f_email d) (f_password d) (f_rollNo d) (f_role d)
  | FClass => mkForm (f_name d) (f_fatherName d) v (f_email d) (f_password d) (f_rollNo d) (f_role d)
  | FRollNo => mkForm (f_name d) (f_fatherName d) (f_class d) (f_email d) (f_password d) v (f_role d)
  | FEmail => mkForm (f_name d) (f_fatherName d) (f_class d) v (f_password d) (f_rollNo d) (f_role d)
  | FPassword => mkForm (f_name d) (f_fatherName d) (f_class d) (f_email d) v (f_rollNo d) (f_role d)
  end.

Section SignupPage.
Context {S : Type} `{KVStore S}.

(** Lines 38-63. *)
Definition signup_handleSubmit (c : clock) : js (@world S * signup_page) unit :=
  p <- pget ;;
  pset (sp_set_error (Some EmptyString)) ;;
  pset (sp_set_success (Some EmptyString)) ;;
  if negb (bool_decide (f_password (sp_form p) = sp_confirm p)) then
    pset (sp_set_error (Some "Passwords do not match!"))
  else
    pset (sp_set_loading true) ;;
    r <- lift (signup c (sp_form p)) ;;
    (if success r then
       pset (sp_set_success (Some (default EmptyString (msg r) +:+ " Redirecting to login..."))) ;;
       pset (sp_set_timer (2000%N, "/login"))
     else pset (sp_set_error (msg r))) ;;
    pset (sp_set_loading false).
Definition sp_navigate (r : string) (p : signup_page) : signup_page :=
  mkSignupPage (sp_form p) (sp_confirm p) (sp_error p) (sp_success p) (sp_loading p) (Some r) (sp_timer p).

(** Lines 65-89: [handleGoogleSignup], the flow of the Login page's
    Google button on the Signup page's state. *)
Definition signup_handleGoogleSignup (c : clock) (googleEmail googleName : option string)
  : js (@world S * signup_page) unit :=
  pset (sp_set_error (Some EmptyString)) ;;
  pset (sp_set_success (Some EmptyString)) ;;
  pset (sp_set_loading true) ;;
  (match googleEmail with
   | Some ge =>
       if truthy googleEmail then
         r <- lift (loginWithGoogle c (mkGoogle ge (or_default googleName "Google User"))) ;;
         if success r then pset (sp_navigate "/dashboard") else pset (sp_set_error (msg r))
       else js_ret tt
   | None => js_ret tt
   end) ;;
  pset (sp_set_loading false).

(** Lines 24-29: the same redirect on the Signup page. *)
Definition signup_redirect_effect : js (@world S * signup_page) unit :=
  wp <- js_get ;;
  if isAuthenticated wp.1 then pset (sp_navigate "/dashboard") else js_ret tt.

(** Lines 31-36: [setFormData({...formData, [e.target.name]: value})];
    the form's inputs carry the six names of [field] (lines 107-179). *)
Definition signup_handleChange (f : field) (v : string) : js (@world S * signup_page) unit :=
  pset (fun p => mkSignupPage (set_field f v (sp_form p)) (sp_confirm p) (sp_error p)
                              (sp_success p) (sp_loading p) (sp_route p) (sp_timer p)).
End SignupPage.

(** ** [Dashboard.js] *)

Record dashboard := mkDash {
  results : option Api.result_record; allResults : list Api.result_record;
  d_error : option string; d_success : option string; d_loading : bool;
  searchRollNo : string; showPasswordModal : bool; selectedUser : option account;
  newPassword : string; showNewPassword : bool; allUsers : list account; d_route : option string;
  d_timer : option N; activeTab : string
}.

Definition d_set_results r d := mkDash r (allResults d) (d_error d) (d_success d) (d_loading d)
  (searchRollNo d) (showPasswordModal d) (selectedUser d) (newPassword d) (showNewPassword d) (allUsers d) (d_route d) (d_timer d) (activeTab d).
Definition d_set_allResults a d := mkDash (results d) a (d_error d) (d_success d) (d_loading d)
  (searchRollNo d) (showPasswordModal d) (selectedUser d) (newPassword d) (showNewPassword d) (allUsers d) (d_route d) (d_timer d) (activeTab d).
Definition d_set_error e d := mkDash (results d) (allResults d) e (d_success d) (d_loading d)
  (searchRollNo d) (showPasswordModal d) (selectedUser d) (newPassword d) (showNewPassword d) (allUsers d) (d_route d) (d_timer d) (activeTab d).
Definition d_set_success e d := mkDash (results d) (allResults d) (d_error d) e (d_loading d)
  (searchRollNo d) (showPasswordModal d) (selectedUser d) (newPassword d) (showNewPassword d) (allUsers d) (d_route d) (d_timer d) (activeTab d).
Definition d_set_loading b d := mkDash (results d) (allResults d) (d_error d) (d_success d) b
  (searchRollNo d) (showPasswordModal d) (selectedUser d) (newPassword d) (showNewPassword d) (allUsers d) (d_route d) (d_timer d) (activeTab d).
Definition d_set_search q d := mkDash (results d) (allResults d) (d_error d) (d_success d) (d_loading d)
  q (showPasswordModal d) (selectedUser d) (newPassword d) (showNewPassword d) (allUsers d) (d_route d) (d_timer d) (activeTab d).
Definition d_set_modal b d := mkDash (results d) (allResults d) (d_error d) (d_success d) (d_loading d)
  (searchRollNo d) b (selectedUser d) (newPassword d) (showNewPassword d) (allUsers d) (d_route d) (d_timer d) (activeTab d).
Definition d_set_selected u d := mkDash (results d) (allResults d) (d_error d) (d_success d) (d_loading d)
  (searchRollNo d) (showPasswordModal d) u (newPassword d) (showNewPassword d) (allUsers d) (d_route d) (d_timer d) (activeTab d).
Definition d_set_newPassword np d := mkDash (results d) (allResults d) (d_error d) (d_success d) (d_loading d)
  (searchRollNo d) (showPasswordModal d) (selectedUser d) np (showNewPassword d) (allUsers d) (d_route d) (d_timer d) (activeTab d).
Definition d_set_allUsers l d := mkDash (results d) (allResults d) (d_error d) (d_success d) (d_loading d)
  (searchRollNo d) (showPasswordModal d) (selectedUser d) (newPassword d) (showNewPassword d) l (d_route d) (d_timer d) (activeTab d).
Definition d_navigate r d := mkDash (results d) (allResults d) (d_error d) (d_success d) (d_loading d)
  (searchRollNo d) (showPasswordModal d) (selectedUser d) (newPassword d) (showNewPassword d) (allUsers d) (Some r) (d_timer d) (activeTab d).
Definition d_set_activeTab t d := mkDash (results d) (allResults d) (d_error d) (d_success d) (d_loading d)
  (searchRollNo d) (showPasswordModal d) (selectedUser d) (newPassword d) (showNewPassword d) (allUsers d) (d_route d) (d_timer d) t.
Definition d_set_showNewPassword b d := mkDash (results d) (allResults d) (d_error d) (d_success d) (d_loading d)
  (searchRollNo d) (showPasswordModal d) (selectedUser d) (newPassword d) b (allUsers d) (d_route d) (d_timer d) (activeTab d).
Definition d_set_timer t d := mkDash (results d) (allResults d) (d_error d) (d_success d) (d_loading d)
  (searchRollNo d) (showPasswordModal d) (selectedUser d) (newPassword d) (showNewPassword d) (allUsers d) (d_route d) (Some t) (activeTab d).

(** [String.prototype.trim] removes JavaScript white space; in a
    one-byte character set that is tab, newline, vertical tab, form
    feed, carriage return, space and no-break space (0xA0). *)
Definition js_space (c : ascii) : bool :=
  let n := Ascii.N_of_ascii c in
  bool_decide (n = 9%N) || bool_decide (n = 10%N) || bool_decide (n = 11%N) ||
  bool_decide (n = 12%N) || bool_decide (n = 13%N) || bool_decide (n = 32%N) ||
  bool_decide (n = 160%N).

(** [!s.trim()]: the string is empty after trimming. *)
Fixpoint blank (s : string) : bool :=
  match s with EmptyString => true | String c s' => js_space c && blank s' end.

(** A value a property read on an object literal can give: a string,
    a function of [Object.prototype] (by its name), or
    [Object.prototype] itself. *)
Inductive js_value := JSString (s : string) | JSFunction (name : string) | JSObject.

Definition js_value_truthy (v : js_value) : bool :=
  match v with JSString s => truthy (Some s) | _ => true end.

(** String conversion in a template literal. *)
Definition js_value_to_string (v : js_value) : string :=
  match v with
  | JSString s => s
  | JSFunction n => "function " +:+ n +:+ "() { [native code] }"
  | JSObject => "[object Object]"
  end.

(** The properties every object literal inherits. *)
Definition object_prototype_get (k : string) : option js_value :=
  if bool_decide (k = "__proto__") then Some JSObject
  else if bool_decide (k = "constructor") then Some (JSFunction "Object")
  else if bool_decide (k ∈ ["toString"; "toLocaleString"; "valueOf"; "hasOwnProperty"; "isPrototypeOf";
                            "propertyIsEnumerable"; "__defineGetter__"; "__defineSetter__";
                            "__lookupGetter__"; "__lookupSetter__"])
  then Some (JSFunction k) else None.

(** Lines 155-161. *)
Definition gradeColors : list (string * string) :=
  [("A", "grade-A"); ("B", "grade-B"); ("C", "grade-C"); ("D", "grade-D"); ("F", "grade-F")].

(** Lines 154-163: [gradeColors[grade] || 'grade-F'], the read falling
    back on [Object.prototype]. *)
Definition getGradeColor (g : string) : js_value :=
  let v := match list_to_map (M := gmap string string) gradeColors !! g with
           | Some s => Some (JSString s)
           | None => object_prototype_get g
           end in
  match v with
  | Some x => if js_value_truthy x then x else JSString "grade-F"
  | None => JSString "grade-F"
  end.

(** Line 378: [className={`grade-badge ${getGradeColor(subject.grade)}`}]. *)
Definition grade_badge_class (g : string) : string := "grade-badge " +:+ js_value_to_string (getGradeColor g).

Section DashboardPage.
Context {S : Type} `{KVStore S}.

(** The fetch and its handling, shared by [autoLoadResults] (lines
    35-48) and [loadResults] (lines 107-120). *)
Definition show_results (rollNo : string) : js (@world S * dashboard) unit :=
  let response := Api.fetchStudentResults rollNo in
  (match Api.success response, Api.data response with
   | true, Some r => pset (d_set_results (Some r)) ;; pset (d_set_error (Some EmptyString))
   | _, _ => pset (d_set_error (Api.message response))
   end) ;;
  pset (d_set_loading false).

(** Lines 96-121. *)
Definition loadResults : js (@world S * dashboard) unit :=
  d <- pget ;;
  if blank (searchRollNo d) then pset (d_set_error (Some "Please enter a roll number"))
  else
    pset (d_set_loading true) ;; pset (d_set_error (Some EmptyString)) ;;
    pset (d_set_success (Some EmptyString)) ;; pset (d_set_results None) ;;
    show_results (searchRollNo d).

(** Lines 26-73: the effect run when [user] changes. *)
Definition dashboard_effect : js (@world S * dashboard) unit :=
  wp <- js_get ;;
  let u := user wp.1 in
  (match u with
   | Some a =>
       if truthy (Some (rollNo a)) then
         pset (d_set_search (rollNo a)) ;; pset (d_set_loading true) ;;
         pset (d_set_error (Some EmptyString)) ;; pset (d_set_success (Some EmptyString)) ;;
         pset (d_set_results None) ;; show_results (rollNo a)
       else js_ret tt
   | None => js_ret tt
   end) ;;
  (match u with
   | Some a =>
       if bool_decide (role a = "admin") then
         users <- lift getAllUsers ;;
         pset (d_set_allUsers users) ;;
         (match Api.success Api.fetchAllResults, Api.data Api.fetchAllResults with
          | true, Some rs => pset (d_set_allResults rs)
          | _, _ => js_ret tt
          end)
       else js_ret tt
   | None => js_ret tt
   end).

(** Lines 75-78. *)
Definition loadAllUsers : js (@world S * dashboard) unit :=
  users <- lift getAllUsers ;; pset (d_set_allUsers users).

(** Lines 123-126: the search form's submit runs [loadResults] with
    the current [searchRollNo]. *)
Definition handleSearchSubmit : js (@world S * dashboard) unit := loadResults.

(** Lines 128-134. *)
Definition openPasswordModal (u : account) : js (@world S * dashboard) unit :=
  pset (d_set_selected (Some u)) ;; pset (d_set_newPassword EmptyString) ;;
  pset (d_set_modal true) ;; pset (d_set_error (Some EmptyString)) ;;
  pset (d_set_success (Some EmptyString)).

(** Lines 136-152.  A [null] [selectedUser] makes [selectedUser.email]
    throw a [TypeError]. *)
Definition handlePasswordChange : js (@world S * dashboard) unit :=
  d <- pget ;;
  if bool_decide (newPassword d = EmptyString) || (String.length (newPassword d) <? 6)
  then pset (d_set_error (Some "Password must be at least 6 characters"))
  else
    target <- js_lift TypeError (selectedUser d) ;;
    r <- lift (changePassword (Account.email target) (newPassword d)) ;;
    if success r then
      pset (d_set_success (msg r)) ;; pset (d_set_modal false) ;;
      loadAllUsers ;;
      pset (d_set_timer 3000%N)
    else pset (d_set_error (msg r)).

(** Lines 91-94. *)
Definition handleLogout : js (@world S * dashboard) unit :=
  lift logout ;; pset (d_navigate "/login").

End DashboardPage.

(** ** Properties *)

Section Properties.
Context {S : Type} `{KVStoreLaws S}.

Lemma lift_getAllUsers {P} (w : @world S) (p : P) :
  lift getAllUsers (w, p) = (fst (getAllUsers w), (w, p)).
Proof.
  unfold lift. simpl. pose proof (Session.getAllUsers_state w).
  destruct (getAllUsers w); simpl in *; by subst.
Qed.

(** The effect on [user] shows the record whose roll number the
    session's account carries, and leaves the auth world alone. *)
Lemma dashboard_effect_results (w : @world S) d a r :
  user w = Some a -> r ∈ Api.database_values -> Api.rollNo r = rollNo a ->
  (snd (dashboard_effect (w, d))).1 = w /\ results (snd (dashboard_effect (w, d))).2 = Some r.
Proof.
  intros Hu Hr Hq. unfold dashboard_effect. cbv [js_bind js_get]. cbn [fst snd]. rewrite Hu.
  rewrite <- Hq, (Api.database_rollNos_truthy r Hr).
  cbv [js_bind pset js_modify]. cbn [fst snd].
  unfold show_results. rewrite (proj1 (Api.fetch_by_rollNo _) r Hr eq_refl).
  cbv [js_bind pset js_modify]. cbn [fst snd].
  case_bool_decide; [|done].
  cbn -[lift getAllUsers]. rewrite lift_getAllUsers. by destruct (fst (getAllUsers w)).
Qed.

Lemma new_user_rollNo c d : rollNo (derive_role (new_user c d)) = f_rollNo d.
Proof. unfold derive_role. by destruct is_admin_email. Qed.

(** C22: the roll number a student types at signup is neither checked
    against the results table nor tied to the email: whoever registers
    with a fresh email and the roll number of any record, then logs in,
    gets that record on the Dashboard. *)
Theorem foreign_rollNo_shows_record c1 c2 s u b l d r dsh :
  stored_users s = Some l -> NoDup (email <$> l) -> (forall x, x ∈ l -> email x <> f_email d) ->
  r ∈ Api.database_values -> f_rollNo d = Api.rollNo r ->
  let w1 := snd (signup c1 d (mkWorld s u b)) in
  let w2 := snd (login c2 (f_email d) (f_password d) w1) in
  user w2 = Some (derive_role (new_user c1 d)) /\
  results (snd (dashboard_effect (w2, dsh))).2 = Some r.
Proof.
  intros Hl Hnd Hfresh Hr Hq w1 w2.
  destruct (signup_appends c1 d s u b l Hl Hfresh) as (s' & E & Hs').
  assert (Hu : user w2 = Some (derive_role (new_user c1 d))).
  { unfold w2, w1. rewrite E. cbn [snd].
    change (f_email d) with (email (new_user c1 d)).
    change (f_password d) with (password (new_user c1 d)).
    rewrite (login_match c2 s' u b _ (new_user c1 d) Hs'); [done | |].
    - apply nodup_snoc_fresh; [done|]. intros y Hy. by apply Hfresh.
    - apply elem_of_app. right. by left. }
  split; [done|].
  apply (dashboard_effect_results w2 dsh _ r Hu Hr). by rewrite new_user_rollNo.
Qed.

(** C24: the Dashboard refuses a new password shorter than six
    characters before calling [changePassword] (nothing in the store
    changes); a longer one is handed to [changePassword] for the
    selected user, and refreshing the user list changes nothing more. *)
Theorem handlePasswordChange_guard (w : @world S) d :
  (String.length (newPassword d) < 6 ->
   handlePasswordChange (w, d) =
   (Ok tt, (w, d_set_error (Some "Password must be at least 6 characters") d))) /\
  (forall u, 6 <= String.length (newPassword d) -> selectedUser d = Some u ->
   (snd (handlePasswordChange (w, d))).1 = snd (changePassword (Account.email u) (newPassword d) w)).
Proof.
  split.
  - intros Hlt. unfold handlePasswordChange. cbv [js_bind pget]. cbn [snd fst].
    replace (String.length (newPassword d) <? 6) with true by (symmetry; apply Nat.ltb_lt; lia).
    by rewrite orb_true_r.
  - intros u Hge Hu. unfold handlePasswordChange. cbv [js_bind pget]. cbn [snd fst].
    replace (String.length (newPassword d) <? 6) with false by (symmetry; apply Nat.ltb_ge; lia).
    rewrite orb_false_r, bool_decide_eq_false_2
      by (intros He; rewrite He in Hge; simpl in Hge; lia).
    simpl. rewrite Hu. cbv [js_lift js_ret lift].
    cbn [fst snd]. destruct (changePassword _ _ w) as [[r|e] w'] eqn:E; simpl; [|done].
    destruct (success r); cbv [js_bind pset js_modify loadAllUsers lift]; simpl; [|done].
    pose proof (Session.getAllUsers_state w') as G.
    destruct (getAllUsers w') as [[us|e'] w''] eqn:E2; simpl in G; by subst.
Qed.

(** C25: the Signup page never calls [signup] when the two passwords
    differ: the store is untouched and the page shows "Passwords do not
    match!". *)
Theorem signup_mismatch_guard c (w : @world S) p :
  f_password (sp_form p) <> sp_confirm p ->
  (snd (signup_handleSubmit c (w, p))).1 = w /\
  sp_error (snd (signup_handleSubmit c (w, p))).2 = Some "Passwords do not match!".
Proof.
  intros Hne. unfold signup_handleSubmit. cbv [js_bind pget pset js_modify].
  simpl. rewrite bool_decide_eq_false_2 by done. done.
Qed.

(** C26: submitting the Signup form with matching passwords and a fresh
    email stores the new account, shows the success message with the
    redirect notice, schedules the move to [/login] after 2000 ms and
    clears [loading]; no session is opened. *)
Theorem signup_handleSubmit_success c s u b l p :
  stored_users s = Some l -> f_password (sp_form p) = sp_confirm p ->
  (forall x, x ∈ l -> email x <> f_email (sp_form p)) ->
  let r := snd (signup_handleSubmit c (mkWorld s u b, p)) in
  stored_users (storage r.1) = Some (l ++ [new_user c (sp_form p)]) /\ user r.1 = u /\
  sp_success r.2 = Some "Account created successfully! Redirecting to login..." /\
  sp_timer r.2 = Some (2000%N, "/login") /\ sp_loading r.2 = false.
Proof.
  intros Hl Hpw Hfresh r.
  destruct (signup_appends c (sp_form p) s u b l Hl Hfresh) as (s' & E & Hs').
  unfold r, signup_handleSubmit. cbv [js_bind pget pset js_modify lift]. cbn [fst snd].
  rewrite bool_decide_eq_true_2 by done. cbn [negb fst snd]. rewrite E. done.
Qed.

(** C27: the Dashboard search refuses a blank roll number with its
    message and no lookup; a roll number of the fixture shows its
    record and clears the error; any other roll number shows no record
    and the failure message of [fetchStudentResults].  After a lookup
    [loading] is false and the auth world is untouched. *)
Theorem loadResults_spec (w : @world S) d :
  (blank (searchRollNo d) = true ->
   loadResults (w, d) = (Ok tt, (w, d_set_error (Some "Please enter a roll number") d))) /\
  (forall r, r ∈ Api.database_values -> Api.rollNo r = searchRollNo d ->
   blank (searchRollNo d) = false ->
   (snd (loadResults (w, d))).1 = w /\ results (snd (loadResults (w, d))).2 = Some r /\
   d_error (snd (loadResults (w, d))).2 = Some EmptyString /\
   d_loading (snd (loadResults (w, d))).2 = false) /\
  ((forall r, r ∈ Api.database_values -> Api.rollNo r <> searchRollNo d) ->
   blank (searchRollNo d) = false ->
   (snd (loadResults (w, d))).1 = w /\ results (snd (loadResults (w, d))).2 = None /\
   d_error (snd (loadResults (w, d))).2 = Some "No results found for this roll number." /\
   d_loading (snd (loadResults (w, d))).2 = false).
Proof.
  split_and!.
  - intros Hb. unfold loadResults. cbv [js_bind pget]. cbn [fst snd]. by rewrite Hb.
  - intros r Hr Hq Hb. unfold loadResults. cbv [js_bind pget]. cbn [fst snd]. rewrite Hb.
    unfold show_results. rewrite (proj1 (Api.fetch_by_rollNo _) r Hr Hq). done.
  - intros Hno Hb. unfold loadResults. cbv [js_bind pget]. cbn [fst snd]. rewrite Hb.
    unfold show_results. rewrite (proj2 (Api.fetch_by_rollNo _) Hno). done.
Qed.

(** C28: submitting the Login form with credentials no account has
    shows "Invalid email or password" and stays on the page; with the
    credentials of an account (emails unique) it navigates to the
    dashboard.  Either way [loading] ends false. *)
Theorem login_handleSubmit_spec c s u b l p :
  stored_users s = Some l ->
  let r := login_handleSubmit c (mkWorld s u b, p) in
  ((forall x, x ∈ l -> email x = lp_email p -> password x <> lp_password p) ->
   (snd r).1 = mkWorld s u b /\ lp_error (snd r).2 = Some "Invalid email or password" /\
   lp_route (snd r).2 = lp_route p /\ lp_loading (snd r).2 = false) /\
  (NoDup (email <$> l) -> (exists x, x ∈ l /\ email x = lp_email p /\ password x = lp_password p) ->
   lp_route (snd r).2 = Some "/dashboard" /\ isAuthenticated (snd r).1 = true /\
   lp_loading (snd r).2 = false).
Proof.
  intros Hl r. split.
  - intros Hno. unfold r, login_handleSubmit. cbv [js_bind pget pset js_modify lift]. simpl.
    rewrite (login_no_match c _ _ s u b l Hl Hno). done.
  - intros Hnd (x & Hx & He & Hp). unfold r, login_handleSubmit. cbv [js_bind pget pset js_modify lift].
    simpl. rewrite <- He, <- Hp, (login_match c s u b l x Hl Hnd Hx). done.
Qed.

End Properties.

(** Every grade of the results fixture gets its own badge class. *)
Lemma grade_badge_fixture :
  Forall (fun r => Forall (fun s => grade_badge_class (Api.grade s) = "grade-badge grade-" +:+ Api.grade s)
                          (Api.subjects r)) Api.database_values.
Proof. vm_compute. repeat constructor. Qed.

(** An unknown grade falls back on [grade-F]; a grade that names a
    property of [Object.prototype] puts that property's string form
    in the class attribute. *)
Example grade_badge_samples :
  map grade_badge_class ["A"; "F"; "E"; EmptyString; "constructor"; "toString"; "__proto__"] =
  ["grade-badge grade-A"; "grade-badge grade-F"; "grade-badge grade-F"; "grade-badge grade-F";
   "grade-badge function Object() { [native code] }"; "grade-badge function toString() { [native code] }";
   "grade-badge [object Object]"].
Proof. vm_compute. reflexivity. Qed.

(** ** The properties at concrete inputs *)

Local Abbreviation c0 := (mkClock 1700000000000 "2023-11-14T22:13:20.000Z").
Local Abbreviation w_mounted := (snd (checkAuth c0 (init_world (∅ : gmap string string)))).
Local Abbreviation dash q np :=
  (mkDash None [] None None false q true (Some (default_admin c0)) np false [] None None "search").
Local Abbreviation form := (mkForm "S One" "F" "10th" "s1@x.com" "abcdef" "R1" "student").

Lemma handlePasswordChange_guard_witness :
  handlePasswordChange (w_mounted, dash "2024-001" "abc") =
  (Ok tt, (w_mounted, d_set_error (Some "Password must be at least 6 characters") (dash "2024-001" "abc"))).
Proof. apply (proj1 (handlePasswordChange_guard w_mounted (dash "2024-001" "abc"))). simpl. lia. Defined.

Lemma signup_mismatch_guard_witness :
  (snd (signup_handleSubmit c0 (w_mounted, mkSignupPage form "abcdeg" None None false None None))).1 = w_mounted /\
  sp_error (snd (signup_handleSubmit c0 (w_mounted, mkSignupPage form "abcdeg" None None false None None))).2 =
  Some "Passwords do not match!".
Proof. apply signup_mismatch_guard. vm_compute. discriminate. Defined.

Lemma signup_handleSubmit_success_witness :
  let r := snd (signup_handleSubmit c0 (mkWorld (storage w_mounted) None false,
                                        mkSignupPage form "abcdef" None None false None None)) in
  stored_users (storage r.1) = Some ([default_admin c0] ++ [new_user c0 form]) /\ user r.1 = None /\
  sp_success r.2 = Some "Account created successfully! Redirecting to login..." /\
  sp_timer r.2 = Some (2000%N, "/login") /\ sp_loading r.2 = false.
Proof.
  apply (signup_handleSubmit_success c0 (storage w_mounted) None false [default_admin c0]).
  - vm_compute. reflexivity.
  - reflexivity.
  - intros x Hx%list_elem_of_singleton. subst x. vm_compute. discriminate.
Defined.

Lemma loadResults_spec_witness :
  loadResults (w_mounted, dash " " EmptyString) =
  (Ok tt, (w_mounted, d_set_error (Some "Please enter a roll number") (dash " " EmptyString))).
Proof. apply (proj1 (loadResults_spec w_mounted (dash " " EmptyString))). reflexivity. Defined.

Lemma login_handleSubmit_spec_witness :
  let r := login_handleSubmit c0 (mkWorld (storage w_mounted) None false,
                                  mkLoginPage ADMIN_EMAIL "wrong" None false None) in
  (snd r).1 = mkWorld (storage w_mounted) None false /\
  lp_error (snd r).2 = Some "Invalid email or password" /\ lp_route (snd r).2 = None /\
  lp_loading (snd r).2 = false.
Proof.
  apply (login_handleSubmit_spec c0 (storage w_mounted) None false [default_admin c0]).
  - vm_compute. reflexivity.
  - intros x Hx%list_elem_of_singleton _. subst x. vm_compute. discriminate.
Defined.

Local Abbreviation mallory := (mkForm "Mallory" "M" "10th" "mallory@x.com" "secret1" "2024-001" "student").
Local Abbreviation ali := (hd (Api.mkRecord EmptyString EmptyString EmptyString EmptyString EmptyString []) Api.database_values).

Lemma foreign_rollNo_shows_record_witness :
  let w1 := snd (signup c0 mallory (mkWorld (storage w_mounted) None false)) in
  let w2 := snd (login c0 (f_email mallory) (f_password mallory) w1) in
  user w2 = Some (derive_role (new_user c0 mallory)) /\
  results (snd (dashboard_effect (w2, dash EmptyString EmptyString))).2 = Some ali.
Proof.
  apply (foreign_rollNo_shows_record c0 c0 (storage w_mounted) None false [default_admin c0]).
  - vm_compute. reflexivity.
  - apply NoDup_singleton.
  - intros x Hx%list_elem_of_singleton. subst x. vm_compute. discriminate.
  - by left.
  - reflexivity.
Defined.

End Pages.
