(* ===== verification/Forms.v ===== *)
(** * The forms and views of [Login.js], [Signup.js] and [Unauthorized.js]

    A form's [onSubmit] handler runs only when the browser's constraint
    validation accepts the form: every [required] field is non-empty,
    a field with [minLength] holds at least that many characters, and a
    field of [type="email"] holds a valid e-mail address.  [valid_email]
    is the WHATWG definition of a valid e-mail address (the regular
    expression of the HTML standard, written as a function);
    [signup_form_valid] and [login_form_valid] read the attributes of
    the two forms.  The field values are those React holds
    ([e.target.value], already sanitized by the browser).

    The views are what the JSX renders from the page state, as a list
    of elements: alerts, buttons with their label and whether they are
    enabled, links with their target, and fixed texts.  They are kept
    to what depends on state or names a route or a credential.

    The auth handlers catch every error, so each page handler runs to
    its [setLoading(false)]: after any submission or Google flow all
    the page's buttons are enabled again ([pages_reenable_buttons]). *)

From stdpp Require Import base strings list gmap.
From Stdlib Require Import Ascii.
From S2P Require Import Prelude Account Storage Auth Pages.
Import Account Storage Auth Pages.

Module Forms.

(** ** HTML e-mail validity *)

Definition in_range (lo hi : N) (c : ascii) : bool :=
  bool_decide (lo <= Ascii.N_of_ascii c <= hi)%N.

Definition is_alnum (c : ascii) : bool :=
  in_range 48 57 c || in_range 65 90 c || in_range 97 122 c.

Fixpoint string_forallb (p : ascii -> bool) (s : string) : bool :=
  match s with EmptyString => true | String c s' => p c && string_forallb p s' end.

Fixpoint string_existsb (p : ascii -> bool) (s : string) : bool :=
  match s with EmptyString => false | String c s' => p c || string_existsb p s' end.

(** [atext] and the dot: the characters of the local part. *)
Definition local_char (c : ascii) : bool :=
  is_alnum c || string_existsb (fun x => bool_decide (x = c)) "!#$%&'*+/=?^_`{|}~-.".

Fixpoint last_char (s : string) : option ascii :=
  match s with
  | EmptyString => None
  | String c EmptyString => Some c
  | String _ s' => last_char s'
  end.

(** [s.split(sep)]. *)
Fixpoint split_on (sep : ascii) (s : string) : list string :=
  match s with
  | EmptyString => [EmptyString]
  | String c s' =>
      if bool_decide (c = sep) then EmptyString :: split_on sep s'
      else match split_on sep s' with
           | w :: ws => String c w :: ws
           | [] => [String c EmptyString]
           end
  end.

(** A domain label: 1 to 63 letters, digits and hyphens, starting and
    ending with a letter or digit. *)
Definition valid_label (l : string) : bool :=
  match l, last_char l with
  | String c _, Some e =>
      bool_decide (String.length l <= 63) && is_alnum c && is_alnum e &&
      string_forallb (fun x => is_alnum x || bool_decide (x = "-"%char)) l
  | _, _ => false
  end.

(** The HTML standard's valid e-mail address: a non-empty local part
    of [atext] and dots, one [@], and dot-separated labels. *)
Definition valid_email (s : string) : bool :=
  match split_on "@"%char s with
  | [loc; dom] =>
      negb (bool_decide (loc = EmptyString)) && string_forallb local_char loc &&
      forallb valid_label (split_on "."%char dom)
  | _ => false
  end.

(** ** Constraint validation of the two forms *)

Definition filled (s : string) : bool := negb (bool_decide (s = EmptyString)).

(** Signup.js lines 104-217: seven [required] fields, [type="email"] on
    the email, [minLength="6"] on both passwords. *)
Definition signup_form_valid (p : signup_page) : bool :=
  let d := sp_form p in
  filled (f_name d) && filled (f_fatherName d) && filled (f_class d) && filled (f_rollNo d) &&
  filled (f_email d) && valid_email (f_email d) &&
  filled (f_password d) && bool_decide (6 <= String.length (f_password d)) &&
  filled (sp_confirm p) && bool_decide (6 <= String.length (sp_confirm p)).

(** Login.js lines 74-94: both fields [required], the email of
    [type="email"]. *)
Definition login_form_valid (p : login_page) : bool :=
  filled (lp_email p) && valid_email (lp_email p) && filled (lp_password p).

(** ** Controlled inputs and the show-password toggles

    Each page keeps a [showPassword] flag per password input (Login.js
    line 10; Signup.js lines 16-17; Dashboard.js line 20) beside the
    state the handlers read; the toggle flips it and the input's
    [type] follows it. *)

(** [() => setShowPassword(!showPassword)] *)
Definition toggle_visibility (shown : bool) : bool := negb shown.

(** [type={showPassword ? "text" : "password"}] *)
Definition password_input_type (shown : bool) : string := if shown then "text" else "password".

(** Login.js line 79: [setEmail(e.target.value)]. *)
Definition login_setEmail (v : string) (p : login_page) : login_page :=
  mkLoginPage v (lp_password p) (lp_error p) (lp_loading p) (lp_route p).

(** Login.js line 92: [setPassword(e.target.value)]. *)
Definition login_setPassword (v : string) (p : login_page) : login_page :=
  mkLoginPage (lp_email p) v (lp_error p) (lp_loading p) (lp_route p).

Inductive login_input := LEmail (v : string) | LPassword (v : string) | LToggleShow.

(** The Login page's inputs on its state and its [showPassword] flag. *)
Definition login_on_input (i : login_input) (st : login_page * bool) : login_page * bool :=
  match i with
  | LEmail v => (login_setEmail v st.1, st.2)
  | LPassword v => (login_setPassword v st.1, st.2)
  | LToggleShow => (st.1, toggle_visibility st.2)
  end.

(** Signup.js line 213: [setConfirmPassword(e.target.value)]. *)
Definition signup_setConfirm (v : string) (p : signup_page) : signup_page :=
  mkSignupPage (sp_form p) v (sp_error p) (sp_success p) (sp_loading p) (sp_route p) (sp_timer p).

Inductive signup_input :=
| SField (f : field) (v : string) | SConfirm (v : string) | SToggleShow | SToggleShowConfirm.

(** The Signup page's inputs on its state and its two flags
    ([showPassword], [showConfirmPassword]); a form field goes through
    [handleChange] (lines 31-36). *)
Definition signup_on_input (i : signup_input) (st : signup_page * (bool * bool)) : signup_page * (bool * bool) :=
  match i with
  | SField f v =>
      (mkSignupPage (set_field f v (sp_form st.1)) (sp_confirm st.1) (sp_error st.1) (sp_success st.1)
                    (sp_loading st.1) (sp_route st.1) (sp_timer st.1), st.2)
  | SConfirm v => (signup_setConfirm v st.1, st.2)
  | SToggleShow => (st.1, (toggle_visibility st.2.1, st.2.2))
  | SToggleShowConfirm => (st.1, (st.2.1, toggle_visibility st.2.2))
  end.

(** ** Views *)

Inductive elem :=
| EAlert (kind text : string)
| EButton (label : string) (enabled : bool)
| ELink (label target : string)
| EText (text : string).

(** [{error && <div className="alert ...">{error}</div>}] *)
Definition alert (kind : string) (o : option string) : list elem :=
  match o with Some e => if truthy (Some e) then [EAlert kind e] else [] | None => [] end.

(** Login.js lines 117-190 (the parts that depend on state, the links
    and the info box). *)
Definition login_view (p : login_page) : list elem :=
  alert "error" (lp_error p) ++
  [EButton (if lp_loading p then "Logging in..." else "Login") (negb (lp_loading p));
   EButton "Continue with Google" (negb (lp_loading p));
   ELink "Sign Up" "/signup";
   EText "Email: admin@studentportal.com | Password: admin123";
   EText "Email: ali@example.com | Password: password123";
   EText "Email: sara@example.com | Password: password123"].

(** The credentials the Login page's info box advertises (lines 181-190). *)
Definition advertised_credentials : list (string * string) :=
  [(ADMIN_EMAIL, "admin123"); ("ali@example.com", "password123"); ("sara@example.com", "password123")].

(** Signup.js lines 240-311. *)
Definition signup_view (p : signup_page) : list elem :=
  alert "error" (sp_error p) ++ alert "success" (sp_success p) ++
  [EButton (if sp_loading p then "Creating Account..." else "Sign Up") (negb (sp_loading p));
   EButton "Sign up with Google" (negb (sp_loading p));
   ELink "Login" "/login";
   EText "All students can view any result using roll number."].

(** Unauthorized.js lines 5-30: the role line shows only with a user. *)
Definition unauthorized_view (u : option account) : list elem :=
  [EText "Access Denied"; EText "You don't have permission to access this page."] ++
  (match u with Some a => [EText ("Current role: " +:+ role a)] | None => [] end) ++
  [ELink "Go to Dashboard" "/dashboard"; ELink "Back to Login" "/login"].

(** Every button of a view is enabled. *)
Definition buttons_enabled (v : list elem) : bool :=
  forallb (fun e => match e with EButton _ b => b | _ => true end) v.

(** The e-mail check on a few inputs. *)
Example valid_email_samples :
  map valid_email ["ali@example.com"; "admin@studentportal.com"; "a.b+c@x-y.z9";
                   "no-at-sign"; "two@@x.com"; "@x.com"; "a@-x.com"; "a@x..com"; "a b@x.com"] =
  [true; true; true; false; false; false; false; false; false].
Proof. vm_compute. reflexivity. Qed.

(** A form field typed on the Signup page is [handleChange]. *)
Lemma signup_on_input_field {S} `{KVStore S} f v (w : @world S) p fl :
  (signup_on_input (SField f v) (p, fl)).1 = (snd (signup_handleChange f v (w, p))).2.
Proof. reflexivity. Qed.

(** ** The pages hand the buttons back *)

Lemma alert_buttons k o : buttons_enabled (alert k o) = true.
Proof. destruct o as [e|]; cbn; [by destruct (negb _)|done]. Qed.

Lemma login_view_buttons p : buttons_enabled (login_view p) = negb (lp_loading p).
Proof.
  unfold login_view, buttons_enabled. rewrite forallb_app. fold (buttons_enabled (alert "error" (lp_error p))).
  rewrite alert_buttons. cbn. by destruct (lp_loading p).
Qed.

Lemma signup_view_buttons p : buttons_enabled (signup_view p) = negb (sp_loading p).
Proof.
  unfold signup_view, buttons_enabled. rewrite !forallb_app.
  fold (buttons_enabled (alert "error" (sp_error p))). fold (buttons_enabled (alert "success" (sp_success p))).
  rewrite !alert_buttons. cbn. by destruct (sp_loading p).
Qed.

Section Idle.
Context {S : Type} `{KVStore S}.

(** The three auth handlers the pages call catch every error. *)
Lemma login_total c em pw (w : @world S) : exists r w', login c em pw w = (Ok r, w').
Proof. apply js_catch_total. Qed.

Lemma signup_total c d (w : @world S) : exists r w', signup c d w = (Ok r, w').
Proof. apply js_catch_total. Qed.

Lemma loginWithGoogle_total c g (w : @world S) : exists r w', loginWithGoogle c g w = (Ok r, w').
Proof. apply js_catch_total. Qed.

Lemma login_handleSubmit_idle c (w : @world S) p : lp_loading (snd (login_handleSubmit c (w, p))).2 = false.
Proof.
  unfold login_handleSubmit. cbv [js_bind pget pset js_modify lift fst snd].
  destruct (login_total c (lp_email p) (lp_password p) w) as (r & w' & ->). cbn. by destruct (success r).
Qed.

Lemma login_handleGoogleLogin_idle c ge gn (w : @world S) p :
  lp_loading (snd (login_handleGoogleLogin c ge gn (w, p))).2 = false.
Proof.
  unfold login_handleGoogleLogin. cbv [js_bind pget pset js_modify lift js_ret fst snd].
  destruct ge as [e|]; [|done]. destruct (truthy _); [|done].
  destruct (loginWithGoogle_total c (mkGoogle e (or_default gn "Google User")) w) as (r & w' & ->).
  cbn. by destruct (success r).
Qed.

Lemma signup_handleSubmit_idle c (w : @world S) p :
  sp_loading p = false -> sp_loading (snd (signup_handleSubmit c (w, p))).2 = false.
Proof.
  intros Hp. unfold signup_handleSubmit. cbv [js_bind pget pset js_modify lift fst snd].
  destruct (negb _); [done|]. destruct (signup_total c (sp_form p) w) as (r & w' & ->). cbn. by destruct (success r).
Qed.

Lemma signup_handleGoogleSignup_idle c ge gn (w : @world S) p :
  sp_loading (snd (signup_handleGoogleSignup c ge gn (w, p))).2 = false.
Proof.
  unfold signup_handleGoogleSignup. cbv [js_bind pget pset js_modify lift js_ret fst snd].
  destruct ge as [e|]; [|done]. destruct (truthy _); [|done].
  destruct (loginWithGoogle_total c (mkGoogle e (or_default gn "Google User")) w) as (r & w' & ->).
  cbn. by destruct (success r).
Qed.

Lemma pages_idle c ge gn (w : @world S) lp sp :
  sp_loading sp = false ->
  buttons_enabled (login_view (snd (login_handleSubmit c (w, lp))).2) = true /\
  buttons_enabled (login_view (snd (login_handleGoogleLogin c ge gn (w, lp))).2) = true /\
  buttons_enabled (signup_view (snd (signup_handleSubmit c (w, sp))).2) = true /\
  buttons_enabled (signup_view (snd (signup_handleGoogleSignup c ge gn (w, sp))).2) = true.
Proof.
  intros Hsp. rewrite !login_view_buttons, !signup_view_buttons.
  by rewrite login_handleSubmit_idle, login_handleGoogleLogin_idle,
    signup_handleSubmit_idle, signup_handleGoogleSignup_idle.
Qed.

(** C33: on any store (a corrupt one included) and whatever the handler
    reports (success, a refusal, a cancelled Google prompt), when a
    submission or Google flow of the Login or Signup page ends, every
    button the page renders is enabled again: [setLoading(false)] runs
    on every path.  The Signup submit starts from an idle page, as a
    disabled submit button cannot submit the form. *)
Theorem pages_reenable_buttons c ge gn (w : @world S) lp sp :
  sp_loading sp = false ->
  buttons_enabled (login_view (snd (login_handleSubmit c (w, lp))).2) = true /\
  buttons_enabled (login_view (snd (login_handleGoogleLogin c ge gn (w, lp))).2) = true /\
  buttons_enabled (signup_view (snd (signup_handleSubmit c (w, sp))).2) = true /\
  buttons_enabled (signup_view (snd (signup_handleGoogleSignup c ge gn (w, sp))).2) = true.
Proof. exact (pages_idle c ge gn w lp sp). Qed.

End Idle.

Local Abbreviation c0 := (mkClock 1700000000000 "2023-11-14T22:13:20.000Z").
Local Abbreviation w_fresh := (init_world (∅ : gmap string string)).
Local Abbreviation lp0 := (mkLoginPage "a@x.com" "secret1" None false None).
Local Abbreviation sp0 :=
  (mkSignupPage (mkForm "S One" "F" "10th" "s1@x.com" "abcdef" "R1" "student") "abcdef" None None false None None).

Lemma pages_reenable_buttons_witness :
  buttons_enabled (login_view (snd (login_handleSubmit c0 (w_fresh, lp0))).2) = true /\
  buttons_enabled (login_view (snd (login_handleGoogleLogin c0 None None (w_fresh, lp0))).2) = true /\
  buttons_enabled (signup_view (snd (signup_handleSubmit c0 (w_fresh, sp0))).2) = true /\
  buttons_enabled (signup_view (snd (signup_handleGoogleSignup c0 None None (w_fresh, sp0))).2) = true.
Proof. apply (pages_reenable_buttons c0 None None w_fresh lp0 sp0). reflexivity. Defined.

End Forms.
