(* ===== verification/Ui.v ===== *)
(** * What the Dashboard lets a session do: [src/src/pages/Dashboard.js]

    The Dashboard's JSX decides which parts of the page render from
    the session's role, the admin tab and the modal flag (lines 212,
    262, 287, 394, 437, 503); a control can only be used while the part
    that holds it is on screen.  [dashboard_view] is that decision,
    [ui_action] the controls (tab buttons, the search field and form,
    the "Change Password" buttons of the user table, the modal's field
    and buttons, Logout), [ui_handler] the code each runs, and
    [ui_step] one use of a control that is on screen.

    The theorem: a session whose user is not an admin, with the modal
    closed, can never change the stored account list through the
    Dashboard, whatever it clicks; the admin can.  The role the gate
    reads is the one [checkAuth] restored from the [user] snapshot
    (see [Auth.checkAuth_restores_snapshot]). *)

From stdpp Require Import base strings list gmap.
From S2P Require Import Prelude Json Account Storage Auth Api Pages.
Import Account Storage Auth Pages.
Local Open Scope js_scope.

Module Ui.

Inductive section :=
| SecAdminTabs | SecStudentInfo | SecSearch | SecAllResults | SecManageUsers | SecPasswordModal.

#[export] Instance section_eq_dec : EqDecision section.
Proof. solve_decision. Defined.

(** [user?.role === 'admin']: [false] for a [null] user. *)
Definition is_admin_session (u : option account) : bool :=
  match u with Some a => bool_decide (role a = "admin") | None => false end.

(** The parts of the page that render (lines 212, 262, 287, 394, 437,
    503), in page order. *)
Definition dashboard_view (u : option account) (d : dashboard) : list section :=
  let admin := is_admin_session u in
  (if admin then [SecAdminTabs] else []) ++
  (if admin then [] else [SecStudentInfo]) ++
  (if negb admin || bool_decide (activeTab d = "search") then [SecSearch] else []) ++
  (if admin && bool_decide (activeTab d = "all") then [SecAllResults] else []) ++
  (if admin && bool_decide (activeTab d = "users") then [SecManageUsers] else []) ++
  (if showPasswordModal d then [SecPasswordModal] else []).

Inductive ui_action :=
| UiSelectTab (t : string)       (** lines 214, 228, 242 *)
| UiTypeRollNo (q : string)      (** line 301 *)
| UiSearch                       (** line 291: [onSubmit={handleSearchSubmit}] *)
| UiOpenModal (u : account)      (** line 473, one button per row of [allUsers] *)
| UiTypePassword (np : string)   (** line 535 *)
| UiChangePassword               (** line 569 *)
| UiToggleShowNewPassword        (** line 541 *)
| UiCancel                       (** lines 584-587 *)
| UiLogout.                      (** line 186, in the header *)

(** The part of the page that holds a control; the header's Logout
    button is always there. *)
Definition holder (a : ui_action) : option section :=
  match a with
  | UiSelectTab _ => Some SecAdminTabs
  | UiTypeRollNo _ | UiSearch => Some SecSearch
  | UiOpenModal _ => Some SecManageUsers
  | UiTypePassword _ | UiToggleShowNewPassword | UiChangePassword | UiCancel => Some SecPasswordModal
  | UiLogout => None
  end.

Section Controls.
Context {S : Type} `{KVStore S}.

Definition enabled (w : @world S) (d : dashboard) (a : ui_action) : bool :=
  match holder a with
  | Some sec =>
      bool_decide (sec ∈ dashboard_view (user w) d) &&
      match a with UiOpenModal u => bool_decide (u ∈ allUsers d) | _ => true end
  | None => true
  end.

Definition ui_handler (a : ui_action) : js (@world S * dashboard) unit :=
  match a with
  | UiSelectTab t => pset (d_set_activeTab t)
  | UiTypeRollNo q => pset (d_set_search q)
  | UiSearch => handleSearchSubmit
  | UiOpenModal u => openPasswordModal u
  | UiTypePassword np => pset (d_set_newPassword np)
  | UiChangePassword => handlePasswordChange
  | UiToggleShowNewPassword => pset (fun d => d_set_showNewPassword (negb (showNewPassword d)) d)
  | UiCancel => pset (d_set_modal false) ;; pset (d_set_error (Some EmptyString))
  | UiLogout => handleLogout
  end.

Inductive ui_step : @world S * dashboard -> ui_action -> @world S * dashboard -> Prop :=
| ui_go wp a : enabled wp.1 wp.2 a = true -> ui_step wp a (snd (ui_handler a wp)).

Inductive ui_reach (wp0 : @world S * dashboard) : @world S * dashboard -> Prop :=
| ui_here : ui_reach wp0 wp0
| ui_next wp a wp' : ui_reach wp0 wp -> ui_step wp a wp' -> ui_reach wp0 wp'.

End Controls.

Section Gate.
Context {S : Type} `{KVStoreLaws S}.

(** A session that is not an admin's, with the password modal closed. *)
Definition closed_student (wp : @world S * dashboard) : Prop :=
  is_admin_session (user wp.1) = false /\ showPasswordModal wp.2 = false.

Lemma view_student u d :
  is_admin_session u = false -> showPasswordModal d = false ->
  dashboard_view u d = [SecStudentInfo; SecSearch].
Proof. intros Ha Hm. unfold dashboard_view. by rewrite Ha, Hm. Qed.

(** What a closed student session has on screen: the search and Logout. *)
Lemma student_enabled (w : @world S) d a :
  is_admin_session (user w) = false -> showPasswordModal d = false -> enabled w d a = true ->
  (exists q, a = UiTypeRollNo q) \/ a = UiSearch \/ a = UiLogout.
Proof.
  intros Ha Hm. unfold enabled. rewrite view_student by done.
  destruct a; intros E; eauto; exfalso; cbn [holder] in E;
    apply andb_prop in E as [E _]; vm_compute in E; discriminate.
Qed.

(** The search changes the page only. *)
Lemma loadResults_frame (w : @world S) d :
  (snd (loadResults (w, d))).1 = w /\ showPasswordModal (snd (loadResults (w, d))).2 = showPasswordModal d.
Proof.
  unfold loadResults, show_results. cbv [js_bind pget pset js_modify]. cbn [fst snd].
  destruct blank; [done|]. cbn [fst snd].
  destruct (Api.fetchStudentResults _) as [[] [r|] m]; done.
Qed.

Lemma student_step wp a wp' :
  ui_step (S := S) wp a wp' -> closed_student wp ->
  closed_student wp' /\ getItem (storage wp'.1) "users" = getItem (storage wp.1) "users".
Proof.
  destruct 1 as [[w d] a Ha]. intros [Hadm Hm]. simpl in Ha.
  destruct (student_enabled w d a Hadm Hm Ha) as [[q ->] | [-> | ->]]; simpl.
  - by split; [split|].
  - destruct (loadResults_frame w d) as [Hw Hm']. unfold handleSearchSubmit.
    rewrite Hw. split; [split|]; [by rewrite Hw | by rewrite Hm' | done].
  - unfold handleLogout. cbv [js_bind lift pset js_modify]. simpl.
    split; [by split | by rewrite !getItem_removeItem_ne].
Qed.

(** C23: a session whose user is not an admin, starting with the
    password modal closed, keeps the [users] key of [localStorage]
    exactly as it was, whatever sequence of on-screen controls of the
    Dashboard it uses: only an admin session can reach the
    password-change modal. *)
Theorem student_cannot_change_accounts wp0 wp :
  ui_reach (S := S) wp0 wp -> closed_student wp0 ->
  getItem (storage wp.1) "users" = getItem (storage wp0.1) "users".
Proof.
  intros R H0.
  assert (closed_student wp /\ getItem (storage wp.1) "users" = getItem (storage wp0.1) "users")
    as [_ ?]; [|done].
  induction R as [|wp a wp' R IH Hst]; [done|].
  destruct IH as [Hc He]. destruct (student_step wp a wp' Hst Hc) as [Hc' He'].
  split; [done | congruence].
Qed.

End Gate.

(** ** The properties at concrete inputs: a student session searches
    and logs out; an admin session opens the user table and changes a
    password, which the gate leaves possible. *)

Local Abbreviation c0 := (mkClock 1700000000000 "2023-11-14T22:13:20.000Z").
Local Abbreviation s_seeded := (storage (snd (checkAuth c0 (init_world (∅ : gmap string string))))).
Local Abbreviation stu := (mkAccount "1" "S One" "F" "10th" "s1@x.com" "abcdef" "2024-001" "student" "t" None).
Local Abbreviation dash0 :=
  (mkDash None [] None None false EmptyString false None EmptyString false [] None None "search").
Local Abbreviation act wp a := (snd (ui_handler a wp)).

Lemma student_cannot_change_accounts_witness :
  let wp0 := (mkWorld s_seeded (Some stu) false, dash0) in
  let wp := act (act (act wp0 (UiTypeRollNo "2024-001")) UiSearch) UiLogout in
  getItem (storage wp.1) "users" = getItem (storage wp0.1) "users".
Proof.
  intros wp0 wp. apply (student_cannot_change_accounts wp0 wp).
  - eapply ui_next; [eapply ui_next; [eapply ui_next; [apply ui_here|]|]|];
      apply ui_go; vm_compute; reflexivity.
  - split; reflexivity.
Defined.

Lemma admin_changes_password :
  let wp0 := (mkWorld s_seeded (Some (default_admin c0)) false,
              d_set_allUsers [default_admin c0] dash0) in
  let wp := act (act (act (act wp0 (UiSelectTab "users")) (UiOpenModal (default_admin c0)))
                     (UiTypePassword "newpass1")) UiChangePassword in
  ui_reach wp0 wp /\ getItem (storage wp.1) "users" <> getItem (storage wp0.1) "users".
Proof.
  intros wp0 wp. split.
  - eapply ui_next; [eapply ui_next; [eapply ui_next; [eapply ui_next; [apply ui_here|]|]|]|];
      apply ui_go; vm_compute; reflexivity.
  - vm_compute. congruence.
Qed.

End Ui.
