(* ===== verification/App.v ===== *)
(** * The whole application: pages, forms and the auth context together

    A visitor drives the auth context only through the pages: a page
    load runs [checkAuth]; the Signup and Login forms submit only when
    constraint validation accepts them ([Forms.signup_form_valid],
    [Forms.login_form_valid]); both pages offer the Google button; the
    Dashboard offers the controls it renders ([Ui.ui_step]) and runs its
    effect on [user].  [app_step] is one such interaction, seen on the
    auth world, and [app_reach s0] every world a browser whose store is
    [s0] can reach.

    The theorems: through the pages every stored password has at least
    six characters (the forms' [minLength], the Dashboard's guard and
    the fixed passwords of the admin and of Google accounts), although
    [signup] and [changePassword] themselves accept any password; and
    of the credentials the Login page advertises, the admin's open a
    session on a fresh store while the two demo students' are refused,
    as no such accounts are ever created; and a visitor who signs up
    through the form can log in with the same credentials and reaches
    the dashboard with a session for the new account.  [handlers_preserve]
    collects what a property of worlds must satisfy for each handler so
    that every reachable world has it; the password bound and the
    growth of the account list ([accounts_never_lost]) are two such
    properties.  Across page loads, a session opened by [login] is
    restored from [localStorage] until [logout] removes it. *)

From stdpp Require Import base strings list list_relations gmap.
From S2P Require Import Prelude Json Account Storage Auth Session Spec Api Pages Forms Ui.
Import Account Storage Auth Session Spec Pages Forms Ui.
Local Open Scope js_scope.

Module App.

Section App.
Context {S : Type} `{KVStoreLaws S}.

(** One interaction, with the clock its handler reads ([None] for the
    Dashboard's, which read none). *)
Inductive app_step : option clock -> @world S -> @world S -> Prop :=
| app_mount c w : app_step (Some c) w (snd (checkAuth c w))
| app_signup c p w :
    signup_form_valid p = true -> app_step (Some c) w (snd (signup_handleSubmit c (w, p))).1
| app_signup_google c ge gn p w : app_step (Some c) w (snd (signup_handleGoogleSignup c ge gn (w, p))).1
| app_login c p w :
    login_form_valid p = true -> app_step (Some c) w (snd (login_handleSubmit c (w, p))).1
| app_login_google c ge gn p w : app_step (Some c) w (snd (login_handleGoogleLogin c ge gn (w, p))).1
| app_dashboard_effect d w : app_step None w (snd (dashboard_effect (w, d))).1
| app_dashboard w d a wd : ui_step (w, d) a wd -> app_step None w wd.1.

(** Lines 212-228: the value the provider hands to the pages. *)
Record auth_context := mkAuthContext {
  ctx_user : option account;
  ctx_login : clock -> string -> string -> js (@world S) result;
  ctx_loginWithGoogle : clock -> google_user -> js (@world S) result;
  ctx_signup : clock -> signup_form -> js (@world S) result;
  ctx_logout : js (@world S) unit;
  ctx_changePassword : string -> string -> js (@world S) result;
  ctx_getAllUsers : js (@world S) (list account);
  ctx_isAuthenticated : bool;
  ctx_loading : bool
}.

Definition provider_value (w : @world S) : auth_context :=
  mkAuthContext (user w) login loginWithGoogle signup logout changePassword getAllUsers
                (isAuthenticated w) (loading w).

(** Lines 231-237: [useAuth] outside the provider throws. *)
Definition useAuth (context : option auth_context) : outcome auth_context :=
  match context with
  | Some ctx => Ok ctx
  | None => Throw (JsError "useAuth must be used within an AuthProvider")
  end.

(** A page load on a browser whose store is [s]: the provider mounts
    with [user] null and [loading] true, and runs [checkAuth]. *)
Definition page_load (c : clock) (s : S) : @world S := snd (checkAuth c (init_world s)).

Inductive app_reach (s0 : S) : @world S -> Prop :=
| app_start c : app_reach s0 (page_load c s0)
| app_next o w w' : app_reach s0 w -> app_step o w w' -> app_reach s0 w'.

End App.

(** Every stored account has a password of six characters or more. *)
Definition pw_ok (x : account) : Prop := 6 <= String.length (password x).

Definition passwords_ok_users (o : option (list account)) : Prop :=
  match o with Some l => Forall pw_ok l | None => True end.

Section WorldEffects.
Context {S : Type} `{KVStoreLaws S}.
Implicit Types (w : @world S).

(** ** What each page handler does to the auth world *)

Lemma signup_handleSubmit_world c w p :
  (snd (signup_handleSubmit c (w, p))).1 =
  if bool_decide (f_password (sp_form p) = sp_confirm p) then snd (signup c (sp_form p) w) else w.
Proof.
  unfold signup_handleSubmit. cbv [js_bind pget pset js_modify lift fst snd].
  case_bool_decide; cbn [negb]; [|done].
  destruct (signup c (sp_form p) w) as [[r|e] w']; cbn; [by destruct (success r) | done].
Qed.

Lemma login_handleSubmit_world c w p :
  (snd (login_handleSubmit c (w, p))).1 = snd (login c (lp_email p) (lp_password p) w).
Proof.
  unfold login_handleSubmit. cbv [js_bind pget pset js_modify lift fst snd].
  destruct (login c _ _ w) as [[r|e] w']; cbn; [by destruct (success r) | done].
Qed.

(** The Google flow of both pages: nothing without a truthy e-mail. *)
Definition google_world (c : clock) (ge gn : option string) w : @world S :=
  match ge with
  | Some e => if truthy (Some e) then snd (loginWithGoogle c (mkGoogle e (or_default gn "Google User")) w) else w
  | None => w
  end.

Lemma login_handleGoogleLogin_world c ge gn w p :
  (snd (login_handleGoogleLogin c ge gn (w, p))).1 = google_world c ge gn w.
Proof.
  unfold login_handleGoogleLogin, google_world. cbv [js_bind pget pset js_modify lift js_ret fst snd].
  destruct ge as [e|]; [|done]. destruct (truthy _); [|done].
  destruct (loginWithGoogle _ _ w) as [[r|x] w']; cbn; [by destruct (success r) | done].
Qed.

Lemma signup_handleGoogleSignup_world c ge gn w p :
  (snd (signup_handleGoogleSignup c ge gn (w, p))).1 = google_world c ge gn w.
Proof.
  unfold signup_handleGoogleSignup, google_world. cbv [js_bind pget pset js_modify lift js_ret fst snd].
  destruct ge as [e|]; [|done]. destruct (truthy _); [|done].
  destruct (loginWithGoogle _ _ w) as [[r|x] w']; cbn; [by destruct (success r) | done].
Qed.

(** A page computation that leaves the auth world alone. *)
Definition world_frame {P A} (m : js (@world S * P) A) : Prop := forall wp, (snd (m wp)).1 = wp.1.

Lemma frame_ret {P A} (a : A) : world_frame (P := P) (js_ret a).
Proof. done. Qed.

Lemma frame_get {P} : world_frame (P := P) js_get.
Proof. done. Qed.

Lemma frame_pget {P} : world_frame (P := P) pget.
Proof. done. Qed.

Lemma frame_pset {P} (f : P -> P) : world_frame (pset f).
Proof. done. Qed.

Lemma frame_bind {P A B} (m : js (@world S * P) A) (k : A -> js (@world S * P) B) :
  world_frame m -> (forall a, world_frame (k a)) -> world_frame (js_bind m k).
Proof.
  intros Hm Hk wp. unfold js_bind. specialize (Hm wp).
  destruct (m wp) as [[a|e] wp']; cbn in *; [by rewrite Hk | done].
Qed.

Lemma frame_getAllUsers {P} : world_frame (P := P) (lift getAllUsers).
Proof.
  intros [w p]. unfold lift. cbn. pose proof (getAllUsers_state w).
  destruct (getAllUsers w); simpl in *; by subst.
Qed.

Lemma frame_show_results r : world_frame (show_results r).
Proof.
  unfold show_results. apply frame_bind; [|intros; apply frame_pset].
  destruct (Api.success (Api.fetchStudentResults r)), (Api.data (Api.fetchStudentResults r));
    apply frame_pset || (apply frame_bind; intros; apply frame_pset).
Qed.

Lemma frame_dashboard_effect : world_frame dashboard_effect.
Proof.
  unfold dashboard_effect.
  apply frame_bind; [apply frame_get | intros [w d]]. cbn [fst].
  repeat first
    [ apply frame_ret | apply frame_pset | apply frame_getAllUsers | apply frame_show_results
    | apply frame_bind; intros | case_match ].
Qed.

Lemma dashboard_effect_world w d : (snd (dashboard_effect (w, d))).1 = w.
Proof. exact (frame_dashboard_effect (w, d)). Qed.

(** The password change of the Dashboard, seen on the world. *)
Definition password_change_world w d : @world S :=
  if bool_decide (newPassword d = EmptyString) || (String.length (newPassword d) <? 6) then w
  else match selectedUser d with
       | Some u => snd (changePassword (Account.email u) (newPassword d) w)
       | None => w
       end.

Lemma handlePasswordChange_world w d :
  (snd (handlePasswordChange (w, d))).1 = password_change_world w d.
Proof.
  unfold handlePasswordChange, password_change_world. cbv [js_bind pget]. cbn [fst snd].
  destruct (_ || _); [done|]. destruct (selectedUser d) as [u|]; cbn; [|done].
  cbv [lift js_bind pset js_modify loadAllUsers]. cbn [fst snd].
  destruct (changePassword _ _ w) as [[r|e] w'] eqn:E; cbn; [|done].
  destruct (success r); cbn; [|done].
  pose proof (getAllUsers_state w') as G.
  destruct (getAllUsers w') as [[us|e'] w''] eqn:E2; simpl in G; by subst.
Qed.

Lemma ui_handler_world a w d :
  (snd (ui_handler a (w, d))).1 =
  match a with
  | UiChangePassword => password_change_world w d
  | UiLogout => snd (logout w)
  | _ => w
  end.
Proof.
  destruct a; try done.
  - apply (proj1 (loadResults_frame w d)).
  - apply handlePasswordChange_world.
Qed.

End WorldEffects.

(** ** What the pages let a visitor do, as obligations on a property *)

Section Preservation.
Context {S : Type} `{KVStoreLaws S}.
Implicit Types (w : @world S).

(** A property of worlds every auth handler keeps, given the arguments
    the pages can pass: a signup password of six characters or more
    (the form's [minLength]) and a new password of six or more (the
    Dashboard's guard). *)
Record handlers_preserve (P : @world S -> Prop) : Prop := {
  hp_checkAuth c w : P w -> P (snd (checkAuth c w));
  hp_signup c d w : 6 <= String.length (f_password d) -> P w -> P (snd (signup c d w));
  hp_login c em pw w : P w -> P (snd (login c em pw w));
  hp_google c g w : P w -> P (snd (loginWithGoogle c g w));
  hp_changePassword t np w : 6 <= String.length np -> P w -> P (snd (changePassword t np w));
  hp_logout w : P w -> P (snd (logout w))
}.

Lemma signup_form_valid_password p : signup_form_valid p = true -> 6 <= String.length (f_password (sp_form p)).
Proof.
  unfold signup_form_valid. intros Hv.
  apply andb_prop in Hv as [Hv _]. apply andb_prop in Hv as [Hv _]. apply andb_prop in Hv as [_ Hv].
  by apply bool_decide_eq_true in Hv.
Qed.

(** What one interaction does to the auth world: one handler call,
    with the arguments the pages pass, or nothing. *)
Inductive handler_effect : option clock -> @world S -> @world S -> Prop :=
| he_checkAuth c w : handler_effect (Some c) w (snd (checkAuth c w))
| he_signup c d w : 6 <= String.length (f_password d) -> handler_effect (Some c) w (snd (signup c d w))
| he_login c em pw w : handler_effect (Some c) w (snd (login c em pw w))
| he_google c g w : handler_effect (Some c) w (snd (loginWithGoogle c g w))
| he_changePassword t np w :
    6 <= String.length np -> handler_effect None w (snd (changePassword t np w))
| he_logout w : handler_effect None w (snd (logout w))
| he_none o w : handler_effect o w w.

Lemma google_world_effect c ge gn w : handler_effect (Some c) w (google_world c ge gn w).
Proof. unfold google_world. repeat case_match; constructor. Qed.

Lemma app_step_effect o w w' : app_step o w w' -> handler_effect o w w'.
Proof.
  destruct 1 as [c w | c p w Hv | c ge gn p w | c p w Hv | c ge gn p w | d w | w d a wd Hst].
  - constructor.
  - rewrite signup_handleSubmit_world. case_bool_decide; [|constructor].
    constructor. by apply signup_form_valid_password.
  - rewrite signup_handleGoogleSignup_world. apply google_world_effect.
  - rewrite login_handleSubmit_world. constructor.
  - rewrite login_handleGoogleLogin_world. apply google_world_effect.
  - rewrite dashboard_effect_world. constructor.
  - inversion Hst as [wp a' Hen Heq1 Heq2 Heq3]; subst. rewrite ui_handler_world.
    destruct a; try constructor.
    unfold password_change_world. destruct (_ || _) eqn:E; [constructor|].
    apply orb_false_iff in E as [_ E]. apply Nat.ltb_ge in E.
    destruct (selectedUser d); by constructor.
Qed.

Lemma preserve_app_step P o w w' : handlers_preserve P -> app_step o w w' -> P w -> P w'.
Proof.
  intros HP Hst%app_step_effect. destruct Hst; intros Hw; try done.
  - by apply hp_checkAuth.
  - by apply hp_signup.
  - by apply hp_login.
  - by apply hp_google.
  - by apply hp_changePassword.
  - by apply hp_logout.
Qed.

(** What every handler keeps holds in every world the app reaches from
    a store that had it. *)
Lemma preserve_app_reach P (s0 : S) w : handlers_preserve P -> P (init_world s0) -> app_reach s0 w -> P w.
Proof.
  intros HP H0 R. induction R as [c | o w w' _ IH Hst]; [unfold page_load; by apply hp_checkAuth | by eapply preserve_app_step].
Qed.

End Preservation.

(** ** Passwords through the pages *)

Section Passwords.
Context {S : Type} `{KVStoreLaws S}.
Implicit Types (w : @world S).

Definition passwords_ok w : Prop := passwords_ok_users (stored_users (storage w)).

Lemma users_after {A} (r : outcome A * @world S) a : absr_r r = a -> stored_users (storage r.2) = a_users a.2.
Proof. by intros <-. Qed.

Lemma pw_ok_intro x : 6 <= String.length (password x) -> pw_ok x.
Proof. done. Qed.

Lemma Forall_snoc_pw l x : Forall pw_ok l -> pw_ok x -> Forall pw_ok (l ++ [x]).
Proof. intros. apply Forall_app. by split; [|apply Forall_singleton]. Qed.

(** The specification of each handler keeps the passwords long
    enough, given a long enough new password. *)
Lemma spec_pw_checkAuth c a :
  passwords_ok_users (a_users a) -> passwords_ok_users (a_users (spec_checkAuth c a).2).
Proof.
  destruct a as [[l|] sn u b]; cbn; [|done]. intros Hl. unfold seed_admin.
  destruct js_some; [done|]. apply Forall_snoc_pw; [done|]. apply pw_ok_intro. cbn. lia.
Qed.

Lemma spec_pw_signup c d a :
  6 <= String.length (f_password d) ->
  passwords_ok_users (a_users a) -> passwords_ok_users (a_users (spec_signup c d a).2).
Proof.
  intros Hd. destruct a as [[l|] sn u b]; cbn; [|done]. intros Hl.
  destruct js_some; cbn; [done|]. by apply Forall_snoc_pw.
Qed.

Lemma spec_pw_login em pw a :
  passwords_ok_users (a_users a) -> passwords_ok_users (a_users (spec_login em pw a).2).
Proof. destruct a as [[l|] sn u b]; cbn; [|done]. by destruct js_find. Qed.

Lemma spec_pw_google c g a :
  passwords_ok_users (a_users a) -> passwords_ok_users (a_users (spec_loginWithGoogle c g a).2).
Proof.
  destruct a as [[l|] sn u b]; cbn; [|done]. intros Hl. unfold google_target.
  destruct js_find; cbn; [done|]. apply Forall_snoc_pw; [done|].
  apply pw_ok_intro. cbn. rewrite sapp_length. cbn. lia.
Qed.

Lemma spec_pw_changePassword t np a :
  6 <= String.length np ->
  passwords_ok_users (a_users a) -> passwords_ok_users (a_users (spec_changePassword t np a).2).
Proof.
  intros Hnp. destruct a as [[l|] sn u b]; cbn; [|done]. intros Hl.
  destruct js_find; cbn; [|done]. apply Forall_alter; [done|]. intros x _ _. apply Hnp.
Qed.

Ltac pw_case r := unfold passwords_ok; rewrite (users_after _ _ r).

Lemma pw_checkAuth c w : passwords_ok w -> passwords_ok (snd (checkAuth c w)).
Proof. pw_case (checkAuth_refines c w). apply (spec_pw_checkAuth c (absr w)). Qed.

Lemma pw_signup c d w : 6 <= String.length (f_password d) -> passwords_ok w -> passwords_ok (snd (signup c d w)).
Proof. intros Hd. pw_case (signup_refines c d w). by apply (spec_pw_signup c d (absr w)). Qed.

Lemma pw_login c em pw w : passwords_ok w -> passwords_ok (snd (login c em pw w)).
Proof. pw_case (login_refines c em pw w). apply (spec_pw_login em pw (absr w)). Qed.

Lemma pw_google c g w : passwords_ok w -> passwords_ok (snd (loginWithGoogle c g w)).
Proof. pw_case (loginWithGoogle_refines c g w). apply (spec_pw_google c g (absr w)). Qed.

Lemma pw_changePassword t np w :
  6 <= String.length np -> passwords_ok w -> passwords_ok (snd (changePassword t np w)).
Proof. intros Hnp. pw_case (changePassword_refines t np w). by apply (spec_pw_changePassword t np (absr w)). Qed.

Lemma pw_logout w : passwords_ok w -> passwords_ok (snd (logout w)).
Proof. pw_case (logout_refines w). done. Qed.

(** The handlers keep the passwords long enough, with the arguments
    the pages pass. *)
Lemma pw_preserve : handlers_preserve passwords_ok.
Proof.
  split; eauto using pw_checkAuth, pw_signup, pw_login, pw_google, pw_changePassword, pw_logout.
Qed.

(** C10: through the pages, every stored password has at least six
    characters: the Signup form's [minLength="6"], the Dashboard's
    guard, the fixed admin password and the ["google-" ++ email]
    passwords keep it, from any store that had it (the empty one
    included), although [signup] and [changePassword] accept any
    password. *)
Theorem app_passwords_ok (s0 : S) w :
  app_reach s0 w -> passwords_ok_users (stored_users s0) -> passwords_ok w.
Proof. intros R H0. exact (preserve_app_reach passwords_ok s0 w pw_preserve H0 R). Qed.

End Passwords.

(** ** Accounts are never lost *)

(** An account with its password blanked: the fields no handler may
    change once the account is stored. *)
Definition without_password (x : account) : account := set_password EmptyString x.

(** [o'] keeps, in order and at the front, every account of [o] but
    for its password. *)
Definition users_grow (o o' : option (list account)) : Prop :=
  forall l, o = Some l -> exists l', o' = Some l' /\ (without_password <$> l) `prefix_of` (without_password <$> l').

Section Growth.
Context {S : Type} `{KVStoreLaws S}.
Implicit Types (w : @world S).

Lemma users_grow_refl o : users_grow o o.
Proof. intros l ->. by exists l. Qed.

Lemma users_grow_trans o1 o2 o3 : users_grow o1 o2 -> users_grow o2 o3 -> users_grow o1 o3.
Proof.
  intros H12 H23 l E. destruct (H12 l E) as (l2 & E2 & P2). destruct (H23 l2 E2) as (l3 & E3 & P3).
  exists l3. split; [done|]. by transitivity (without_password <$> l2).
Qed.

Lemma users_grow_snoc l x : users_grow (Some l) (Some (l ++ [x])).
Proof. intros l' [= <-]. eexists. split; [done|]. rewrite fmap_app. by apply prefix_app_r. Qed.

Lemma without_password_alter np (i : nat) (l : list account) :
  without_password <$> alter (set_password np) i l = without_password <$> l.
Proof. revert i. induction l as [|x l IH]; intros [|i]; cbn; rewrite ?IH; done. Qed.

Lemma spec_grow_checkAuth c a : users_grow (a_users a) (a_users (spec_checkAuth c a).2).
Proof.
  destruct a as [[l|] sn u b]; cbn; [|apply users_grow_refl].
  unfold seed_admin. destruct js_some; [apply users_grow_refl | apply users_grow_snoc].
Qed.

Lemma spec_grow_signup c d a : users_grow (a_users a) (a_users (spec_signup c d a).2).
Proof.
  destruct a as [[l|] sn u b]; cbn; [|apply users_grow_refl].
  destruct js_some; [apply users_grow_refl | apply users_grow_snoc].
Qed.

Lemma spec_grow_login em pw a : users_grow (a_users a) (a_users (spec_login em pw a).2).
Proof. destruct a as [[l|] sn u b]; cbn; [|apply users_grow_refl]. destruct js_find; apply users_grow_refl. Qed.

Lemma spec_grow_google c g a : users_grow (a_users a) (a_users (spec_loginWithGoogle c g a).2).
Proof.
  destruct a as [[l|] sn u b]; cbn; [|apply users_grow_refl].
  unfold google_target. destruct js_find; [apply users_grow_refl | apply users_grow_snoc].
Qed.

Lemma spec_grow_changePassword t np a : users_grow (a_users a) (a_users (spec_changePassword t np a).2).
Proof.
  destruct a as [[l|] sn u b]; cbn; [|apply users_grow_refl].
  destruct js_find; cbn; [|apply users_grow_refl].
  intros l' [= <-]. eexists. split; [done|]. by rewrite without_password_alter.
Qed.

Definition grows_from (o0 : option (list account)) w : Prop := users_grow o0 (stored_users (storage w)).

Ltac grow_case r := intros; eapply users_grow_trans; [eassumption|]; rewrite (users_after _ _ r).

(** Every handler keeps what the store held, passwords apart. *)
Lemma grow_preserve o0 : handlers_preserve (grows_from o0).
Proof.
  unfold grows_from. split.
  - intros c w. grow_case (checkAuth_refines c w). apply (spec_grow_checkAuth c (absr w)).
  - intros c d w. grow_case (signup_refines c d w). apply (spec_grow_signup c d (absr w)).
  - intros c em pw w. grow_case (login_refines c em pw w). apply (spec_grow_login em pw (absr w)).
  - intros c g w. grow_case (loginWithGoogle_refines c g w). apply (spec_grow_google c g (absr w)).
  - intros t np w. grow_case (changePassword_refines t np w). apply (spec_grow_changePassword t np (absr w)).
  - intros w. grow_case (logout_refines w). apply (users_grow_refl (a_users (absr w))).
Qed.

Lemma accounts_kept (s0 : S) w l0 :
  app_reach s0 w -> stored_users s0 = Some l0 ->
  exists l, stored_users (storage w) = Some l /\ (without_password <$> l0) `prefix_of` (without_password <$> l).
Proof.
  intros R E. apply (preserve_app_reach (grows_from (stored_users s0)) s0 w (grow_preserve _)); [|done|done].
  apply users_grow_refl.
Qed.

(** C30: through the pages, no account is ever deleted, reordered or
    changed except for its password: from a store whose list parses,
    every reachable world's list parses and starts with the accounts of
    the first store, in order, each with all its fields but the
    password unchanged. *)
Theorem accounts_never_lost (s0 : S) w l0 :
  app_reach s0 w -> stored_users s0 = Some l0 ->
  exists l, stored_users (storage w) = Some l /\ (without_password <$> l0) `prefix_of` (without_password <$> l).
Proof. exact (accounts_kept s0 w l0). Qed.

End Growth.

(** ** Sessions across page loads *)

Section Reload.
Context {S : Type} `{KVStoreLaws S}.
Implicit Types (w : @world S).

(** A page load restores what the specification of [checkAuth] makes of
    the store. *)
Lemma page_load_user c (s : S) :
  user (page_load c s) = a_user (spec_checkAuth c (mkA (stored_users s) (restore_result s) None true)).2.
Proof.
  transitivity (a_user (absr (snd (checkAuth c (init_world s))))); [done|].
  by rewrite absr_snd, checkAuth_refines.
Qed.

Lemma absr_login_found c em pw w l f :
  stored_users (storage w) = Some l -> js_find (credentials_match em pw) l = Some f ->
  absr (snd (login c em pw w)) = a_open f (absr w).
Proof. intros Hl Hf. rewrite absr_snd, login_refines. unfold spec_login. cbn. by rewrite Hl, Hf. Qed.

Lemma reload_session c c' em pw w l f :
  stored_users (storage w) = Some l -> js_find (credentials_match em pw) l = Some f ->
  let w1 := snd (login c em pw w) in
  user (page_load c' (storage w1)) = Some (derive_role f) /\
  user (page_load c' (storage (snd (logout w1)))) = None.
Proof.
  intros Hl Hf w1. assert (E : absr w1 = a_open f (absr w)) by exact (absr_login_found c em pw w l f Hl Hf).
  rewrite !page_load_user. split.
  - change (stored_users (storage w1)) with (a_users (absr w1)).
    change (restore_result (storage w1)) with (a_snapshot (absr w1)). rewrite E. cbn. by rewrite Hl.
  - change (stored_users (storage (snd (logout w1)))) with (a_users (absr (snd (logout w1)))).
    change (restore_result (storage (snd (logout w1)))) with (a_snapshot (absr (snd (logout w1)))).
    rewrite absr_snd, logout_refines. cbn. change (stored_users (storage w1)) with (a_users (absr w1)).
    rewrite E. cbn. by rewrite Hl.
Qed.

(** C34: a session persists across page loads until logout: after a
    successful login, reloading the page restores the session of the
    account found (with its derived role) from [localStorage]; after a
    logout, reloading the page restores none. *)
Theorem session_survives_reload c c' em pw w l f :
  stored_users (storage w) = Some l -> js_find (credentials_match em pw) l = Some f ->
  let w1 := snd (login c em pw w) in
  user (page_load c' (storage w1)) = Some (derive_role f) /\
  user (page_load c' (storage (snd (logout w1)))) = None.
Proof. exact (reload_session c c' em pw w l f). Qed.

End Reload.

(** ** The credentials the Login page advertises *)

Section Advertised.
Context {S : Type} `{KVStoreLaws S}.

Lemma fst_absr_r {A} (r : outcome A * @world S) : r.1 = (absr_r r).1.
Proof. done. Qed.

Lemma no_match_find {A} (p : A -> bool) l : (forall x, x ∈ l -> p x = false) -> js_find p l = None.
Proof. apply js_find_None. Qed.

(** After start-up on a store whose accounts have neither the admin
    e-mail nor [em], [login em pw] succeeds exactly for the seeded
    admin's credentials. *)
Lemma login_after_mount c c' (s : S) l em pw :
  stored_users s = Some l -> (forall x, x ∈ l -> email x <> em /\ email x <> ADMIN_EMAIL) ->
  (login c' em pw (snd (checkAuth c (init_world s)))).1 =
  if credentials_match em pw (default_admin c) then Ok success_only
  else Ok (failure "Invalid email or password").
Proof.
  intros Hl Hx. rewrite fst_absr_r, login_refines, absr_snd, checkAuth_refines.
  unfold spec_checkAuth, spec_login. cbn. rewrite Hl. cbn. unfold seed_admin.
  assert (Hs : js_some (fun u => is_admin_email (email u)) l = false).
  { rewrite js_some_find, no_match_find; [done|].
    intros x Hx'. unfold is_admin_email. by rewrite bool_decide_eq_false_2 by apply (Hx x Hx'). }
  rewrite Hs, js_find_app, no_match_find; cbn.
  - by destruct credentials_match.
  - intros x Hx'. unfold credentials_match. by rewrite bool_decide_eq_false_2 by apply (Hx x Hx').
Qed.

(** C16: on a store whose accounts use none of the advertised e-mails
    (a fresh browser in particular), the admin credentials the Login
    page shows open a session, and the two demo student credentials it
    shows are refused: no code ever creates those accounts. *)
Theorem advertised_logins c c' (s : S) l :
  stored_users s = Some l ->
  (forall x, x ∈ l -> email x ∉ fst <$> advertised_credentials) ->
  let w := page_load c s in
  (login c' ADMIN_EMAIL "admin123" w).1 = Ok success_only /\
  (forall em pw, (em, pw) ∈ tail advertised_credentials ->
   (login c' em pw w).1 = Ok (failure "Invalid email or password")).
Proof.
  intros Hl Hx w. split.
  - rewrite (login_after_mount c c' s l); [done | done |].
    intros x Hx'. pose proof (Hx x Hx') as Hn. split; intros E; apply Hn; rewrite E; by left.
  - intros em pw Hin. rewrite (login_after_mount c c' s l); [| done |].
    + apply elem_of_cons in Hin as [[= -> ->] | Hin];
        [|apply list_elem_of_singleton in Hin as [= -> ->]]; done.
    + intros x Hx'. pose proof (Hx x Hx') as Hn.
      split; intros E; apply Hn; rewrite E; [|by left].
      apply elem_of_cons in Hin as [[= -> ->] | Hin];
        [|apply list_elem_of_singleton in Hin as [= -> ->]]; cbn; set_solver.
Qed.

End Advertised.

(** ** A new student's journey: sign up, then log in *)

Section Journey.
Context {S : Type} `{KVStoreLaws S}.

(** A Signup form the browser submits holds an e-mail and a password
    the Login form accepts too. *)
Lemma signup_form_login_valid p e b r :
  signup_form_valid p = true ->
  login_form_valid (mkLoginPage (f_email (sp_form p)) (f_password (sp_form p)) e b r) = true.
Proof.
  unfold signup_form_valid, login_form_valid. cbn. rewrite !andb_true_iff. tauto.
Qed.

Lemma find_credentials_snoc l x :
  (forall y, y ∈ l -> email y <> email x) ->
  js_find (credentials_match (email x) (password x)) (l ++ [x]) = Some x.
Proof.
  intros Hfresh. rewrite js_find_app, no_match_find; cbn.
  - unfold credentials_match. by rewrite !bool_decide_eq_true_2.
  - intros y Hy. unfold credentials_match. by rewrite bool_decide_eq_false_2 by apply (Hfresh y Hy).
Qed.

(** The Login form with credentials an account matches first goes to
    the dashboard with that account's session. *)
Lemma login_handleSubmit_found c s u b l p f :
  stored_users s = Some l -> js_find (credentials_match (lp_email p) (lp_password p)) l = Some f ->
  let r := snd (login_handleSubmit c (mkWorld s u b, p)) in
  lp_route r.2 = Some "/dashboard" /\ user r.1 = Some (derive_role f).
Proof.
  intros Hl Hf r. unfold r, login_handleSubmit. cbv [js_bind pget pset js_modify lift]. simpl.
  rewrite (login_spec c _ _ s u b l Hl), Hf. done.
Qed.

Lemma signup_then_login (s0 : S) w c c' p l :
  app_reach s0 w -> stored_users (storage w) = Some l ->
  signup_form_valid p = true -> f_password (sp_form p) = sp_confirm p ->
  (forall x, x ∈ l -> email x <> f_email (sp_form p)) ->
  let lp := mkLoginPage (f_email (sp_form p)) (f_password (sp_form p)) None false None in
  let r := snd (login_handleSubmit c' ((snd (signup_handleSubmit c (w, p))).1, lp)) in
  app_reach s0 r.1 /\ lp_route r.2 = Some "/dashboard" /\
  user r.1 = Some (derive_role (new_user c (sp_form p))).
Proof.
  intros R Hl Hv Hpw Hfresh lp r. split.
  { eapply app_next; [eapply app_next; [exact R | by apply app_signup] |].
    by apply app_login, signup_form_login_valid. }
  destruct w as [s u b]. cbn in Hl.
  destruct (signup_appends c (sp_form p) s u b l Hl Hfresh) as (s' & E & Hs').
  unfold r. rewrite signup_handleSubmit_world, bool_decide_eq_true_2, E by done.
  apply (login_handleSubmit_found c' s' u b _ lp _ Hs'). exact (find_credentials_snoc l (new_user c (sp_form p)) Hfresh).
Qed.

(** C29: from any world the app reaches where the account list parses,
    a visitor who submits the Signup form (accepted by the browser,
    matching passwords, an e-mail no account has) and then the Login
    form with the same e-mail and password reaches the dashboard with
    a session for the account just created, along two steps of the
    app. *)
Theorem signup_login_journey (s0 : S) w c c' p l :
  app_reach s0 w -> stored_users (storage w) = Some l ->
  signup_form_valid p = true -> f_password (sp_form p) = sp_confirm p ->
  (forall x, x ∈ l -> email x <> f_email (sp_form p)) ->
  let lp := mkLoginPage (f_email (sp_form p)) (f_password (sp_form p)) None false None in
  let r := snd (login_handleSubmit c' ((snd (signup_handleSubmit c (w, p))).1, lp)) in
  app_reach s0 r.1 /\ lp_route r.2 = Some "/dashboard" /\
  user r.1 = Some (derive_role (new_user c (sp_form p))).
Proof. exact (signup_then_login s0 w c c' p l). Qed.

End Journey.

(** ** The properties at concrete inputs: a fresh browser, a signup
    through the form, and the Login page's info box. *)

Local Abbreviation c0 := (mkClock 1700000000000 "2023-11-14T22:13:20.000Z").
Local Abbreviation s_empty := (∅ : gmap string string).
Local Abbreviation w_mounted := (snd (checkAuth c0 (init_world s_empty))).
Local Abbreviation page :=
  (mkSignupPage (mkForm "S One" "F" "10th" "s1@x.com" "abcdef" "R1" "student") "abcdef" None None false None None).

Lemma app_passwords_ok_witness : passwords_ok (snd (signup_handleSubmit c0 (w_mounted, page))).1.
Proof.
  apply (app_passwords_ok s_empty).
  - eapply app_next; [apply app_start | apply app_signup]. vm_compute. reflexivity.
  - vm_compute. constructor.
Defined.

Lemma advertised_logins_witness :
  (login c0 ADMIN_EMAIL "admin123" w_mounted).1 = Ok success_only /\
  (forall em pw, (em, pw) ∈ tail advertised_credentials ->
   (login c0 em pw w_mounted).1 = Ok (failure "Invalid email or password")).
Proof.
  apply (advertised_logins c0 c0 s_empty []).
  - vm_compute. reflexivity.
  - intros x Hx. by apply elem_of_nil in Hx.
Defined.

Lemma signup_login_journey_witness :
  let lp := mkLoginPage "s1@x.com" "abcdef" None false None in
  let r := snd (login_handleSubmit c0 ((snd (signup_handleSubmit c0 (w_mounted, page))).1, lp)) in
  app_reach s_empty r.1 /\ lp_route r.2 = Some "/dashboard" /\
  user r.1 = Some (derive_role (new_user c0 (sp_form page))).
Proof.
  apply (signup_login_journey s_empty w_mounted c0 c0 page [default_admin c0]).
  - apply app_start.
  - vm_compute. reflexivity.
  - vm_compute. reflexivity.
  - reflexivity.
  - intros x Hx. apply list_elem_of_singleton in Hx as ->. vm_compute. discriminate.
Defined.

Lemma accounts_never_lost_witness :
  exists l, stored_users (storage (snd (signup_handleSubmit c0 (w_mounted, page))).1) = Some l /\
            (without_password <$> []) `prefix_of` (without_password <$> l).
Proof.
  apply (accounts_never_lost s_empty _ []).
  - eapply app_next; [apply app_start | apply app_signup]. vm_compute. reflexivity.
  - vm_compute. reflexivity.
Defined.

Lemma session_survives_reload_witness :
  let w1 := snd (login c0 ADMIN_EMAIL "admin123" w_mounted) in
  user (page_load c0 (storage w1)) = Some (derive_role (default_admin c0)) /\
  user (page_load c0 (storage (snd (logout w1)))) = None.
Proof.
  apply (session_survives_reload c0 c0 ADMIN_EMAIL "admin123" w_mounted [default_admin c0]);
    vm_compute; reflexivity.
Defined.

End App.
