(* ===== verification/Ids.v ===== *)
(** * Account identifiers and the clock

    [AuthContext.js] mints an account's [id] from the clock: the seeded
    admin gets the fixed ['admin-default'] (line 27), a signup
    [Date.now().toString()] (line 78), a Google account
    [`google-${Date.now()}`] (line 138).  The specification calls the
    identifier unique.  [id_minted t] is the shape of an id minted no
    later than [t]; [ids_ok t] says the ids of a stored list are
    distinct and so minted.  [timed_reach] is [App.app_reach] on runs
    whose clock strictly advances between the steps that read it.

    On such runs the ids stay distinct ([ids_unique]); when two accounts
    are created within the same millisecond (two tabs, or a clock set
    back) they share an id ([same_millisecond_ids]). *)

From stdpp Require Import base strings list gmap.
From S2P Require Import Prelude Json Account Storage Auth Session Spec Api Pages Forms Ui App.
Import Account Storage Auth Session Spec Pages Forms Ui App.

Module Ids.

(** An id the code mints no later than time [t]. *)
Definition id_minted (t : N) (x : account) : Prop :=
  (id x = "admin-default" /\ is_admin_email (email x) = true) \/
  exists n, (n <= t)%N /\ (id x = string_of_N n \/ id x = "google-" +:+ string_of_N n).

(** A stored list whose ids are distinct and minted by [t]. *)
Definition ids_ok (t : N) (o : option (list account)) : Prop :=
  match o with Some l => NoDup (id <$> l) /\ Forall (id_minted t) l | None => True end.

(** The property the specification asks of the stored accounts. *)
Definition unique_ids {S} `{KVStore S} (w : @world S) : Prop :=
  forall l, stored_users (storage w) = Some l -> NoDup (id <$> l).

(** The clock a step reads is later than [t]; the time after it. *)
Definition clock_after (t : N) (o : option clock) : Prop :=
  match o with Some c => (t < now_ms c)%N | None => True end.
Definition time_after (t : N) (o : option clock) : N :=
  match o with Some c => now_ms c | None => t end.

Section Timed.
Context {S : Type} `{KVStoreLaws S}.

(** Runs from a store whose ids were minted by [t0], each step reading
    a clock later than the one before. *)
Inductive timed_reach (s0 : S) (t0 : N) : N -> @world S -> Prop :=
| timed_start c : (t0 < now_ms c)%N -> timed_reach s0 t0 (now_ms c) (page_load c s0)
| timed_step o t w w' :
    timed_reach s0 t0 t w -> clock_after t o -> app_step o w w' ->
    timed_reach s0 t0 (time_after t o) w'.

End Timed.

(** ** Minted ids never meet *)

Lemma string_of_N_not_letter n c r : (57 < Ascii.N_of_ascii c)%N -> string_of_N n <> String c r.
Proof. intros Hc E. destruct (string_of_N_head n) as (c' & r' & E' & Hc'). rewrite E in E'. simplify_eq. lia. Qed.

Lemma minted_mono t t' x : id_minted t x -> (t <= t')%N -> id_minted t' x.
Proof. intros [Ha | (n & Hn & Hx)] Ht; [by left | right; exists n; split; [lia | done]]. Qed.

Lemma minted_not_signup t ms y : id_minted t y -> (t < ms)%N -> id y <> string_of_N ms.
Proof.
  intros [[-> _] | (n & Hn & [-> | ->])] Ht E.
  - symmetry in E. by apply string_of_N_not_letter in E.
  - apply string_of_N_inj in E. lia.
  - symmetry in E. by apply string_of_N_not_letter in E.
Qed.

Lemma minted_not_google t ms y : id_minted t y -> (t < ms)%N -> id y <> "google-" +:+ string_of_N ms.
Proof.
  intros [[-> _] | (n & Hn & [-> | ->])] Ht E; [discriminate| |].
  - by apply string_of_N_not_letter in E.
  - cbn in E. simplify_eq. apply string_of_N_inj in E. lia.
Qed.

Lemma minted_not_admin t y : id_minted t y -> is_admin_email (email y) = false -> id y <> "admin-default".
Proof.
  intros [[_ Ha] | (n & Hn & [-> | ->])] Hf E; [congruence | |discriminate].
  by apply string_of_N_not_letter in E.
Qed.

(** ** Each handler keeps the ids distinct *)

Lemma NoDup_fmap_snoc {A B} (f : A -> B) l x :
  NoDup (f <$> l) -> (forall y, y ∈ l -> f y <> f x) -> NoDup (f <$> l ++ [x]).
Proof.
  intros Hnd Hfresh. rewrite fmap_app. apply NoDup_app. split; [done|]. split; [|apply NoDup_singleton].
  intros e (y & -> & Hy)%list_elem_of_fmap He.
  rewrite list_fmap_singleton, list_elem_of_singleton in He. by apply (Hfresh y).
Qed.

Lemma ids_ok_mono t t' o : ids_ok t o -> (t <= t')%N -> ids_ok t' o.
Proof.
  destruct o as [l|]; [|done]. intros [Hnd Hm] Ht. split; [done|].
  eapply Forall_impl; [exact Hm|]. intros x Hx. by eapply minted_mono.
Qed.

Lemma ids_ok_snoc t l x :
  ids_ok t (Some l) -> id_minted t x -> (forall y, y ∈ l -> id y <> id x) -> ids_ok t (Some (l ++ [x])).
Proof.
  intros [Hnd Hm] Hx Hfresh. split; [by apply NoDup_fmap_snoc|].
  apply Forall_app. by split; [|apply Forall_singleton].
Qed.

Lemma js_some_false {A} (p : A -> bool) l y : js_some p l = false -> y ∈ l -> p y = false.
Proof.
  intros E Hy. destruct (p y) eqn:Ey; [|done].
  assert (js_some p l = true) by (apply js_some_true; eauto). congruence.
Qed.

Lemma ids_spec_checkAuth t c a : ids_ok t (a_users a) -> ids_ok t (a_users (spec_checkAuth c a).2).
Proof.
  destruct a as [[l|] sn u b]; cbn; [|done]. intros Hl. unfold seed_admin.
  destruct js_some eqn:E; [done|]. apply ids_ok_snoc; [done | by left |].
  intros y Hy. destruct Hl as [_ Hm]. rewrite Forall_forall in Hm.
  apply (minted_not_admin t); [by apply Hm | exact (js_some_false _ _ _ E Hy)].
Qed.

Lemma ids_spec_signup t c d a :
  (t < now_ms c)%N -> ids_ok t (a_users a) -> ids_ok (now_ms c) (a_users (spec_signup c d a).2).
Proof.
  intros Ht. destruct a as [[l|] sn u b]; cbn; [|done]. intros Hl.
  destruct js_some; cbn; [apply (ids_ok_mono t _ (Some l)); [done | lia]|].
  apply ids_ok_snoc; [apply (ids_ok_mono t _ (Some l)); [done | lia] | right; exists (now_ms c); split; [lia | by left] |].
  intros y Hy. destruct Hl as [_ Hm]. rewrite Forall_forall in Hm. by apply (minted_not_signup t); [apply Hm|].
Qed.

Lemma ids_spec_login t em pw a : ids_ok t (a_users a) -> ids_ok t (a_users (spec_login em pw a).2).
Proof. destruct a as [[l|] sn u b]; cbn; [|done]. by destruct js_find. Qed.

Lemma ids_spec_google t c g a :
  (t < now_ms c)%N -> ids_ok t (a_users a) -> ids_ok (now_ms c) (a_users (spec_loginWithGoogle c g a).2).
Proof.
  intros Ht. destruct a as [[l|] sn u b]; cbn; [|done]. intros Hl. unfold google_target.
  destruct js_find; cbn; [apply (ids_ok_mono t _ (Some l)); [done | lia]|].
  apply ids_ok_snoc; [apply (ids_ok_mono t _ (Some l)); [done | lia] | right; exists (now_ms c); split; [lia | by right] |].
  intros y Hy. destruct Hl as [_ Hm]. rewrite Forall_forall in Hm. by apply (minted_not_google t); [apply Hm|].
Qed.

Lemma id_alter np (i : nat) (l : list account) : id <$> alter (set_password np) i l = id <$> l.
Proof. revert i. induction l as [|x l IH]; intros [|i]; cbn; rewrite ?IH; done. Qed.

Lemma ids_spec_changePassword t tg np a : ids_ok t (a_users a) -> ids_ok t (a_users (spec_changePassword tg np a).2).
Proof.
  destruct a as [[l|] sn u b]; cbn; [|done]. intros [Hnd Hm].
  destruct js_find; cbn; [|done]. rewrite id_alter. split; [done|].
  apply Forall_alter; [done|]. intros x _ Hx. destruct Hx as [Ha | Hn]; [by left | by right].
Qed.

(** ** Along a run whose clock advances *)

Section Runs.
Context {S : Type} `{KVStoreLaws S}.
Implicit Types (w : @world S).

Definition ids_at (t : N) w : Prop := ids_ok t (stored_users (storage w)).

Lemma ids_effect o t w w' :
  handler_effect o w w' -> clock_after t o -> ids_at t w -> ids_at (time_after t o) w'.
Proof.
  unfold ids_at. destruct 1 as [c w | c d w Hd | c em pw w | c g w | tg np w Hnp | w | o' w]; cbn [time_after clock_after]; intros Ht Hw.
  - rewrite (users_after _ _ (checkAuth_refines c w)).
    apply (ids_ok_mono t); [apply (ids_spec_checkAuth t c (absr w)), Hw | lia].
  - rewrite (users_after _ _ (signup_refines c d w)). by apply (ids_spec_signup t c d (absr w)).
  - rewrite (users_after _ _ (login_refines c em pw w)).
    apply (ids_ok_mono t); [apply (ids_spec_login t em pw (absr w)), Hw | lia].
  - rewrite (users_after _ _ (loginWithGoogle_refines c g w)). by apply (ids_spec_google t c g (absr w)).
  - rewrite (users_after _ _ (changePassword_refines tg np w)). apply (ids_spec_changePassword t tg np (absr w)), Hw.
  - rewrite (users_after _ _ (logout_refines w)). exact Hw.
  - destruct o' as [c|]; cbn in *; [apply (ids_ok_mono t); [done | lia] | done].
Qed.

Lemma timed_ids (s0 : S) t0 t w : timed_reach s0 t0 t w -> ids_ok t0 (stored_users s0) -> ids_at t w.
Proof.
  intros R H0. induction R as [c Hc | o t w w' R IH Ho Hst].
  - apply (ids_effect (Some c) t0 (init_world s0)); [constructor | exact Hc | exact H0].
  - apply (ids_effect o t w); [by apply app_step_effect | done | exact IH].
Qed.

Lemma timed_reach_app_reach (s0 : S) t0 t w : timed_reach s0 t0 t w -> app_reach s0 w.
Proof. induction 1; [apply app_start | by eapply app_next]. Qed.

Lemma ids_distinct (s0 : S) t0 t w : timed_reach s0 t0 t w -> ids_ok t0 (stored_users s0) -> unique_ids w.
Proof. intros R H0 l E. pose proof (timed_ids s0 t0 t w R H0) as Hw. unfold ids_at in Hw. rewrite E in Hw. apply Hw. Qed.

(** C31: on every run whose clock advances between the steps that read
    it, from a store whose ids were minted before the run, the stored
    accounts keep distinct ids: the seeded admin's fixed id, the
    signup ids [Date.now().toString()] and the Google ids
    [google-${Date.now()}] never meet. *)
Theorem ids_unique (s0 : S) t0 t w : timed_reach s0 t0 t w -> ids_ok t0 (stored_users s0) -> unique_ids w.
Proof. exact (ids_distinct s0 t0 t w). Qed.

End Runs.

(** ** Concrete runs *)

Local Abbreviation c1 := (mkClock 1700000000000 "2023-11-14T22:13:20.000Z").
Local Abbreviation c2 := (mkClock 1700000000001 "2023-11-14T22:13:20.001Z").
Local Abbreviation s_empty := (∅ : gmap string string).
Local Abbreviation page e :=
  (mkSignupPage (mkForm "S One" "F" "10th" e "abcdef" "R1" "student") "abcdef" None None false None None).
Local Abbreviation after_signup c e w := (snd (signup_handleSubmit c (w, page e))).1.

(** C32: the ids are not unique when two accounts are created within
    one millisecond: on a fresh browser, two signups through the form
    with different e-mails and the same [Date.now()] store two accounts
    with the id ["1700000000000"]. *)
Theorem same_millisecond_ids :
  let w := after_signup c1 "b@x.com" (after_signup c1 "a@x.com" (page_load c1 s_empty)) in
  app_reach s_empty w /\ ~ unique_ids w.
Proof.
  intros w. split.
  - eapply app_next; [eapply app_next; [apply app_start|] |]; apply app_signup; vm_compute; reflexivity.
  - intros U. destruct (stored_users (storage w)) as [l|] eqn:E; [|by vm_compute in E].
    pose proof E as E'. vm_compute in E'. injection E' as <-. apply U in E.
    match type of E with NoDup ?x => assert (Hb : bool_decide (NoDup x) = true) by (apply bool_decide_eq_true_2, E) end.
    vm_compute in Hb. discriminate.
Qed.

Lemma ids_unique_witness :
  unique_ids (after_signup c2 "a@x.com" (page_load c1 s_empty)).
Proof.
  apply (ids_unique s_empty 0 (now_ms c2)).
  - eapply (timed_step _ _ (Some c2)); [apply (timed_start _ _ c1); cbn; lia | cbn; lia |].
    apply app_signup. vm_compute. reflexivity.
  - split; constructor.
Defined.

End Ids.
